(** * AWS request signing and credential resolution of [port/cpl_aws.cpp]

    A shallow embedding of the routines of [cpl_aws.cpp] (CPL, the Common
    Portability Library of GDAL) and the properties its specification
    states about them.

    Part I holds the embedding: byte strings, the CPL helpers the file
    calls, and then the functions of [cpl_aws.cpp] in the order of the
    source.  Part II holds the lemmas and theorems.

    Conventions.  A [CPLString]/[std::string] is a [string]: a sequence of
    bytes ([ascii]), NUL bytes included.  A [const char*] is represented by
    its content, the bytes before the terminating NUL.  A function that
    writes through reference parameters returns the written values. *)

From Stdlib Require Import Bool Arith ZArith Lia List Ascii String.
From Stdlib Require Import Permutation DecimalString.
From Equations Require Import Equations.
Import ListNotations.

Local Open Scope string_scope.
Local Open Scope Z_scope.

(* ===================================================================== *)
(** * Part I. The embedding                                               *)
(* ===================================================================== *)

(* --------------------------------------------------------------------- *)
(** ** Bytes                                                              *)
(* --------------------------------------------------------------------- *)

(** [static_cast<unsigned char>(ch)]: the byte as a number in 0..255. *)
Definition uchar (ch : ascii) : Z := Z.of_N (N_of_ascii ch).

(** A plain [char] promoted to [int].  [char] is signed on the x86 targets:
    bytes above 127 are negative.  (Where [char] is unsigned they are above
    every ASCII constant instead; no comparison of this file tells the two
    apart.) *)
Definition chr (ch : ascii) : Z :=
  if uchar ch <? 128 then uchar ch else uchar ch - 256.

Definition NUL : ascii := ascii_of_nat 0.
Definition TAB : ascii := ascii_of_nat 9.
Definition LF : ascii := ascii_of_nat 10.
Definition CR : ascii := ascii_of_nat 13.
Definition SPACE : ascii := ascii_of_nat 32.

(** The one-byte string. *)
Definition str1 (ch : ascii) : string := String ch EmptyString.

(** The C escape ["\n"] as a string. *)
Definition nl : string := str1 LF.

(* --------------------------------------------------------------------- *)
(** ** [std::string] operations                                           *)
(* --------------------------------------------------------------------- *)

(** [n] copies of a byte. *)
Fixpoint string_repeat (ch : ascii) (n : nat) : string :=
  match n with
  | O => EmptyString
  | S n' => String ch (string_repeat ch n')
  end.

(** [s.resize(n)]: the first [n] bytes of [s]; a shorter [s] is extended to
    [n] bytes with value-initialised characters, that is NUL bytes. *)
Fixpoint string_resize (n : nat) (s : string) : string :=
  match n with
  | O => EmptyString
  | S n' =>
      match s with
      | EmptyString => string_repeat NUL n
      | String ch rest => String ch (string_resize n' rest)
      end
  end.

(** [s.substr(n)] for [n <= s.size()]: what follows the first [n] bytes. *)
Fixpoint string_skip (n : nat) (s : string) : string :=
  match n, s with
  | O, _ => s
  | S n', String _ rest => string_skip n' rest
  | S _, EmptyString => EmptyString
  end.

(** [s.find(ch)]: the index of the first [ch], [None] for [npos]. *)
Fixpoint string_find (ch : ascii) (s : string) : option nat :=
  match s with
  | EmptyString => None
  | String c rest =>
      if Ascii.eqb c ch then Some O
      else option_map S (string_find ch rest)
  end.

(** [s.empty()]. *)
Definition string_empty (s : string) : bool :=
  match s with EmptyString => true | _ => false end.

(** Every byte of [s] satisfies [p]. *)
Fixpoint string_forallb (p : ascii -> bool) (s : string) : bool :=
  match s with
  | EmptyString => true
  | String ch rest => p ch && string_forallb p rest
  end.

(** [ch] occurs in [s]. *)
Fixpoint string_mem (ch : ascii) (s : string) : bool :=
  match s with
  | EmptyString => false
  | String c rest => Ascii.eqb c ch || string_mem ch rest
  end.

(** [s.c_str()] read as a C string: the bytes before the first NUL. *)
Fixpoint c_str (s : string) : string :=
  match s with
  | EmptyString => EmptyString
  | String ch rest => if Ascii.eqb ch NUL then EmptyString else String ch (c_str rest)
  end.

(** A string that holds no NUL byte, as every C string does. *)
Definition no_nul (s : string) : bool :=
  string_forallb (fun ch => negb (Ascii.eqb ch NUL)) s.

(* --------------------------------------------------------------------- *)
(** ** Hexadecimal digits                                                 *)
(* --------------------------------------------------------------------- *)

(** [table[n]] of a digit table. *)
Definition hex_at (table : string) (n : Z) : ascii :=
  match String.get (Z.to_nat n) table with
  | Some ch => ch
  | None => NUL
  end.

Definition achHex : string := "0123456789abcdef".
Definition achHEX : string := "0123456789ABCDEF".

(** [CPLGetLowerCaseHex]: two lowercase hexadecimal digits per byte, the
    high nibble first. *)
Fixpoint CPLGetLowerCaseHex (pabyData : string) : string :=
  match pabyData with
  | EmptyString => EmptyString
  | String b rest =>
      let nLow := Z.land (uchar b) 15 in
      let nHigh := Z.shiftr (Z.land (uchar b) 240) 4 in
      String (hex_at achHex nHigh)
        (String (hex_at achHex nLow) (CPLGetLowerCaseHex rest))
  end.

(** Modelled from the spec: [CPLSPrintf] is defined in cpl_string.cpp, which
    is not part of this file.  The format ["%%%02X"] applied to an
    [unsigned char] prints a percent sign and the byte as two uppercase
    hexadecimal digits ("everything else becomes %XX uppercase hex of the
    byte"). *)
Definition CPLSPrintf_pct_02X (n : Z) : string :=
  String "%" (String (hex_at achHEX (n / 16)) (str1 (hex_at achHEX (n mod 16)))).

(* --------------------------------------------------------------------- *)
(** ** [CPLAWSURLEncode]                                                  *)
(* --------------------------------------------------------------------- *)

(** The loop body: what one byte [ch] appends to [osRet]. *)
Definition CPLAWSURLEncode_step (bEncodeSlash : bool) (osRet : string) (ch : ascii)
  : string :=
  if ((chr "A" <=? chr ch) && (chr ch <=? chr "Z"))
     || ((chr "a" <=? chr ch) && (chr ch <=? chr "z"))
     || ((chr "0" <=? chr ch) && (chr ch <=? chr "9"))
     || (chr ch =? chr "_") || (chr ch =? chr "-")
     || (chr ch =? chr "~") || (chr ch =? chr ".")
  then osRet ++ str1 ch
  else if chr ch =? chr "/" then
    if bEncodeSlash then osRet ++ "%2F" else osRet ++ str1 ch
  else osRet ++ CPLSPrintf_pct_02X (uchar ch).

(** The loop over the bytes of [osURL], from index 0. *)
Fixpoint CPLAWSURLEncode_loop (bEncodeSlash : bool) (osURL osRet : string) : string :=
  match osURL with
  | EmptyString => osRet
  | String ch rest =>
      CPLAWSURLEncode_loop bEncodeSlash rest (CPLAWSURLEncode_step bEncodeSlash osRet ch)
  end.

Definition CPLAWSURLEncode (osURL : string) (bEncodeSlash : bool) : string :=
  CPLAWSURLEncode_loop bEncodeSlash osURL EmptyString.

(** The unreserved set as the specification lists it:
    [A-Z a-z 0-9 _ - ~ .]. *)
Definition unreserved_set : string :=
  "ABCDEFGHIJKLMNOPQRSTUVWXYZabcdefghijklmnopqrstuvwxyz0123456789_-~.".

Definition is_unreserved (ch : ascii) : bool := string_mem ch unreserved_set.

(** The specification's encoding of one byte. *)
Definition url_encode_byte (encode_slash : bool) (ch : ascii) : string :=
  if is_unreserved ch then str1 ch
  else if Ascii.eqb ch "/" then (if encode_slash then "%2F" else "/")
  else String "%" (String (hex_at achHEX (uchar ch / 16))
                     (str1 (hex_at achHEX (uchar ch mod 16)))).

(* --------------------------------------------------------------------- *)
(** ** C library and CPL helpers                                          *)
(* --------------------------------------------------------------------- *)

(** The first [n] bytes of [s], all of [s] when it is shorter. *)
Fixpoint string_take (n : nat) (s : string) : string :=
  match n, s with
  | S n', String ch rest => String ch (string_take n' rest)
  | _, _ => EmptyString
  end.

Fixpoint string_map (f : ascii -> ascii) (s : string) : string :=
  match s with
  | EmptyString => EmptyString
  | String ch rest => String (f ch) (string_map f rest)
  end.

(** [s[i] = ch] for [i < s.size()]. *)
Fixpoint string_set (i : nat) (ch : ascii) (s : string) : string :=
  match s with
  | EmptyString => EmptyString
  | String c rest =>
      match i with
      | O => String ch rest
      | S i' => String c (string_set i' ch rest)
      end
  end.

(** [::tolower] of the C locale: only [A-Z] change. *)
Definition ascii_tolower (ch : ascii) : ascii :=
  if (chr "A" <=? chr ch) && (chr ch <=? chr "Z")
  then ascii_of_N (N_of_ascii ch + 32)
  else ch.

(** Modelled from the spec: [CPLString::tolower] is defined in
    cplstring.cpp, not part of this file; it lowercases every byte in place
    ("header names lowercased"). *)
Definition CPLString_tolower (s : string) : string := string_map ascii_tolower s.

(** The characters [CPLString::Trim] strips: space, tab, CR and LF. *)
Definition is_trim_space (ch : ascii) : bool :=
  Ascii.eqb ch SPACE || Ascii.eqb ch TAB || Ascii.eqb ch CR || Ascii.eqb ch LF.

Fixpoint trim_left (s : string) : string :=
  match s with
  | EmptyString => EmptyString
  | String ch rest => if is_trim_space ch then trim_left rest else s
  end.

Fixpoint trim_right (s : string) : string :=
  match s with
  | EmptyString => EmptyString
  | String ch rest =>
      let rest' := trim_right rest in
      if is_trim_space ch && string_empty rest' then EmptyString
      else String ch rest'
  end.

(** Modelled from the spec: [CPLString::Trim] is defined in cplstring.cpp,
    not part of this file; it removes leading and trailing white space
    ("values trimmed"). *)
Definition CPLString_Trim (s : string) : string := trim_right (trim_left s).

(** [strncmp(a, b, n) == 0] on C strings: the first [n] bytes agree, a
    shorter string ending where the other does. *)
Definition strncmp_eq (a b : string) (n : nat) : bool :=
  String.eqb (string_take n a) (string_take n b).

(** Modelled from the spec: the macros [STARTS_WITH], [STARTS_WITH_CI],
    [EQUAL] and [EQUALN] come from cpl_port.h, not part of this file:
    [strncmp]/[strncasecmp] over the length of the second argument, and
    [strcasecmp], each compared to 0 ("case-insensitive"). *)
Definition STARTS_WITH (a b : string) : bool := strncmp_eq a b (String.length b).

Definition EQUALN (a b : string) (n : nat) : bool :=
  String.eqb (CPLString_tolower (string_take n a)) (CPLString_tolower (string_take n b)).

Definition STARTS_WITH_CI (a b : string) : bool := EQUALN a b (String.length b).

Definition EQUAL (a b : string) : bool :=
  String.eqb (CPLString_tolower a) (CPLString_tolower b).

(** [strstr(haystack, needle)]: the rest of [haystack] from the first
    occurrence of [needle] on, [None] for a null result. *)
Fixpoint strstr (haystack needle : string) : option string :=
  match haystack with
  | EmptyString => if string_empty needle then Some EmptyString else None
  | String _ rest =>
      if String.prefix needle haystack then Some haystack else strstr rest needle
  end.

(** Modelled from the spec: [CPLTestBool] is defined in cpl_conv.cpp, not
    part of this file; every value is true but NO, FALSE, OFF and 0, read
    without regard to case ("default true"). *)
Definition CPLTestBool (pszValue : string) : bool :=
  negb (EQUAL pszValue "NO" || EQUAL pszValue "FALSE"
        || EQUAL pszValue "OFF" || EQUAL pszValue "0").

(** Modelled from the spec: [CSLFetchNameValue] and [CSLFetchNameValueDef]
    are defined in cpl_string.cpp, not part of this file; the list holds
    ["NAME=VALUE"] strings, and the value of the first entry whose name is
    [pszName] (without regard to case) is returned, else the default. *)
Fixpoint CSLFetchNameValue (papszStrList : list string) (pszName : string)
  : option string :=
  match papszStrList with
  | [] => None
  | entry :: rest =>
      let nLen := String.length pszName in
      if EQUALN entry pszName nLen
         && match String.get nLen entry with
            | Some ch => Ascii.eqb ch "=" || Ascii.eqb ch ":"
            | None => false
            end
      then Some (string_skip (S nLen) entry)
      else CSLFetchNameValue rest pszName
  end.

Definition CSLFetchNameValueDef (papszStrList : list string) (pszName pszDefault : string)
  : string :=
  match CSLFetchNameValue papszStrList pszName with
  | Some v => v
  | None => pszDefault
  end.

(* --------------------------------------------------------------------- *)
(** ** The globals of the file and the errors it reports                  *)
(* --------------------------------------------------------------------- *)

(** Error classes and numbers of [CPLError] and [VSIError] used here. *)
Inductive CPLErr : Type := CE_Warning | CE_Failure.

Inductive ErrorNum : Type :=
| CPLE_AppDefined
| VSIE_AWSError
| VSIE_AWSAccessDenied
| VSIE_AWSBucketNotFound
| VSIE_AWSObjectNotFound
| VSIE_AWSInvalidCredentials
| VSIE_AWSSignatureDoesNotMatch.

(** One call of [CPLError] or [VSIError], with its formatted message. *)
Inductive ErrorEvent : Type :=
| CPLError (eErrClass : CPLErr) (err_no : ErrorNum) (msg : string)
| VSIError (err_no : ErrorNum) (msg : string).

(** The file-level variables ([static] globals guarded by [ghMutex]).  The
    mutex itself is not modelled: the embedding is sequential. *)
Record Globals : Type := mkGlobals {
  gosIAMRole : string;
  gosGlobalAccessKeyId : string;
  gosGlobalSecretAccessKey : string;
  gosGlobalSessionToken : string;
  gnGlobalExpiration : Z;
  gosRegion : string;
  gosRoleArn : string;
  gosExternalId : string;
  gosMFASerial : string;
  gosRoleSessionName : string;
  gosSourceProfileAccessKeyId : string;
  gosSourceProfileSecretAccessKey : string;
  gosSourceProfileSessionToken : string;
  gosRoleArnWebIdentity : string;
  gosWebIdentityTokenFile : string
}.

(** The globals as the program starts: empty strings, expiration 0. *)
Definition initial_globals : Globals :=
  mkGlobals "" "" "" "" 0 "" "" "" "" "" "" "" "" "" "".

(** Assignments to single globals. *)
Definition set_gosIAMRole (v : string) (g : Globals) : Globals :=
  mkGlobals v (gosGlobalAccessKeyId g) (gosGlobalSecretAccessKey g)
    (gosGlobalSessionToken g) (gnGlobalExpiration g) (gosRegion g)
    (gosRoleArn g) (gosExternalId g) (gosMFASerial g) (gosRoleSessionName g)
    (gosSourceProfileAccessKeyId g) (gosSourceProfileSecretAccessKey g)
    (gosSourceProfileSessionToken g) (gosRoleArnWebIdentity g)
    (gosWebIdentityTokenFile g).

Definition set_gosGlobalAccessKeyId (v : string) (g : Globals) : Globals :=
  mkGlobals (gosIAMRole g) v (gosGlobalSecretAccessKey g)
    (gosGlobalSessionToken g) (gnGlobalExpiration g) (gosRegion g)
    (gosRoleArn g) (gosExternalId g) (gosMFASerial g) (gosRoleSessionName g)
    (gosSourceProfileAccessKeyId g) (gosSourceProfileSecretAccessKey g)
    (gosSourceProfileSessionToken g) (gosRoleArnWebIdentity g)
    (gosWebIdentityTokenFile g).

Definition set_gosGlobalSecretAccessKey (v : string) (g : Globals) : Globals :=
  mkGlobals (gosIAMRole g) (gosGlobalAccessKeyId g) v
    (gosGlobalSessionToken g) (gnGlobalExpiration g) (gosRegion g)
    (gosRoleArn g) (gosExternalId g) (gosMFASerial g) (gosRoleSessionName g)
    (gosSourceProfileAccessKeyId g) (gosSourceProfileSecretAccessKey g)
    (gosSourceProfileSessionToken g) (gosRoleArnWebIdentity g)
    (gosWebIdentityTokenFile g).

Definition set_gosGlobalSessionToken (v : string) (g : Globals) : Globals :=
  mkGlobals (gosIAMRole g) (gosGlobalAccessKeyId g)
    (gosGlobalSecretAccessKey g) v (gnGlobalExpiration g) (gosRegion g)
    (gosRoleArn g) (gosExternalId g) (gosMFASerial g) (gosRoleSessionName g)
    (gosSourceProfileAccessKeyId g) (gosSourceProfileSecretAccessKey g)
    (gosSourceProfileSessionToken g) (gosRoleArnWebIdentity g)
    (gosWebIdentityTokenFile g).

Definition set_gnGlobalExpiration (v : Z) (g : Globals) : Globals :=
  mkGlobals (gosIAMRole g) (gosGlobalAccessKeyId g)
    (gosGlobalSecretAccessKey g) (gosGlobalSessionToken g) v (gosRegion g)
    (gosRoleArn g) (gosExternalId g) (gosMFASerial g) (gosRoleSessionName g)
    (gosSourceProfileAccessKeyId g) (gosSourceProfileSecretAccessKey g)
    (gosSourceProfileSessionToken g) (gosRoleArnWebIdentity g)
    (gosWebIdentityTokenFile g).

Definition set_gosRegion (v : string) (g : Globals) : Globals :=
  mkGlobals (gosIAMRole g) (gosGlobalAccessKeyId g)
    (gosGlobalSecretAccessKey g) (gosGlobalSessionToken g)
    (gnGlobalExpiration g) v (gosRoleArn g) (gosExternalId g)
    (gosMFASerial g) (gosRoleSessionName g) (gosSourceProfileAccessKeyId g)
    (gosSourceProfileSecretAccessKey g) (gosSourceProfileSessionToken g)
    (gosRoleArnWebIdentity g) (gosWebIdentityTokenFile g).

Definition set_gosRoleArn (v : string) (g : Globals) : Globals :=
  mkGlobals (gosIAMRole g) (gosGlobalAccessKeyId g)
    (gosGlobalSecretAccessKey g) (gosGlobalSessionToken g)
    (gnGlobalExpiration g) (gosRegion g) v (gosExternalId g) (gosMFASerial g)
    (gosRoleSessionName g) (gosSourceProfileAccessKeyId g)
    (gosSourceProfileSecretAccessKey g) (gosSourceProfileSessionToken g)
    (gosRoleArnWebIdentity g) (gosWebIdentityTokenFile g).

Definition set_gosExternalId (v : string) (g : Globals) : Globals :=
  mkGlobals (gosIAMRole g) (gosGlobalAccessKeyId g)
    (gosGlobalSecretAccessKey g) (gosGlobalSessionToken g)
    (gnGlobalExpiration g) (gosRegion g) (gosRoleArn g) v (gosMFASerial g)
    (gosRoleSessionName g) (gosSourceProfileAccessKeyId g)
    (gosSourceProfileSecretAccessKey g) (gosSourceProfileSessionToken g)
    (gosRoleArnWebIdentity g) (gosWebIdentityTokenFile g).

Definition set_gosMFASerial (v : string) (g : Globals) : Globals :=
  mkGlobals (gosIAMRole g) (gosGlobalAccessKeyId g)
    (gosGlobalSecretAccessKey g) (gosGlobalSessionToken g)
    (gnGlobalExpiration g) (gosRegion g) (gosRoleArn g) (gosExternalId g) v
    (gosRoleSessionName g) (gosSourceProfileAccessKeyId g)
    (gosSourceProfileSecretAccessKey g) (gosSourceProfileSessionToken g)
    (gosRoleArnWebIdentity g) (gosWebIdentityTokenFile g).

Definition set_gosRoleSessionName (v : string) (g : Globals) : Globals :=
  mkGlobals (gosIAMRole g) (gosGlobalAccessKeyId g)
    (gosGlobalSecretAccessKey g) (gosGlobalSessionToken g)
    (gnGlobalExpiration g) (gosRegion g) (gosRoleArn g) (gosExternalId g)
    (gosMFASerial g) v (gosSourceProfileAccessKeyId g)
    (gosSourceProfileSecretAccessKey g) (gosSourceProfileSessionToken g)
    (gosRoleArnWebIdentity g) (gosWebIdentityTokenFile g).

Definition set_gosSourceProfileAccessKeyId (v : string) (g : Globals) : Globals :=
  mkGlobals (gosIAMRole g) (gosGlobalAccessKeyId g)
    (gosGlobalSecretAccessKey g) (gosGlobalSessionToken g)
    (gnGlobalExpiration g) (gosRegion g) (gosRoleArn g) (gosExternalId g)
    (gosMFASerial g) (gosRoleSessionName g) v
    (gosSourceProfileSecretAccessKey g) (gosSourceProfileSessionToken g)
    (gosRoleArnWebIdentity g) (gosWebIdentityTokenFile g).

Definition set_gosSourceProfileSecretAccessKey (v : string) (g : Globals) : Globals :=
  mkGlobals (gosIAMRole g) (gosGlobalAccessKeyId g)
    (gosGlobalSecretAccessKey g) (gosGlobalSessionToken g)
    (gnGlobalExpiration g) (gosRegion g) (gosRoleArn g) (gosExternalId g)
    (gosMFASerial g) (gosRoleSessionName g) (gosSourceProfileAccessKeyId g) v
    (gosSourceProfileSessionToken g) (gosRoleArnWebIdentity g)
    (gosWebIdentityTokenFile g).

Definition set_gosSourceProfileSessionToken (v : string) (g : Globals) : Globals :=
  mkGlobals (gosIAMRole g) (gosGlobalAccessKeyId g)
    (gosGlobalSecretAccessKey g) (gosGlobalSessionToken g)
    (gnGlobalExpiration g) (gosRegion g) (gosRoleArn g) (gosExternalId g)
    (gosMFASerial g) (gosRoleSessionName g) (gosSourceProfileAccessKeyId g)
    (gosSourceProfileSecretAccessKey g) v (gosRoleArnWebIdentity g)
    (gosWebIdentityTokenFile g).

Definition set_gosRoleArnWebIdentity (v : string) (g : Globals) : Globals :=
  mkGlobals (gosIAMRole g) (gosGlobalAccessKeyId g)
    (gosGlobalSecretAccessKey g) (gosGlobalSessionToken g)
    (gnGlobalExpiration g) (gosRegion g) (gosRoleArn g) (gosExternalId g)
    (gosMFASerial g) (gosRoleSessionName g) (gosSourceProfileAccessKeyId g)
    (gosSourceProfileSecretAccessKey g) (gosSourceProfileSessionToken g) v
    (gosWebIdentityTokenFile g).

Definition set_gosWebIdentityTokenFile (v : string) (g : Globals) : Globals :=
  mkGlobals (gosIAMRole g) (gosGlobalAccessKeyId g)
    (gosGlobalSecretAccessKey g) (gosGlobalSessionToken g)
    (gnGlobalExpiration g) (gosRegion g) (gosRoleArn g) (gosExternalId g)
    (gosMFASerial g) (gosRoleSessionName g) (gosSourceProfileAccessKeyId g)
    (gosSourceProfileSecretAccessKey g) (gosSourceProfileSessionToken g)
    (gosRoleArnWebIdentity g) v.

(* --------------------------------------------------------------------- *)
(** ** [std::map<CPLString, CPLString>]                                   *)
(* --------------------------------------------------------------------- *)

(** A [std::map] keyed by strings is kept as the list of its entries in
    iteration order, that is in increasing key order.  [std::string]
    compares bytes as unsigned values, lexicographically, as
    [String.compare] does. *)
Definition StringMap : Type := list (string * string).

(** [m[key] = value]: the entry is inserted at its place in key order, or
    the value of the existing entry is replaced. *)
Fixpoint map_set (key value : string) (m : StringMap) : StringMap :=
  match m with
  | [] => [(key, value)]
  | (k, v) :: rest =>
      match String.compare key k with
      | Lt => (key, value) :: (k, v) :: rest
      | Eq => (k, value) :: rest
      | Gt => (k, v) :: map_set key value rest
      end
  end.

(* --------------------------------------------------------------------- *)
(** ** The S3 handle                                                      *)
(* --------------------------------------------------------------------- *)

Inductive AWSCredentialsSource : Type := REGULAR | EC2 | WEB_IDENTITY | ASSUMED_ROLE.

(** The members of [VSIS3HandleHelper], those of its base class included
    ([m_oMapQueryParameters]). *)
Record VSIS3HandleHelper : Type := mkVSIS3HandleHelper {
  m_osURL : string;
  m_osSecretAccessKey : string;
  m_osAccessKeyId : string;
  m_osSessionToken : string;
  m_osEndpoint : string;
  m_osRegion : string;
  m_osRequestPayer : string;
  m_osBucket : string;
  m_osObjectKey : string;
  m_bUseHTTPS : bool;
  m_bUseVirtualHosting : bool;
  m_eCredentialsSource : AWSCredentialsSource;
  m_oMapQueryParameters : StringMap
}.

(** [BuildURL].  [CPLSPrintf] (cpl_string.cpp) substitutes each [%s] by the
    C string it is given, here the [c_str()] of a [CPLString]; the text is
    taken whole, as for every URL that fits the buffer [CPLSPrintf] formats
    into. *)
Definition BuildURL (osEndpoint osBucket osObjectKey : string)
    (bUseHTTPS bUseVirtualHosting : bool) : string :=
  let pszProtocol := if bUseHTTPS then "https" else "http" in
  if string_empty osBucket then
    pszProtocol ++ "://" ++ c_str osEndpoint
  else if bUseVirtualHosting then
    pszProtocol ++ "://" ++ c_str osBucket ++ "." ++ c_str osEndpoint
      ++ "/" ++ c_str (CPLAWSURLEncode osObjectKey false)
  else
    pszProtocol ++ "://" ++ c_str osEndpoint ++ "/" ++ c_str osBucket
      ++ "/" ++ c_str (CPLAWSURLEncode osObjectKey false).

(** The constructor: the URL is built from the other arguments, the query
    parameters start empty. *)
Definition new_VSIS3HandleHelper
    (osSecretAccessKey osAccessKeyId osSessionToken osEndpoint osRegion
     osRequestPayer osBucket osObjectKey : string)
    (bUseHTTPS bUseVirtualHosting : bool)
    (eCredentialsSource : AWSCredentialsSource) : VSIS3HandleHelper :=
  mkVSIS3HandleHelper
    (BuildURL osEndpoint osBucket osObjectKey bUseHTTPS bUseVirtualHosting)
    osSecretAccessKey osAccessKeyId osSessionToken osEndpoint osRegion
    osRequestPayer osBucket osObjectKey bUseHTTPS bUseVirtualHosting
    eCredentialsSource [].

(** The loop of the destructor, [for (i = 0; i < size; i++) s[i] = 0], with
    [n] iterations left at index [i]. *)
Fixpoint zero_bytes_loop (n i : nat) (s : string) : string :=
  match n with
  | O => s
  | S n' => zero_bytes_loop n' (S i) (string_set i NUL s)
  end.

(** [~VSIS3HandleHelper]: the body of the destructor; the members are
    released after it. *)
Definition destroy_VSIS3HandleHelper (h : VSIS3HandleHelper) : VSIS3HandleHelper :=
  mkVSIS3HandleHelper
    (m_osURL h)
    (zero_bytes_loop (String.length (m_osSecretAccessKey h)) 0 (m_osSecretAccessKey h))
    (m_osAccessKeyId h) (m_osSessionToken h) (m_osEndpoint h) (m_osRegion h)
    (m_osRequestPayer h) (m_osBucket h) (m_osObjectKey h) (m_bUseHTTPS h)
    (m_bUseVirtualHosting h) (m_eCredentialsSource h) (m_oMapQueryParameters h).

(** [GetQueryString]: ["?k1=v1&k2=v2"] over the query parameters in key
    order; an empty value is written with its ["="] only when
    [bAddEmptyValueAfterEqual].  The values are encoded with the default
    second argument of [CPLAWSURLEncode], [bEncodeSlash = true]. *)
Fixpoint GetQueryString_loop (bAddEmptyValueAfterEqual bFirst : bool)
    (m : StringMap) (osQueryString : string) : string :=
  match m with
  | [] => osQueryString
  | (first, second) :: rest =>
      let s1 := osQueryString ++ (if bFirst then "?" else "&") in
      let s2 := s1 ++ first in
      let s3 := if negb (string_empty second) || bAddEmptyValueAfterEqual
                then (s2 ++ "=") ++ CPLAWSURLEncode second true
                else s2 in
      GetQueryString_loop bAddEmptyValueAfterEqual false rest s3
  end.

Definition GetQueryString (h : VSIS3HandleHelper) (bAddEmptyValueAfterEqual : bool)
  : string :=
  GetQueryString_loop bAddEmptyValueAfterEqual true (m_oMapQueryParameters h) "".

Definition set_m_osURL (v : string) (h : VSIS3HandleHelper) : VSIS3HandleHelper :=
  mkVSIS3HandleHelper v
    (m_osSecretAccessKey h) (m_osAccessKeyId h) (m_osSessionToken h)
    (m_osEndpoint h) (m_osRegion h) (m_osRequestPayer h) (m_osBucket h)
    (m_osObjectKey h) (m_bUseHTTPS h) (m_bUseVirtualHosting h)
    (m_eCredentialsSource h) (m_oMapQueryParameters h).

Definition set_m_osEndpoint (v : string) (h : VSIS3HandleHelper) : VSIS3HandleHelper :=
  mkVSIS3HandleHelper (m_osURL h)
    (m_osSecretAccessKey h) (m_osAccessKeyId h) (m_osSessionToken h)
    v (m_osRegion h) (m_osRequestPayer h) (m_osBucket h)
    (m_osObjectKey h) (m_bUseHTTPS h) (m_bUseVirtualHosting h)
    (m_eCredentialsSource h) (m_oMapQueryParameters h).

Definition set_m_osRegion (v : string) (h : VSIS3HandleHelper) : VSIS3HandleHelper :=
  mkVSIS3HandleHelper (m_osURL h)
    (m_osSecretAccessKey h) (m_osAccessKeyId h) (m_osSessionToken h)
    (m_osEndpoint h) v (m_osRequestPayer h) (m_osBucket h)
    (m_osObjectKey h) (m_bUseHTTPS h) (m_bUseVirtualHosting h)
    (m_eCredentialsSource h) (m_oMapQueryParameters h).

Definition set_m_bUseVirtualHosting (v : bool) (h : VSIS3HandleHelper) : VSIS3HandleHelper :=
  mkVSIS3HandleHelper (m_osURL h)
    (m_osSecretAccessKey h) (m_osAccessKeyId h) (m_osSessionToken h)
    (m_osEndpoint h) (m_osRegion h) (m_osRequestPayer h) (m_osBucket h)
    (m_osObjectKey h) (m_bUseHTTPS h) v
    (m_eCredentialsSource h) (m_oMapQueryParameters h).

(** [RebuildURL]. *)
Definition RebuildURL (h : VSIS3HandleHelper) : VSIS3HandleHelper :=
  set_m_osURL
    (BuildURL (m_osEndpoint h) (m_osBucket h) (m_osObjectKey h)
              (m_bUseHTTPS h) (m_bUseVirtualHosting h)
     ++ GetQueryString h false) h.

(** [SetEndpoint], [SetRegion] and [SetVirtualHosting]. *)
Definition SetEndpoint (osStr : string) (h : VSIS3HandleHelper) : VSIS3HandleHelper :=
  RebuildURL (set_m_osEndpoint osStr h).

Definition SetRegion (osStr : string) (h : VSIS3HandleHelper) : VSIS3HandleHelper :=
  set_m_osRegion osStr h.

Definition SetVirtualHosting (b : bool) (h : VSIS3HandleHelper) : VSIS3HandleHelper :=
  RebuildURL (set_m_bUseVirtualHosting b h).

(** The result of [GetBucketAndObjectKey]: the returned flag, the two
    strings written through the reference parameters, and the errors
    reported. *)
Record BucketAndObjectKey : Type := mkBucketAndObjectKey {
  bk_ret : bool;
  bk_osBucket : string;
  bk_osObjectKey : string;
  bk_errors : list ErrorEvent
}.

(** [GetBucketAndObjectKey].  [osObjectKey0] is the value the caller's
    object-key string holds on entry; it is left as it is on the paths that
    do not assign it. *)
Definition GetBucketAndObjectKey (pszURI pszFSPrefix : string) (bAllowNoObject : bool)
    (osObjectKey0 : string) : BucketAndObjectKey :=
  let osBucket := pszURI in
  if string_empty osBucket then
    mkBucketAndObjectKey false osBucket osObjectKey0 []
  else
    match string_find "/" osBucket with
    | None =>
        if bAllowNoObject then
          mkBucketAndObjectKey true osBucket "" []
        else
          mkBucketAndObjectKey false osBucket osObjectKey0
            [CPLError CE_Failure CPLE_AppDefined
               ("Filename should be of the form " ++ pszFSPrefix ++ "bucket/key")]
    | Some nPos =>
        mkBucketAndObjectKey true (string_resize nPos osBucket)
          (string_skip (nPos + 1) pszURI) []
    end.

(* --------------------------------------------------------------------- *)
(** ** Canonical headers and the SigV4 signature                          *)
(* --------------------------------------------------------------------- *)

(** The hash primitives of cpl_sha256.h, which this file calls and does not
    define.  Each returns the 32 bytes ([CPL_SHA256_HASH_SIZE]) it writes
    to the caller's buffer. *)
Class HashPrimitives : Type := {
  CPL_SHA256 : string -> string;
  CPL_HMAC_SHA256 : string -> string -> string
}.

(** The first loop body of [BuildCanonicalizedHeaders]: one existing header
    line [data] is folded into the map when it starts, without regard to
    case, with the prefix or with ["Content-MD5"], and holds a colon
    ([strstr(data, ":")] finds the first one).  The key is the text before
    the colon, lowercased; the value the text after it, trimmed. *)
Definition fold_existing_header (pszHeaderPrefix : string)
    (oSortedMapHeaders : StringMap) (data : string) : StringMap :=
  if STARTS_WITH_CI data pszHeaderPrefix || STARTS_WITH_CI data "Content-MD5" then
    match string_find ":" data with
    | Some nColumn =>
        let osKey := string_resize nColumn data in
        map_set (CPLString_tolower osKey)
                (CPLString_Trim (string_skip (nColumn + 1) data))
                oSortedMapHeaders
    | None => oSortedMapHeaders
    end
  else oSortedMapHeaders.

(** The second loop: one ["key:value\n"] line per entry, in key order. *)
Fixpoint canonical_lines (m : StringMap) (osCanonicalizedHeaders : string) : string :=
  match m with
  | [] => osCanonicalizedHeaders
  | (first, second) :: rest =>
      canonical_lines rest
        (osCanonicalizedHeaders ++ (((first ++ ":") ++ second) ++ nl))
  end.

(** [BuildCanonicalizedHeaders]: the map is a reference parameter, so the
    updated map is returned beside the text.  [psExistingHeaders] is the
    [curl_slist] as the list of its lines. *)
Definition BuildCanonicalizedHeaders (oSortedMapHeaders : StringMap)
    (psExistingHeaders : list string) (pszHeaderPrefix : string)
  : string * StringMap :=
  let m := fold_left (fold_existing_header pszHeaderPrefix)
                     psExistingHeaders oSortedMapHeaders in
  (canonical_lines m "", m).

(** The loop that joins the keys of the map with [';']. *)
Fixpoint signed_headers_loop (m : StringMap) (osSignedHeaders : string) : string :=
  match m with
  | [] => osSignedHeaders
  | (first, _) :: rest =>
      let s := if negb (string_empty osSignedHeaders)
               then osSignedHeaders ++ ";" else osSignedHeaders in
      signed_headers_loop rest (s ++ first)
  end.

(** "Compute canonical request string": the first part of
    [CPLGetAWS_SIGN4_Signature], which also sets [osSignedHeaders]. *)
Definition SIGN4_CanonicalRequest
    (osAccessToken osRequestPayer osVerb : string)
    (psExistingHeaders : list string)
    (osHost osCanonicalURI osCanonicalQueryString osXAMZContentSHA256 : string)
    (bAddHeaderAMZContentSHA256 : bool) (osTimestamp : string)
  : string * string :=
  let osCanonicalRequest := osVerb ++ nl in
  let osCanonicalRequest := osCanonicalRequest ++ (osCanonicalURI ++ nl) in
  let osCanonicalRequest := osCanonicalRequest ++ (osCanonicalQueryString ++ nl) in
  let m := map_set "host" osHost [] in
  let m := if negb (String.eqb osXAMZContentSHA256 "UNSIGNED-PAYLOAD")
              && bAddHeaderAMZContentSHA256
           then map_set "x-amz-date" osTimestamp
                  (map_set "x-amz-content-sha256" osXAMZContentSHA256 m)
           else m in
  let m := if negb (string_empty osRequestPayer)
           then map_set "x-amz-request-payer" osRequestPayer m else m in
  let m := if negb (string_empty osAccessToken)
           then map_set "x-amz-security-token" osAccessToken m else m in
  let '(osCanonicalizedHeaders, m) :=
    BuildCanonicalizedHeaders m psExistingHeaders "x-amz-" in
  let osCanonicalRequest := osCanonicalRequest ++ (osCanonicalizedHeaders ++ nl) in
  let osSignedHeaders := signed_headers_loop m "" in
  let osCanonicalRequest := osCanonicalRequest ++ (osSignedHeaders ++ nl) in
  let osCanonicalRequest := osCanonicalRequest ++ osXAMZContentSHA256 in
  (osCanonicalRequest, osSignedHeaders).

(** [osYYMMDD]: a copy of the timestamp, [resize]d to 8 bytes. *)
Definition SIGN4_YYMMDD (osTimestamp : string) : string :=
  string_resize 8 osTimestamp.

(** [osScope]. *)
Definition SIGN4_Scope (osTimestamp osRegion osService : string) : string :=
  ((((SIGN4_YYMMDD osTimestamp ++ "/") ++ osRegion) ++ "/") ++ osService)
    ++ "/aws4_request".

(** "Compute StringToSign", given the lowercase hexadecimal SHA-256 of the
    canonical request. *)
Definition SIGN4_StringToSign
    (osTimestamp osRegion osService osCanonicalRequestHash : string) : string :=
  let osStringToSign := "AWS4-HMAC-SHA256" ++ nl in
  let osStringToSign := osStringToSign ++ (osTimestamp ++ nl) in
  let osStringToSign :=
    osStringToSign ++ (SIGN4_Scope osTimestamp osRegion osService ++ nl) in
  osStringToSign ++ osCanonicalRequestHash.

(** *** The specification's reading of the canonical headers *)

(** The entry an existing header line contributes: none unless the line
    starts, without regard to case, with the prefix or with ["Content-MD5"]
    and holds a colon; else the name before the first colon, lowercased,
    with the text after it, trimmed. *)
Definition header_entry (pszHeaderPrefix data : string) : option (string * string) :=
  if STARTS_WITH_CI data pszHeaderPrefix || STARTS_WITH_CI data "Content-MD5" then
    match string_find ":" data with
    | Some n =>
        Some (CPLString_tolower (string_resize n data),
              CPLString_Trim (string_skip (n + 1) data))
    | None => None
    end
  else None.

(** The entries of the headers folded in, in the order of the list. *)
Fixpoint folded_headers (pszHeaderPrefix : string) (l : list string)
  : list (string * string) :=
  match l with
  | [] => []
  | data :: rest =>
      match header_entry pszHeaderPrefix data with
      | Some e => e :: folded_headers pszHeaderPrefix rest
      | None => folded_headers pszHeaderPrefix rest
      end
  end.

(** The entries assigned to the map one after the other. *)
Fixpoint map_set_all (entries : list (string * string)) (m : StringMap) : StringMap :=
  match entries with
  | [] => m
  | (k, v) :: rest => map_set_all rest (map_set k v m)
  end.

(** One ["key:value\n"] line per entry of the map. *)
Fixpoint canonical_text (m : StringMap) : string :=
  match m with
  | [] => ""
  | (k, v) :: rest => k ++ ":" ++ v ++ nl ++ canonical_text rest
  end.

(** Keys in strictly increasing order, as a [std::map] iterates. *)
Fixpoint keys_sorted (m : StringMap) : bool :=
  match m with
  | [] => true
  | (k, _) :: rest =>
      match rest with
      | [] => true
      | (k', _) :: _ =>
          match String.compare k k' with Lt => keys_sorted rest | _ => false end
      end
  end.

Section Signature.
Context {hash : HashPrimitives}.

(** [CPLGetLowerCaseHexSHA256]. *)
Definition CPLGetLowerCaseHexSHA256 (osStr : string) : string :=
  CPLGetLowerCaseHex (CPL_SHA256 osStr).

(** "Compute signing key": four chained HMACs, each keyed by the 32 bytes
    the one before wrote. *)
Definition SIGN4_SigningKey
    (osSecretAccessKey osTimestamp osRegion osService : string) : string :=
  let osFirstKey := "AWS4" ++ osSecretAccessKey in
  let abySigningKeyIn := CPL_HMAC_SHA256 osFirstKey (SIGN4_YYMMDD osTimestamp) in
  let abySigningKeyIn := CPL_HMAC_SHA256 abySigningKeyIn osRegion in
  let abySigningKeyIn := CPL_HMAC_SHA256 abySigningKeyIn osService in
  CPL_HMAC_SHA256 abySigningKeyIn "aws4_request".

(** [CPLGetAWS_SIGN4_Signature]: the signature, and [osSignedHeaders]
    written through the last parameter. *)
Definition CPLGetAWS_SIGN4_Signature
    (osSecretAccessKey osAccessToken osRegion osRequestPayer osService osVerb : string)
    (psExistingHeaders : list string)
    (osHost osCanonicalURI osCanonicalQueryString osXAMZContentSHA256 : string)
    (bAddHeaderAMZContentSHA256 : bool) (osTimestamp : string)
  : string * string :=
  let '(osCanonicalRequest, osSignedHeaders) :=
    SIGN4_CanonicalRequest osAccessToken osRequestPayer osVerb psExistingHeaders
      osHost osCanonicalURI osCanonicalQueryString osXAMZContentSHA256
      bAddHeaderAMZContentSHA256 osTimestamp in
  let osStringToSign :=
    SIGN4_StringToSign osTimestamp osRegion osService
      (CPLGetLowerCaseHexSHA256 osCanonicalRequest) in
  let abySigningKeyIn :=
    SIGN4_SigningKey osSecretAccessKey osTimestamp osRegion osService in
  let abySignature := CPL_HMAC_SHA256 abySigningKeyIn osStringToSign in
  let osSignature := CPLGetLowerCaseHex abySignature in
  (osSignature, osSignedHeaders).

(** [CPLGetAWS_SIGN4_Authorization]. *)
Definition CPLGetAWS_SIGN4_Authorization
    (osSecretAccessKey osAccessKeyId osAccessToken osRegion osRequestPayer
     osService osVerb : string)
    (psExistingHeaders : list string)
    (osHost osCanonicalURI osCanonicalQueryString osXAMZContentSHA256 : string)
    (bAddHeaderAMZContentSHA256 : bool) (osTimestamp : string) : string :=
  let '(osSignature, osSignedHeaders) :=
    CPLGetAWS_SIGN4_Signature osSecretAccessKey osAccessToken osRegion
      osRequestPayer osService osVerb psExistingHeaders osHost osCanonicalURI
      osCanonicalQueryString osXAMZContentSHA256 bAddHeaderAMZContentSHA256
      osTimestamp in
  let osYYMMDD := string_resize 8 osTimestamp in
  (((((((((((("AWS4-HMAC-SHA256 Credential=" ++ osAccessKeyId) ++ "/") ++ osYYMMDD)
    ++ "/") ++ osRegion) ++ "/") ++ osService) ++ "/") ++ "aws4_request") ++ ",")
    ++ "SignedHeaders=") ++ osSignedHeaders ++ ",") ++ "Signature=" ++ osSignature.

End Signature.

(* --------------------------------------------------------------------- *)
(** ** [CanRestartOnError]                                                *)
(* --------------------------------------------------------------------- *)

(** The XML reader of cpl_minixml.h, which this file calls and does not
    define: a parsed tree, the node at a path, and the text at a path (a
    null result is [None]). *)
Class XMLReader : Type := {
  CPLXMLNode : Type;
  CPLParseXMLString : string -> option CPLXMLNode;
  CPLGetXMLNode : CPLXMLNode -> string -> option CPLXMLNode;
  CPLGetXMLValue : CPLXMLNode -> string -> option string
}.

(** [psz[n]] of a C string: its byte at [n], the terminating NUL at its
    length. *)
Definition cstr_at (psz : string) (n : nat) : ascii :=
  match String.get n psz with
  | Some ch => ch
  | None => NUL
  end.

(** What [CanRestartOnError] leaves behind: the returned flag, the handle,
    the flag behind [pbUpdateMap] ([None] for a null pointer) and the errors
    reported. *)
Record CanRestart : Type := mkCanRestart {
  cr_ret : bool;
  cr_handle : VSIS3HandleHelper;
  cr_pbUpdateMap : option bool;
  cr_errors : list ErrorEvent
}.

(** [if (p != nullptr) *p = b]. *)
Definition store_flag (p : option bool) (b : bool) : option bool :=
  match p with
  | Some _ => Some b
  | None => None
  end.

Section ErrorResponses.
Context {xml : XMLReader}.

(** [CanRestartOnError].  [pszHeaders] is [None] for a null pointer;
    [pbUpdateMap] is [None] for a null pointer and else holds the flag the
    caller passed.  ([CPLDebug] traces are left out.) *)
Definition CanRestartOnError (h : VSIS3HandleHelper) (pszErrorMsg : string)
    (pszHeaders : option string) (bSetError : bool) (pbUpdateMap : option bool)
  : CanRestart :=
  let pbUpdateMap := store_flag pbUpdateMap true in
  let malformed :=
    mkCanRestart false h pbUpdateMap
      (if bSetError
       then [VSIError VSIE_AWSError ("Malformed AWS XML response: " ++ pszErrorMsg)]
       else []) in
  if negb (STARTS_WITH pszErrorMsg "<?xml") && negb (STARTS_WITH pszErrorMsg "<Error>")
  then
    mkCanRestart false h pbUpdateMap
      (if bSetError
       then [VSIError VSIE_AWSError ("Invalid AWS response: " ++ pszErrorMsg)]
       else [])
  else
  match CPLParseXMLString pszErrorMsg with
  | None => malformed
  | Some psTree =>
  match CPLGetXMLValue psTree "=Error.Code" with
  | None => malformed
  | Some pszCode =>
  if EQUAL pszCode "AuthorizationHeaderMalformed" then
    match CPLGetXMLValue psTree "=Error.Region" with
    | None => malformed
    | Some pszRegion =>
        mkCanRestart true (SetRegion pszRegion h) pbUpdateMap []
    end
  else if EQUAL pszCode "PermanentRedirect" || EQUAL pszCode "TemporaryRedirect" then
    let bIsTemporaryRedirect := EQUAL pszCode "TemporaryRedirect" in
    let nBucket := String.length (m_osBucket h) in
    match CPLGetXMLValue psTree "=Error.Endpoint" with
    | None => malformed
    | Some pszEndpoint =>
        if m_bUseVirtualHosting h
           && (negb (strncmp_eq pszEndpoint (c_str (m_osBucket h)) nBucket)
               || negb (Ascii.eqb (cstr_at pszEndpoint nBucket) "."))
        then malformed
        else
          let pbUpdateMap' :=
            if bIsTemporaryRedirect then store_flag pbUpdateMap false
            else pbUpdateMap in
          if negb (m_bUseVirtualHosting h)
             && strncmp_eq pszEndpoint (c_str (m_osBucket h)) nBucket
             && Ascii.eqb (cstr_at pszEndpoint nBucket) "."
          then
            let pszRegionPtr :=
              match pszHeaders with
              | Some hd => strstr hd "x-amz-bucket-region: "
              | None => None
              end in
            match string_mem "." (c_str (m_osBucket h)), pszRegionPtr with
            | true, Some p =>
                let osRegion :=
                  string_skip (String.length "x-amz-bucket-region: ") p in
                let osRegion :=
                  match string_find CR osRegion with
                  | Some nPos => string_resize nPos osRegion
                  | None => osRegion
                  end in
                let h1 := SetEndpoint ("s3." ++ c_str osRegion ++ ".amazonaws.com") h in
                let h2 := SetRegion (c_str osRegion) h1 in
                mkCanRestart true h2 pbUpdateMap' []
            | _, _ =>
                let h1 := set_m_bUseVirtualHosting true h in
                let h2 :=
                  SetEndpoint
                    (if m_bUseVirtualHosting h1
                     then string_skip (nBucket + 1) pszEndpoint
                     else pszEndpoint) h1 in
                mkCanRestart true h2 pbUpdateMap' []
            end
          else
            let h1 :=
              SetEndpoint
                (if m_bUseVirtualHosting h
                 then string_skip (nBucket + 1) pszEndpoint
                 else pszEndpoint) h in
            mkCanRestart true h1 pbUpdateMap' []
    end
  else
    mkCanRestart false h pbUpdateMap
      (if bSetError then
         match CPLGetXMLValue psTree "=Error.Message" with
         | None => [VSIError VSIE_AWSError pszErrorMsg]
         | Some pszMessage =>
             if EQUAL pszCode "AccessDenied" then
               [VSIError VSIE_AWSAccessDenied pszMessage]
             else if EQUAL pszCode "NoSuchBucket" then
               [VSIError VSIE_AWSBucketNotFound pszMessage]
             else if EQUAL pszCode "NoSuchKey" then
               [VSIError VSIE_AWSObjectNotFound pszMessage]
             else if EQUAL pszCode "SignatureDoesNotMatch" then
               [VSIError VSIE_AWSSignatureDoesNotMatch pszMessage]
             else [VSIError VSIE_AWSError pszMessage]
         end
       else [])
  end
  end.

End ErrorResponses.

(** An XML reader for the two error bodies of the specification's redirect
    scenario; it knows no other document.  A tree is the list of its paths
    with their texts. *)
Definition body_region_error : string :=
  "<Error><Code>AuthorizationHeaderMalformed</Code>"
  ++ "<Region>ap-south-1</Region></Error>".

Definition body_redirect_error : string :=
  "<Error><Code>PermanentRedirect</Code>"
  ++ "<Endpoint>bucket.s3.eu-west-1.amazonaws.com</Endpoint></Error>".

Fixpoint assoc_find (key : string) (l : list (string * string)) : option string :=
  match l with
  | [] => None
  | (k, v) :: rest => if String.eqb k key then Some v else assoc_find key rest
  end.

Definition scenario_xml : XMLReader := {|
  CPLXMLNode := list (string * string);
  CPLParseXMLString := fun s =>
    if String.eqb s body_region_error then
      Some [("=Error.Code", "AuthorizationHeaderMalformed");
            ("=Error.Region", "ap-south-1")]
    else if String.eqb s body_redirect_error then
      Some [("=Error.Code", "PermanentRedirect");
            ("=Error.Endpoint", "bucket.s3.eu-west-1.amazonaws.com")]
    else None;
  CPLGetXMLNode := fun _ _ => None;
  CPLGetXMLValue := fun tree path => assoc_find path tree
|}.

(* --------------------------------------------------------------------- *)
(** ** [ParseSimpleJson]                                                  *)
(* --------------------------------------------------------------------- *)

(** The tokenizer of cpl_string.cpp, which this file calls and does not
    define: the tokens of a string for a set of delimiters and flags. *)
Class Tokenizer : Type := {
  CSLTokenizeString2 : string -> string -> Z -> list string
}.

Definition CSLT_HONOURSTRINGS : Z := 1.

(** The delimiters [" \n\t,:{}"]. *)
Definition json_delimiters : string :=
  String SPACE (String LF (String TAB ",:{}")).

(** Modelled from the spec: [CPLStringList] is defined in cpl_string.h and
    cplstringlist.cpp, not part of this file.  A list is a NULL-terminated
    array of strings; [operator[](i)] gives the string at index [i] and a
    null pointer ([None]) at the terminator and for any index outside the
    list, so that "the out-of-range access cannot produce an unhandled
    error". *)
Definition CPLStringList_at (l : list string) (i : nat) : option string :=
  nth_error l i.

(** The entry ["NAME=VALUE"] (or ["NAME:VALUE"]) has the name [pszName],
    without regard to case. *)
Definition entry_has_name (entry pszName : string) : bool :=
  let nLen := String.length pszName in
  EQUALN entry pszName nLen
  && (Ascii.eqb (cstr_at entry nLen) "=" || Ascii.eqb (cstr_at entry nLen) ":").

(** Modelled from the spec: [CPLStringList::SetNameValue], defined in
    cplstringlist.cpp.  With a null key the list is unchanged.  The first
    entry of that name is replaced by ["key=value"], or removed when the
    value is null; without such an entry ["key=value"] is appended, and
    nothing is when the value is null. *)
Fixpoint SetNameValue_found (l : list string) (pszKey : string)
    (pszValue : option string) : option (list string) :=
  match l with
  | [] => None
  | entry :: rest =>
      if entry_has_name entry pszKey then
        Some match pszValue with
             | Some v => (pszKey ++ "=" ++ v) :: rest
             | None => rest
             end
      else option_map (cons entry) (SetNameValue_found rest pszKey pszValue)
  end.

Definition SetNameValue (l : list string) (pszKey pszValue : option string)
  : list string :=
  match pszKey with
  | None => l
  | Some key =>
      match SetNameValue_found l key pszValue with
      | Some l' => l'
      | None =>
          match pszValue with
          | Some v => (l ++ [(key ++ "=" ++ v)%string])%list
          | None => l
          end
      end
  end.

(** The loop of [ParseSimpleJson],
    [for (i = 0; i < oWords.size(); i += 2)
       oNameValue.SetNameValue(oWords[i], oWords[i+1])],
    from index [i] on.  Beside [oNameValue] the state records, in order,
    the indices at which [oWords] was read. *)
Equations ParseSimpleJson_loop (oWords : list string) (i : nat)
    (st : list nat * list string) : list nat * list string
    by wf (List.length oWords - i)%nat lt :=
  ParseSimpleJson_loop oWords i st with le_lt_dec (List.length oWords) i := {
    | left _ => st
    | right _ =>
        ParseSimpleJson_loop oWords (i + 2)
          ((fst st ++ [i; (i + 1)%nat])%list,
           SetNameValue (snd st) (CPLStringList_at oWords i)
                        (CPLStringList_at oWords (i + 1)))
  }.
Next Obligation. lia. Qed.

(** What may be read for a list of [n] words: a word, or the terminator at
    index [n], and this only when [n] is odd. *)
Definition read_allowed (oWords : list string) (j : nat) : Prop :=
  (j < List.length oWords)%nat
  \/ (j = List.length oWords /\ Nat.odd (List.length oWords) = true
      /\ CPLStringList_at oWords j = None).

Section SimpleJson.
Context {tok : Tokenizer}.

(** [ParseSimpleJson] with the indices read. *)
Definition ParseSimpleJson_run (pszJson : string) : list nat * list string :=
  ParseSimpleJson_loop
    (CSLTokenizeString2 pszJson json_delimiters CSLT_HONOURSTRINGS) 0 ([], []).

(** [ParseSimpleJson]: the name/value list. *)
Definition ParseSimpleJson (pszJson : string) : list string :=
  snd (ParseSimpleJson_run pszJson).

End SimpleJson.

(* --------------------------------------------------------------------- *)
(** ** The configuration files                                            *)
(* --------------------------------------------------------------------- *)

(** Configuration options, which this file reads through
    [VSIGetPathSpecificOption] (cpl_vsil.cpp) and [CPLGetConfigOption]
    (cpl_conv.cpp): the value set for a key, [None] when there is none. *)
Class Options : Type := {
  path_option : string -> string -> option string;
  config_option : string -> option string
}.

(** Files as this file reads them: the lines [CPLReadLineL] returns for a
    file that [VSIFOpenL] opens ([None] when it does not), the content
    [VSIIngestFile] returns, and [CPLParseNameValue] (cpl_string.cpp), which
    splits a ["key = value"] line into its key and value ([None] when the
    key or the value is null). *)
Class Files : Type := {
  read_lines : string -> option (list string);
  VSIIngestFile : string -> option string;
  CPLParseNameValue : string -> option (string * string)
}.

(** The strings [GetConfigurationFromAWSConfigFiles] writes through its
    reference parameters. *)
Record ConfigVars : Type := mkConfigVars {
  cv_osSecretAccessKey : string;
  cv_osAccessKeyId : string;
  cv_osSessionToken : string;
  cv_osRegion : string;
  cv_osCredentials : string;
  cv_osRoleArn : string;
  cv_osSourceProfile : string;
  cv_osExternalId : string;
  cv_osMFASerial : string;
  cv_osRoleSessionName : string;
  cv_osWebIdentityTokenFile : string
}.

Definition empty_ConfigVars : ConfigVars :=
  mkConfigVars "" "" "" "" "" "" "" "" "" "" "".

Definition set_cv_osSecretAccessKey (v : string) (c : ConfigVars) : ConfigVars :=
  mkConfigVars v (cv_osAccessKeyId c) (cv_osSessionToken c) (cv_osRegion c)
    (cv_osCredentials c) (cv_osRoleArn c) (cv_osSourceProfile c)
    (cv_osExternalId c) (cv_osMFASerial c) (cv_osRoleSessionName c)
    (cv_osWebIdentityTokenFile c).

Definition set_cv_osAccessKeyId (v : string) (c : ConfigVars) : ConfigVars :=
  mkConfigVars (cv_osSecretAccessKey c) v (cv_osSessionToken c)
    (cv_osRegion c) (cv_osCredentials c) (cv_osRoleArn c)
    (cv_osSourceProfile c) (cv_osExternalId c) (cv_osMFASerial c)
    (cv_osRoleSessionName c) (cv_osWebIdentityTokenFile c).

Definition set_cv_osSessionToken (v : string) (c : ConfigVars) : ConfigVars :=
  mkConfigVars (cv_osSecretAccessKey c) (cv_osAccessKeyId c) v
    (cv_osRegion c) (cv_osCredentials c) (cv_osRoleArn c)
    (cv_osSourceProfile c) (cv_osExternalId c) (cv_osMFASerial c)
    (cv_osRoleSessionName c) (cv_osWebIdentityTokenFile c).

Definition set_cv_osRegion (v : string) (c : ConfigVars) : ConfigVars :=
  mkConfigVars (cv_osSecretAccessKey c) (cv_osAccessKeyId c)
    (cv_osSessionToken c) v (cv_osCredentials c) (cv_osRoleArn c)
    (cv_osSourceProfile c) (cv_osExternalId c) (cv_osMFASerial c)
    (cv_osRoleSessionName c) (cv_osWebIdentityTokenFile c).

Definition set_cv_osCredentials (v : string) (c : ConfigVars) : ConfigVars :=
  mkConfigVars (cv_osSecretAccessKey c) (cv_osAccessKeyId c)
    (cv_osSessionToken c) (cv_osRegion c) v (cv_osRoleArn c)
    (cv_osSourceProfile c) (cv_osExternalId c) (cv_osMFASerial c)
    (cv_osRoleSessionName c) (cv_osWebIdentityTokenFile c).

Definition set_cv_osRoleArn (v : string) (c : ConfigVars) : ConfigVars :=
  mkConfigVars (cv_osSecretAccessKey c) (cv_osAccessKeyId c)
    (cv_osSessionToken c) (cv_osRegion c) (cv_osCredentials c) v
    (cv_osSourceProfile c) (cv_osExternalId c) (cv_osMFASerial c)
    (cv_osRoleSessionName c) (cv_osWebIdentityTokenFile c).

Definition set_cv_osSourceProfile (v : string) (c : ConfigVars) : ConfigVars :=
  mkConfigVars (cv_osSecretAccessKey c) (cv_osAccessKeyId c)
    (cv_osSessionToken c) (cv_osRegion c) (cv_osCredentials c)
    (cv_osRoleArn c) v (cv_osExternalId c) (cv_osMFASerial c)
    (cv_osRoleSessionName c) (cv_osWebIdentityTokenFile c).

Definition set_cv_osExternalId (v : string) (c : ConfigVars) : ConfigVars :=
  mkConfigVars (cv_osSecretAccessKey c) (cv_osAccessKeyId c)
    (cv_osSessionToken c) (cv_osRegion c) (cv_osCredentials c)
    (cv_osRoleArn c) (cv_osSourceProfile c) v (cv_osMFASerial c)
    (cv_osRoleSessionName c) (cv_osWebIdentityTokenFile c).

Definition set_cv_osMFASerial (v : string) (c : ConfigVars) : ConfigVars :=
  mkConfigVars (cv_osSecretAccessKey c) (cv_osAccessKeyId c)
    (cv_osSessionToken c) (cv_osRegion c) (cv_osCredentials c)
    (cv_osRoleArn c) (cv_osSourceProfile c) (cv_osExternalId c) v
    (cv_osRoleSessionName c) (cv_osWebIdentityTokenFile c).

Definition set_cv_osRoleSessionName (v : string) (c : ConfigVars) : ConfigVars :=
  mkConfigVars (cv_osSecretAccessKey c) (cv_osAccessKeyId c)
    (cv_osSessionToken c) (cv_osRegion c) (cv_osCredentials c)
    (cv_osRoleArn c) (cv_osSourceProfile c) (cv_osExternalId c)
    (cv_osMFASerial c) v (cv_osWebIdentityTokenFile c).

Definition set_cv_osWebIdentityTokenFile (v : string) (c : ConfigVars) : ConfigVars :=
  mkConfigVars (cv_osSecretAccessKey c) (cv_osAccessKeyId c)
    (cv_osSessionToken c) (cv_osRegion c) (cv_osCredentials c)
    (cv_osRoleArn c) (cv_osSourceProfile c) (cv_osExternalId c)
    (cv_osMFASerial c) (cv_osRoleSessionName c) v.

Section ConfigFiles.
Context {opts : Options} {files : Files}.

(** [VSIGetPathSpecificOption(path, key, default)] and
    [CPLGetConfigOption(key, default)] with a non-null default. *)
Definition VSIGetPathSpecificOption (pszPath pszKey pszDefault : string) : string :=
  match path_option pszPath pszKey with
  | Some v => v
  | None => pszDefault
  end.

Definition CPLGetConfigOption (pszKey pszDefault : string) : string :=
  match config_option pszKey with
  | Some v => v
  | None => pszDefault
  end.

(** [UpdateAndWarnIfInconsistent]: the value of [osVal] on return, and the
    warning reported, if any. *)
Definition UpdateAndWarnIfInconsistent (pszKeyword osVal osNewVal osCredentials osConfig : string)
  : string * list ErrorEvent :=
  if string_empty osVal then (osNewVal, [])
  else if negb (String.eqb osVal osNewVal) then
    (osVal,
     [CPLError CE_Warning CPLE_AppDefined
        (pszKeyword ++ " defined in both " ++ c_str osCredentials
         ++ " and " ++ c_str osConfig ++ ". The one of " ++ c_str osCredentials
         ++ " will be used")])
  else (osVal, []).

(** The loop of [ReadAWSCredentials] over the lines of the file.  The state
    is [(osSecretAccessKey, osAccessKeyId, osSessionToken)]. *)
Fixpoint ReadAWSCredentials_loop (lines : list string) (osBracketedProfile : string)
    (bInProfile : bool) (st : string * string * string) : string * string * string :=
  match lines with
  | [] => st
  | pszLine :: rest =>
      if Ascii.eqb (cstr_at pszLine 0) "[" then
        if bInProfile then st
        else if String.eqb pszLine osBracketedProfile
        then ReadAWSCredentials_loop rest osBracketedProfile true st
        else ReadAWSCredentials_loop rest osBracketedProfile bInProfile st
      else if bInProfile then
        let '(osSecretAccessKey, osAccessKeyId, osSessionToken) := st in
        let st' :=
          match CPLParseNameValue pszLine with
          | Some (pszKey, pszValue) =>
              if EQUAL pszKey "aws_access_key_id" then
                (osSecretAccessKey, pszValue, osSessionToken)
              else if EQUAL pszKey "aws_secret_access_key" then
                (pszValue, osAccessKeyId, osSessionToken)
              else if EQUAL pszKey "aws_session_token" then
                (osSecretAccessKey, osAccessKeyId, pszValue)
              else st
          | None => st
          end in
        ReadAWSCredentials_loop rest osBracketedProfile bInProfile st'
      else ReadAWSCredentials_loop rest osBracketedProfile bInProfile st
  end.

(** [ReadAWSCredentials]: the returned flag and the three strings, cleared
    first. *)
Definition ReadAWSCredentials (osProfile osCredentials : string)
  : bool * (string * string * string) :=
  let st :=
    match read_lines osCredentials with
    | Some lines =>
        ReadAWSCredentials_loop lines ("[" ++ osProfile ++ "]") false ("", "", "")
    | None => ("", "", "")
    end in
  let '(osSecretAccessKey, osAccessKeyId, osSessionToken) := st in
  (negb (string_empty osSecretAccessKey) && negb (string_empty osAccessKeyId), st).

(** What one ["key = value"] line of the selected profile of the config file
    does to the variables; the warnings are appended to [log]. *)
Definition config_entry (osConfig : string) (st : ConfigVars * list ErrorEvent)
    (pszKey pszValue : string) : ConfigVars * list ErrorEvent :=
  let '(c, log) := st in
  if EQUAL pszKey "aws_access_key_id" then
    let '(v, w) := UpdateAndWarnIfInconsistent pszKey (cv_osAccessKeyId c) pszValue
                     (cv_osCredentials c) osConfig in
    (set_cv_osAccessKeyId v c, (log ++ w)%list)
  else if EQUAL pszKey "aws_secret_access_key" then
    let '(v, w) := UpdateAndWarnIfInconsistent pszKey (cv_osSecretAccessKey c) pszValue
                     (cv_osCredentials c) osConfig in
    (set_cv_osSecretAccessKey v c, (log ++ w)%list)
  else if EQUAL pszKey "aws_session_token" then
    let '(v, w) := UpdateAndWarnIfInconsistent pszKey (cv_osSessionToken c) pszValue
                     (cv_osCredentials c) osConfig in
    (set_cv_osSessionToken v c, (log ++ w)%list)
  else if EQUAL pszKey "region" then (set_cv_osRegion pszValue c, log)
  else if String.eqb pszKey "role_arn" then (set_cv_osRoleArn pszValue c, log)
  else if String.eqb pszKey "source_profile" then (set_cv_osSourceProfile pszValue c, log)
  else if String.eqb pszKey "external_id" then (set_cv_osExternalId pszValue c, log)
  else if String.eqb pszKey "mfa_serial" then (set_cv_osMFASerial pszValue c, log)
  else if String.eqb pszKey "role_session_name" then
    (set_cv_osRoleSessionName pszValue c, log)
  else if String.eqb pszKey "web_identity_token_file" then
    (set_cv_osWebIdentityTokenFile pszValue c, log)
  else st.

(** The loop of [GetConfigurationFromAWSConfigFiles] over the lines of the
    config file. *)
Fixpoint config_file_loop (lines : list string)
    (osBracketedProfile osBracketedProfileProfile osConfig : string)
    (bInProfile : bool) (st : ConfigVars * list ErrorEvent)
  : ConfigVars * list ErrorEvent :=
  match lines with
  | [] => st
  | pszLine :: rest =>
      if Ascii.eqb (cstr_at pszLine 0) "[" then
        if bInProfile then st
        else if String.eqb pszLine osBracketedProfile
                || String.eqb pszLine osBracketedProfileProfile
        then config_file_loop rest osBracketedProfile osBracketedProfileProfile
               osConfig true st
        else config_file_loop rest osBracketedProfile osBracketedProfileProfile
               osConfig bInProfile st
      else if bInProfile then
        let st' :=
          match CPLParseNameValue pszLine with
          | Some (pszKey, pszValue) => config_entry osConfig st pszKey pszValue
          | None => st
          end in
        config_file_loop rest osBracketedProfile osBracketedProfileProfile
          osConfig bInProfile st'
      else config_file_loop rest osBracketedProfile osBracketedProfileProfile
             osConfig bInProfile st
  end.

(** The profile [GetConfigurationFromAWSConfigFiles] selects: the argument,
    else [AWS_DEFAULT_PROFILE], else [AWS_PROFILE], else ["default"]. *)
Definition selected_profile (osPathForOption : string) (pszProfile : option string)
  : string :=
  let pszProfile :=
    match pszProfile with
    | Some p => p
    | None =>
        let p := VSIGetPathSpecificOption osPathForOption "AWS_DEFAULT_PROFILE" "" in
        if string_empty p
        then VSIGetPathSpecificOption osPathForOption "AWS_PROFILE" ""
        else p
    end in
  if negb (string_empty pszProfile) then pszProfile else "default".

(** [~/.aws], with the separator of the non-Windows build. *)
Definition dot_aws : string :=
  (match config_option "HOME" with Some h => h | None => "" end ++ "/") ++ ".aws".

Definition credentials_path (osPathForOption : string) : string :=
  match path_option osPathForOption "CPL_AWS_CREDENTIALS_FILE" with
  | Some p => p
  | None => (dot_aws ++ "/") ++ "credentials"
  end.

Definition config_path (osPathForOption : string) : string :=
  match path_option osPathForOption "AWS_CONFIG_FILE" with
  | Some p => p
  | None => (dot_aws ++ "/") ++ "config"
  end.

(** [GetConfigurationFromAWSConfigFiles]: the returned flag, the strings
    behind the reference parameters ([vars] holds them on entry) and the
    warnings reported. *)
Definition GetConfigurationFromAWSConfigFiles (osPathForOption : string)
    (pszProfile : option string) (vars : ConfigVars)
  : bool * ConfigVars * list ErrorEvent :=
  let pszProfileOri := pszProfile in
  let osProfile := selected_profile osPathForOption pszProfile in
  let osCredentials := credentials_path osPathForOption in
  let '(_, (osSecretAccessKey, osAccessKeyId, osSessionToken)) :=
    ReadAWSCredentials osProfile osCredentials in
  let vars :=
    set_cv_osSessionToken osSessionToken
      (set_cv_osAccessKeyId osAccessKeyId
         (set_cv_osSecretAccessKey osSecretAccessKey
            (set_cv_osCredentials osCredentials vars))) in
  let pszAWSConfigFileEnv := path_option osPathForOption "AWS_CONFIG_FILE" in
  let osConfig := config_path osPathForOption in
  let '(vars, log) :=
    match read_lines osConfig with
    | Some lines =>
        config_file_loop lines ("[" ++ osProfile ++ "]")
          ("[profile " ++ osProfile ++ "]") osConfig false (vars, [])
    | None =>
        match pszAWSConfigFileEnv with
        | Some env =>
            if negb (string_empty env) then
              (vars, [CPLError CE_Warning CPLE_AppDefined
                        (env ++ " does not exist or cannot be open")])
            else (vars, [])
        | None => (vars, [])
        end
    end in
  ((negb (string_empty (cv_osAccessKeyId vars))
    && negb (string_empty (cv_osSecretAccessKey vars)))
   || (negb (string_empty (cv_osRoleArn vars))
       && negb (string_empty (cv_osSourceProfile vars)))
   || (match pszProfileOri with Some _ => true | None => false end
       && negb (string_empty (cv_osRoleArn vars))
       && negb (string_empty (cv_osWebIdentityTokenFile vars))),
   vars, log).

End ConfigFiles.

(** *** The specification's reading of the two files *)

(** The three keys both files may set. *)
Inductive CredentialKey : Type := KeyAccessKeyId | KeySecretAccessKey | KeySessionToken.

Definition key_name (K : CredentialKey) : string :=
  match K with
  | KeyAccessKeyId => "aws_access_key_id"
  | KeySecretAccessKey => "aws_secret_access_key"
  | KeySessionToken => "aws_session_token"
  end.

Definition key_value (K : CredentialKey) (c : ConfigVars) : string :=
  match K with
  | KeyAccessKeyId => cv_osAccessKeyId c
  | KeySecretAccessKey => cv_osSecretAccessKey c
  | KeySessionToken => cv_osSessionToken c
  end.

(** The warning that names the keyword and both files. *)
Definition inconsistency_warning (pszKeyword osCredentials osConfig : string)
  : ErrorEvent :=
  CPLError CE_Warning CPLE_AppDefined
    (pszKeyword ++ " defined in both " ++ c_str osCredentials
     ++ " and " ++ c_str osConfig ++ ". The one of " ++ c_str osCredentials
     ++ " will be used").

(** A reported event is the inconsistency warning of key [K]: its text
    starts, without regard to case, with the name of the key. *)
Definition is_warning_about (K : CredentialKey) (e : ErrorEvent) : bool :=
  match e with
  | CPLError CE_Warning CPLE_AppDefined msg => STARTS_WITH_CI msg (key_name K)
  | _ => false
  end.

(** The lines of a section: those before the next line that starts with
    ['[']. *)
Fixpoint section_body (lines : list string) : list string :=
  match lines with
  | [] => []
  | l :: rest =>
      if Ascii.eqb (cstr_at l 0) "[" then [] else l :: section_body rest
  end.

(** The lines of the first section whose header satisfies [is_header]. *)
Fixpoint profile_section (is_header : string -> bool) (lines : list string)
  : list string :=
  match lines with
  | [] => []
  | l :: rest =>
      if Ascii.eqb (cstr_at l 0) "[" then
        if is_header l then section_body rest
        else profile_section is_header rest
      else profile_section is_header rest
  end.

Section ParsedFiles.
Context {files : Files}.

(** The ["key = value"] entries among some lines. *)
Fixpoint parsed_entries (lines : list string) : list (string * string) :=
  match lines with
  | [] => []
  | l :: rest =>
      match CPLParseNameValue l with
      | Some e => e :: parsed_entries rest
      | None => parsed_entries rest
      end
  end.

(** The entries of the selected profile in the config file: its section is
    headed [[profile]] or [[profile <profile>]]. *)
Definition config_profile_entries (osProfile : string) (lines : list string)
  : list (string * string) :=
  parsed_entries
    (profile_section
       (fun l => String.eqb l ("[" ++ osProfile ++ "]")
                 || String.eqb l ("[profile " ++ osProfile ++ "]"))
       lines).

(** The entries of the selected profile in the config file a path names,
    none for a file that cannot be opened. *)
Definition config_entries_at (osConfig osProfile : string) : list (string * string) :=
  match read_lines osConfig with
  | Some lines => config_profile_entries osProfile lines
  | None => []
  end.

End ParsedFiles.

(** The value [ReadAWSCredentials] read for a key, in its state
    [(osSecretAccessKey, osAccessKeyId, osSessionToken)]. *)
Definition credentials_value (K : CredentialKey) (st : string * string * string)
  : string :=
  match K with
  | KeyAccessKeyId => snd (fst st)
  | KeySecretAccessKey => fst (fst st)
  | KeySessionToken => snd st
  end.

(** The entries applied to the variables one after the other. *)
Definition config_entries_fold (osConfig : string) (entries : list (string * string))
    (st : ConfigVars * list ErrorEvent) : ConfigVars * list ErrorEvent :=
  fold_left (fun st e => config_entry osConfig st (fst e) (snd e)) entries st.

(** The entries that name key [K] with a value other than [v]. *)
Definition conflicting_entries (K : CredentialKey) (v : string)
    (entries : list (string * string)) : list (string * string) :=
  filter (fun e => EQUAL (fst e) (key_name K) && negb (String.eqb (snd e) v)) entries.

(** *** Two scenarios of the precedence rule *)

(** A line parser in the specification's words: the first ['='] splits,
    white space around key and value is trimmed. *)
Definition split_at_equal (line : string) : option (string * string) :=
  match string_find "=" line with
  | Some n =>
      Some (CPLString_Trim (string_take n line),
            CPLString_Trim (string_skip (n + 1) line))
  | None => None
  end.

(** Home is [/home/u]; no other option is set. *)
Definition scenario_options : Options := {|
  path_option := fun _ _ => None;
  config_option := fun key => if String.eqb key "HOME" then Some "/home/u" else None
|}.

(** Both files set [aws_access_key_id] for the default profile, the config
    file to [config_value]. *)
Definition scenario_files (config_value : string) : Files := {|
  read_lines := fun path =>
    if String.eqb path "/home/u/.aws/credentials" then
      Some ["[default]"; "aws_access_key_id = AKID";
            "aws_secret_access_key = SECRET"]
    else if String.eqb path "/home/u/.aws/config" then
      Some ["[default]"; "region = eu-west-1";
            "aws_access_key_id = " ++ config_value]
    else None;
  VSIIngestFile := fun _ => None;
  CPLParseNameValue := split_at_equal
|}.

(* --------------------------------------------------------------------- *)
(** ** The credential cache                                               *)
(* --------------------------------------------------------------------- *)

(** [struct tm], the fields this file uses. *)
Record tm : Type := mk_tm {
  tm_year : Z; tm_mon : Z; tm_mday : Z; tm_hour : Z; tm_min : Z; tm_sec : Z
}.

(** Time as this file reads it: the clock [time()], the conversions of
    cpl_time.cpp, and what [sscanf] reads with the format
    ["%04d-%02d-%02dT%02d:%02d:%02d"] (the six numbers, [None] when fewer
    than six fields are read). *)
Class TimeLib : Type := {
  time_now : Z;
  CPLYMDHMSToUnixTime : tm -> Z;
  CPLUnixTimeToYMDHMS : Z -> tm;
  sscanf_iso8601 : string -> option (Z * Z * Z * Z * Z * Z)
}.

(** What [CPLHTTPFetch] (cpl_http.cpp) gives back: the status, the body
    ([None] for a null pointer) and the error text. *)
Record CPLHTTPResult : Type := mkCPLHTTPResult {
  nStatus : Z;
  pabyData : option string;
  pszErrBuf : option string
}.

(** The network: the result of fetching a URL with a list of
    ["NAME=VALUE"] options, [None] for a null result. *)
Class Network : Type := {
  CPLHTTPFetch : string -> list string -> option CPLHTTPResult
}.

(** [IsMachinePotentiallyEC2Instance]: its body is chosen by the
    preprocessor for the platform and reads the machine's system files; the
    embedding takes its answer from the platform. *)
Class Platform : Type := {
  IsMachinePotentiallyEC2Instance : bool
}.

(** [GIntBig] is a 64-bit signed integer; arithmetic on it wraps around. *)
Definition wrap64 (z : Z) : Z := (z + 2 ^ 63) mod 2 ^ 64 - 2 ^ 63.

Definition GIntBig_sub (a b : Z) : Z := wrap64 (a - b).

(** The three strings every credential routine writes through its
    reference parameters. *)
Record CredentialStrings : Type := mkCredentialStrings {
  cs_osSecretAccessKey : string;
  cs_osAccessKeyId : string;
  cs_osSessionToken : string
}.

(** The credentials the cache holds. *)
Definition cached_credentials (g : Globals) : CredentialStrings :=
  mkCredentialStrings (gosGlobalSecretAccessKey g) (gosGlobalAccessKeyId g)
    (gosGlobalSessionToken g).

(** The assignments that store credentials and their expiration in the
    cache. *)
Definition store_credentials (cs : CredentialStrings) (nExpirationUnix : Z)
    (g : Globals) : Globals :=
  set_gnGlobalExpiration nExpirationUnix
    (set_gosGlobalSessionToken (cs_osSessionToken cs)
       (set_gosGlobalSecretAccessKey (cs_osSecretAccessKey cs)
          (set_gosGlobalAccessKeyId (cs_osAccessKeyId cs) g))).

(** [FetchNameValueDef] of a [CPLStringList]. *)
Definition FetchNameValueDef (l : list string) (pszName pszDefault : string) : string :=
  CSLFetchNameValueDef l pszName pszDefault.

Section CredentialCache.
Context {opts : Options} {files : Files} {xml : XMLReader} {net : Network}
        {clock : TimeLib} {platform : Platform} {tok : Tokenizer}.

(** [Iso8601ToUnixTime]: the time written through [pnUnixTime], [None] when
    the function returns false and writes nothing. *)
Definition Iso8601ToUnixTime (pszDT : string) : option Z :=
  match sscanf_iso8601 pszDT with
  | Some (nYear, nMonth, nDay, nHour, nMinute, nSecond) =>
      Some (CPLYMDHMSToUnixTime
              (mk_tm (nYear - 1900) (nMonth - 1) nDay nHour nMinute nSecond))
  | None => None
  end.

(** The test every non-forced read of the cache makes,
    [!gosGlobalAccessKeyId.empty() && nCurTime < gnGlobalExpiration - 60]:
    the cached credentials are reused while more than one minute of
    validity is left. *)
Definition cache_still_valid (g : Globals) : bool :=
  negb (string_empty (gosGlobalAccessKeyId g))
  && (time_now <? GIntBig_sub (gnGlobalExpiration g) 60).

(** [CPLGetXMLValue(node, path, "")]. *)
Definition CPLGetXMLValue_or_empty (node : CPLXMLNode) (path : string) : string :=
  match CPLGetXMLValue node path with
  | Some v => v
  | None => ""
  end.

(** [ReadAWSWebIdentityTokenFile]: the token, [None] when the function
    returns false.  The file content is read as a C string, and one
    trailing line feed is removed. *)
Definition ReadAWSWebIdentityTokenFile (osWebIdentityTokenFile : string)
  : option string :=
  match VSIIngestFile osWebIdentityTokenFile with
  | None => None
  | Some pabyOut =>
      let webIdentityToken := c_str pabyOut in
      let n := String.length webIdentityToken in
      let webIdentityToken :=
        if negb (string_empty webIdentityToken)
           && Ascii.eqb (cstr_at webIdentityToken (n - 1)) LF
        then string_resize (n - 1) webIdentityToken
        else webIdentityToken in
      if negb (string_empty webIdentityToken) then Some webIdentityToken else None
  end.

(** The credentials and expiration read from an STS response at the node
    [path]; [None] when the response has no such node. *)
Definition sts_credentials (psResult : option CPLHTTPResult) (path : string)
  : option (CredentialStrings * string) :=
  match psResult with
  | Some res =>
      match pabyData res with
      | Some data =>
          if nStatus res =? 0 then
            match CPLParseXMLString data with
            | Some oTree =>
                match CPLGetXMLNode oTree path with
                | Some psCredentials =>
                    Some (mkCredentialStrings
                            (CPLGetXMLValue_or_empty psCredentials "SecretAccessKey")
                            (CPLGetXMLValue_or_empty psCredentials "AccessKeyId")
                            (CPLGetXMLValue_or_empty psCredentials "SessionToken"),
                          CPLGetXMLValue_or_empty psCredentials "Expiration")
                | None => None
                end
            | None => None
            end
          else None
      | None => None
      end
  | None => None
  end.

(** [GetConfigurationFromAssumeRoleWithWebIdentity] past the test of the
    cache: the STS request and the refresh of the cache.  [cs] holds the
    caller's strings on entry. *)
Definition AssumeRoleWithWebIdentity_refresh
    (osPathForOption osRoleArnIn osWebIdentityTokenFileIn : string)
    (cs : CredentialStrings) (g : Globals) : bool * CredentialStrings * Globals :=
  let roleArn :=
    if negb (string_empty osRoleArnIn) then osRoleArnIn
    else VSIGetPathSpecificOption osPathForOption "AWS_ROLE_ARN" "" in
  if string_empty roleArn then (false, cs, g) else
  let webIdentityTokenFile :=
    if negb (string_empty osWebIdentityTokenFileIn) then osWebIdentityTokenFileIn
    else VSIGetPathSpecificOption osPathForOption "AWS_WEB_IDENTITY_TOKEN_FILE" "" in
  if string_empty webIdentityTokenFile then (false, cs, g) else
  let stsRegionalEndpoints :=
    VSIGetPathSpecificOption osPathForOption "AWS_STS_REGIONAL_ENDPOINTS" "regional" in
  let osStsDefaultUrl :=
    if String.eqb stsRegionalEndpoints "regional" then
      ("https://sts."
       ++ VSIGetPathSpecificOption osPathForOption "AWS_REGION" "us-east-1")
      ++ ".amazonaws.com"
    else "https://sts.amazonaws.com" in
  let osStsRootUrl :=
    VSIGetPathSpecificOption osPathForOption "CPL_AWS_STS_ROOT_URL" osStsDefaultUrl in
  match ReadAWSWebIdentityTokenFile webIdentityTokenFile with
  | None => (false, cs, g)
  | Some webIdentityToken =>
      let url :=
        (((osStsRootUrl
           ++ "/?Action=AssumeRoleWithWebIdentity&RoleSessionName=gdal&Version=2011-06-15&RoleArn=")
          ++ CPLAWSURLEncode roleArn true) ++ "&WebIdentityToken=")
        ++ CPLAWSURLEncode webIdentityToken true in
      let '(cs, osExpiration) :=
        match sts_credentials (CPLHTTPFetch url [])
                "=AssumeRoleWithWebIdentityResponse.AssumeRoleWithWebIdentityResult.Credentials"
        with
        | Some r => r
        | None => (cs, "")
        end in
      let complete :=
        negb (string_empty (cs_osAccessKeyId cs))
        && negb (string_empty (cs_osSecretAccessKey cs))
        && negb (string_empty (cs_osSessionToken cs)) in
      let g :=
        if complete then
          match Iso8601ToUnixTime osExpiration with
          | Some nExpirationUnix => store_credentials cs nExpirationUnix g
          | None => g
          end
        else g in
      (complete, cs, g)
  end.

(** [GetConfigurationFromAssumeRoleWithWebIdentity]. *)
Definition GetConfigurationFromAssumeRoleWithWebIdentity (bForceRefresh : bool)
    (osPathForOption osRoleArnIn osWebIdentityTokenFileIn : string)
    (cs : CredentialStrings) (g : Globals) : bool * CredentialStrings * Globals :=
  if negb bForceRefresh && cache_still_valid g then
    (true, cached_credentials g, g)
  else
    AssumeRoleWithWebIdentity_refresh osPathForOption osRoleArnIn
      osWebIdentityTokenFileIn cs g.

(** The data of a fetch that succeeded: status 0 and a body. *)
Definition fetched_data (psResult : option CPLHTTPResult) : option string :=
  match psResult with
  | Some res => if nStatus res =? 0 then pabyData res else None
  | None => None
  end.

(** [GetConfigurationFromEC2] past the test of the cache: the requests to
    the instance metadata service (or the ECS container endpoint) and the
    refresh of the cache.  The second request after a token request that
    timed out only feeds a [CPLDebug] trace and is left out. *)
Definition EC2_refresh (osPathForOption : string) (cs : CredentialStrings)
    (g : Globals) : bool * CredentialStrings * Globals :=
  let osEC2DefaultURL := "http://169.254.169.254" in
  let osEC2RootURL :=
    VSIGetPathSpecificOption osPathForOption "CPL_AWS_EC2_API_ROOT_URL" osEC2DefaultURL in
  let osECSRelativeURI :=
    VSIGetPathSpecificOption osPathForOption "AWS_CONTAINER_CREDENTIALS_RELATIVE_URI" "" in
  let located : option (string * string * Globals) :=
    if String.eqb osEC2RootURL osEC2DefaultURL && negb (string_empty osECSRelativeURI)
    then Some ("http://169.254.170.2" ++ osECSRelativeURI, "", g)
    else if negb IsMachinePotentiallyEC2Instance then None
    else
      let osToken :=
        match fetched_data
                (CPLHTTPFetch (osEC2RootURL ++ "/latest/api/token")
                   ["TIMEOUT=1"; "CUSTOMREQUEST=PUT";
                    "HEADERS=X-aws-ec2-metadata-token-ttl-seconds: 10"])
        with
        | Some data => c_str data
        | None => ""
        end in
      let osEC2CredentialsURL :=
        osEC2RootURL ++ "/latest/meta-data/iam/security-credentials/" in
      let g :=
        if string_empty (gosIAMRole g) then
          let aosOptions :=
            if negb (string_empty osToken)
            then ["TIMEOUT=1"; "HEADERS=" ++ ("X-aws-ec2-metadata-token: " ++ osToken)]
            else ["TIMEOUT=1"] in
          match fetched_data (CPLHTTPFetch osEC2CredentialsURL aosOptions) with
          | Some data => set_gosIAMRole (c_str data) g
          | None => g
          end
        else g in
      if string_empty (gosIAMRole g) then None
      else Some (osEC2CredentialsURL ++ gosIAMRole g, osToken, g) in
  match located with
  | None => (false, cs, g)
  | Some (osURLRefreshCredentials, osToken, g) =>
      let aosOptions :=
        if negb (string_empty osToken)
        then ["HEADERS=" ++ ("X-aws-ec2-metadata-token: " ++ osToken)]
        else [] in
      let oResponse :=
        match fetched_data (CPLHTTPFetch osURLRefreshCredentials aosOptions) with
        | Some data => ParseSimpleJson (c_str data)
        | None => []
        end in
      let cs :=
        mkCredentialStrings
          (FetchNameValueDef oResponse "SecretAccessKey" "")
          (FetchNameValueDef oResponse "AccessKeyId" "")
          (FetchNameValueDef oResponse "Token" "") in
      let osExpiration := FetchNameValueDef oResponse "Expiration" "" in
      let complete :=
        negb (string_empty (cs_osAccessKeyId cs))
        && negb (string_empty (cs_osSecretAccessKey cs)) in
      let g :=
        if complete then
          match Iso8601ToUnixTime osExpiration with
          | Some nExpirationUnix => store_credentials cs nExpirationUnix g
          | None => g
          end
        else g in
      (complete, cs, g)
  end.

(** [GetConfigurationFromEC2]. *)
Definition GetConfigurationFromEC2 (bForceRefresh : bool) (osPathForOption : string)
    (cs : CredentialStrings) (g : Globals) : bool * CredentialStrings * Globals :=
  if negb bForceRefresh && cache_still_valid g then
    (true, cached_credentials g, g)
  else EC2_refresh osPathForOption cs g.

End CredentialCache.

(* --------------------------------------------------------------------- *)
(** ** Assumed roles and the provider chain                               *)
(* --------------------------------------------------------------------- *)

(** [printf]'s ["%0<width>d"]: the decimal digits of [n], padded with
    zeros on the left to [width] characters, the sign of a negative number
    first. *)
Definition printf_0d (width : nat) (n : Z) : string :=
  let digits := NilZero.string_of_uint (N.to_uint (Z.abs_N n)) in
  if n <? 0 then
    "-" ++ string_repeat "0" (width - 1 - String.length digits) ++ digits
  else string_repeat "0" (width - String.length digits) ++ digits.

Section ProviderChain.
Context {opts : Options} {files : Files} {xml : XMLReader} {net : Network}
        {clock : TimeLib} {platform : Platform} {tok : Tokenizer}
        {hash : HashPrimitives}.

(** [CPLGetAWS_SIGN4_Timestamp]: [YYYYMMDD'T'HHMMSS'Z'] in UTC. *)
Definition CPLGetAWS_SIGN4_Timestamp (timestamp : Z) : string :=
  let brokenDown := CPLUnixTimeToYMDHMS timestamp in
  printf_0d 4 (tm_year brokenDown + 1900) ++ printf_0d 2 (tm_mon brokenDown + 1)
  ++ printf_0d 2 (tm_mday brokenDown) ++ "T" ++ printf_0d 2 (tm_hour brokenDown)
  ++ printf_0d 2 (tm_min brokenDown) ++ printf_0d 2 (tm_sec brokenDown) ++ "Z".

(** The loop that writes [oMap] as ["?k1=v1&k2=v2"], every value
    encoded. *)
Fixpoint sts_query_string (oMap : StringMap) (osQueryString : string) : string :=
  match oMap with
  | [] => osQueryString
  | (first, second) :: rest =>
      let s := if string_empty osQueryString
               then osQueryString ++ "?" else osQueryString ++ "&" in
      sts_query_string rest (((s ++ first) ++ "=") ++ CPLAWSURLEncode second true)
  end.

(** [GetTemporaryCredentialsForRole]: the STS [AssumeRole] request, signed
    with the credentials of the source profile.  The result is the
    temporary credentials and their expiration, written when the function
    returns true; [None] when it returns false and writes nothing. *)
Definition GetTemporaryCredentialsForRole
    (osRoleArn osExternalId osMFASerial osRoleSessionName : string)
    (osSecretAccessKey osAccessKeyId osSessionToken : string)
  : option (CredentialStrings * string) :=
  let osXAMZDate := CPLGetConfigOption "AWS_TIMESTAMP" "" in
  let osXAMZDate :=
    if string_empty osXAMZDate then CPLGetAWS_SIGN4_Timestamp time_now
    else osXAMZDate in
  let osVerb := "GET" in
  let osService := "sts" in
  let osRegion := CPLGetConfigOption "AWS_STS_REGION" "us-east-1" in
  let osHost := CPLGetConfigOption "AWS_STS_ENDPOINT" "sts.amazonaws.com" in
  let oMap := map_set "Version" "2011-06-15" [] in
  let oMap := map_set "Action" "AssumeRole" oMap in
  let oMap := map_set "RoleArn" osRoleArn oMap in
  let oMap :=
    map_set "RoleSessionName"
      (if negb (string_empty osRoleSessionName) then c_str osRoleSessionName
       else CPLGetConfigOption "AWS_ROLE_SESSION_NAME" "GDAL-session") oMap in
  let oMap :=
    if negb (string_empty osExternalId)
    then map_set "ExternalId" osExternalId oMap else oMap in
  let oMap :=
    if negb (string_empty osMFASerial)
    then map_set "SerialNumber" osMFASerial oMap else oMap in
  let osQueryString := sts_query_string oMap "" in
  let osCanonicalQueryString := string_skip 1 osQueryString in
  let osAuthorization :=
    CPLGetAWS_SIGN4_Authorization osSecretAccessKey osAccessKeyId osSessionToken
      osRegion "" osService osVerb [] osHost "/" osCanonicalQueryString
      (CPLGetLowerCaseHexSHA256 "") false osXAMZDate in
  let bUseHTTPS := CPLTestBool (CPLGetConfigOption "AWS_HTTPS" "YES") in
  let crlf := String CR (String LF "") in
  let headers :=
    if negb (string_empty osSessionToken)
    then ("X-Amz-Security-Token: " ++ osSessionToken) ++ crlf else "" in
  let headers := headers ++ (("X-Amz-Date: " ++ osXAMZDate) ++ crlf) in
  let headers := headers ++ ("Authorization: " ++ osAuthorization) in
  let aosOptions := ["HEADERS=" ++ c_str headers] in
  let osURL :=
    (((if bUseHTTPS then "https://" else "http://") ++ osHost) ++ "/")
    ++ osQueryString in
  sts_credentials (CPLHTTPFetch (c_str osURL) aosOptions)
    "=AssumeRoleResponse.AssumeRoleResult.Credentials".

(** [GetOrRefreshTemporaryCredentialsForRole] past the test of the cache:
    the web-identity step, when the role is assumed from a web identity,
    and the [AssumeRole] request. *)
Definition TemporaryCredentialsForRole_refresh (bForceRefresh : bool)
    (cs : CredentialStrings) (osRegion : string) (g : Globals)
  : bool * (CredentialStrings * string) * Globals :=
  let step1 : bool * CredentialStrings * Globals :=
    if negb (string_empty (gosRoleArnWebIdentity g)) then
      let '(ok, cs1, g1) :=
        GetConfigurationFromAssumeRoleWithWebIdentity bForceRefresh ""
          (gosRoleArnWebIdentity g) (gosWebIdentityTokenFile g) cs g in
      if ok then
        (true, cs1,
         set_gosSourceProfileSessionToken (cs_osSessionToken cs1)
           (set_gosSourceProfileAccessKeyId (cs_osAccessKeyId cs1)
              (set_gosSourceProfileSecretAccessKey (cs_osSecretAccessKey cs1) g1)))
      else (false, cs1, g1)
    else (true, cs, g) in
  let '(ok, cs, g) := step1 in
  if negb ok then (false, (cs, osRegion), g) else
  let g :=
    set_gosGlobalSessionToken ""
      (set_gosGlobalAccessKeyId "" (set_gosGlobalSecretAccessKey "" g)) in
  match GetTemporaryCredentialsForRole (gosRoleArn g) (gosExternalId g)
          (gosMFASerial g) (gosRoleSessionName g)
          (gosSourceProfileSecretAccessKey g) (gosSourceProfileAccessKeyId g)
          (gosSourceProfileSessionToken g)
  with
  | Some (temp, osExpiration) =>
      let g :=
        set_gosGlobalSessionToken (cs_osSessionToken temp)
          (set_gosGlobalAccessKeyId (cs_osAccessKeyId temp)
             (set_gosGlobalSecretAccessKey (cs_osSecretAccessKey temp) g)) in
      let g :=
        match Iso8601ToUnixTime (c_str osExpiration) with
        | Some t => set_gnGlobalExpiration t g
        | None => g
        end in
      (true, (cached_credentials g, gosRegion g), g)
  | None => (false, (cs, osRegion), g)
  end.

(** [GetOrRefreshTemporaryCredentialsForRole]. *)
Definition GetOrRefreshTemporaryCredentialsForRole (bForceRefresh : bool)
    (cs : CredentialStrings) (osRegion : string) (g : Globals)
  : bool * (CredentialStrings * string) * Globals :=
  if negb bForceRefresh && cache_still_valid g then
    (true, (cached_credentials g, gosRegion g), g)
  else TemporaryCredentialsForRole_refresh bForceRefresh cs osRegion g.

End ProviderChain.

(** *** What a refresh of the cache is *)

Section Refreshes.
Context {opts : Options} {files : Files} {xml : XMLReader} {net : Network}
        {clock : TimeLib} {platform : Platform} {tok : Tokenizer}
        {hash : HashPrimitives}.





End Refreshes.

(** What [GetConfiguration] leaves behind: the returned flag, the strings
    and the source written through the reference parameters, the globals
    and the errors reported. *)
Record Configuration : Type := mkConfiguration {
  cfg_ret : bool;
  cfg_credentials : CredentialStrings;
  cfg_osRegion : string;
  cfg_eCredentialsSource : AWSCredentialsSource;
  cfg_globals : Globals;
  cfg_errors : list ErrorEvent
}.

Section Configuration.
Context {opts : Options} {files : Files} {xml : XMLReader} {net : Network}
        {clock : TimeLib} {platform : Platform} {tok : Tokenizer}
        {hash : HashPrimitives}.

(** An option looked up in [papszOptions] first and then among the
    path-specific options. *)
Definition option_value (papszOptions : list string) (osPathForOption pszKey pszDefault : string)
  : string :=
  CSLFetchNameValueDef papszOptions pszKey
    (VSIGetPathSpecificOption osPathForOption pszKey pszDefault).

(** The part of [GetConfiguration] that follows a successful read of the
    configuration files when they name a role and no secret key: the role is
    assumed, from a web identity or from the credentials of the source
    profile. *)
Definition assume_configured_role (osPathForOption : string) (vars : ConfigVars)
    (g : Globals) (log : list ErrorEvent) : Configuration :=
  let cs := mkCredentialStrings (cv_osSecretAccessKey vars) (cv_osAccessKeyId vars)
              (cv_osSessionToken vars) in
  let '(cs, g, log) :=
    if negb (string_empty (cv_osSourceProfile vars)) then
      let varsSP0 :=
        set_cv_osWebIdentityTokenFile (cv_osWebIdentityTokenFile vars) empty_ConfigVars in
      let '(okSP, varsSP, logSP) :=
        GetConfigurationFromAWSConfigFiles osPathForOption
          (Some (c_str (cv_osSourceProfile vars))) varsSP0 in
      let log := (log ++ logSP)%list in
      if okSP then
        let '(okW, csW, gW) :=
          GetConfigurationFromAssumeRoleWithWebIdentity false osPathForOption
            (cv_osRoleArn varsSP) (cv_osWebIdentityTokenFile varsSP) cs g in
        if okW then
          (csW,
           set_gosWebIdentityTokenFile (cv_osWebIdentityTokenFile varsSP)
             (set_gosRoleArnWebIdentity (cv_osRoleArn varsSP) gW),
           log)
        else (csW, gW, log)
      else (cs, g, log)
    else (cs, g, log) in
  let source : option CredentialStrings :=
    if string_empty (gosRoleArnWebIdentity g) then
      let '(okR, (s, a, t)) :=
        ReadAWSCredentials (cv_osSourceProfile vars) (cv_osCredentials vars) in
      if okR then Some (mkCredentialStrings s a t) else None
    else Some cs in
  match source with
  | None =>
      let '(_, (s, a, t)) :=
        ReadAWSCredentials (cv_osSourceProfile vars) (cv_osCredentials vars) in
      mkConfiguration false (mkCredentialStrings s a t) (cv_osRegion vars) REGULAR g
        (log ++ [VSIError VSIE_AWSInvalidCredentials
                   ("Cannot retrieve credentials for source profile "
                    ++ c_str (cv_osSourceProfile vars))])
  | Some cs =>
      match GetTemporaryCredentialsForRole (cv_osRoleArn vars) (cv_osExternalId vars)
              (cv_osMFASerial vars) (cv_osRoleSessionName vars)
              (cs_osSecretAccessKey cs) (cs_osAccessKeyId cs) (cs_osSessionToken cs)
      with
      | Some (temp, osExpiration) =>
          let g :=
            match Iso8601ToUnixTime (c_str osExpiration) with
            | Some t => set_gnGlobalExpiration t g
            | None => g
            end in
          let g := set_gosRoleArn (cv_osRoleArn vars) g in
          let g := set_gosExternalId (cv_osExternalId vars) g in
          let g := set_gosMFASerial (cv_osMFASerial vars) g in
          let g := set_gosRoleSessionName (cv_osRoleSessionName vars) g in
          let g := set_gosSourceProfileSecretAccessKey (cs_osSecretAccessKey cs) g in
          let g := set_gosSourceProfileAccessKeyId (cs_osAccessKeyId cs) g in
          let g := set_gosSourceProfileSessionToken (cs_osSessionToken cs) g in
          let g := set_gosGlobalAccessKeyId (cs_osAccessKeyId temp) g in
          let g := set_gosGlobalSecretAccessKey (cs_osSecretAccessKey temp) g in
          let g := set_gosGlobalSessionToken (cs_osSessionToken temp) g in
          let g := set_gosRegion (cv_osRegion vars) g in
          mkConfiguration true temp (cv_osRegion vars) ASSUMED_ROLE g log
      | None => mkConfiguration false cs (cv_osRegion vars) REGULAR g log
      end
  end.

(** [GetConfiguration]: the provider chain.  [cs] holds the caller's
    strings on entry. *)
Definition GetConfiguration (osPathForOption : string) (papszOptions : list string)
    (cs : CredentialStrings) (g : Globals) : Configuration :=
  let osRegion := option_value papszOptions osPathForOption "AWS_REGION" "us-east-1" in
  if CPLTestBool (VSIGetPathSpecificOption osPathForOption "AWS_NO_SIGN_REQUEST" "NO")
  then mkConfiguration true (mkCredentialStrings "" "" "") osRegion REGULAR g []
  else
  let osSecretAccessKey :=
    option_value papszOptions osPathForOption "AWS_SECRET_ACCESS_KEY" "" in
  if negb (string_empty osSecretAccessKey) then
    let osAccessKeyId :=
      option_value papszOptions osPathForOption "AWS_ACCESS_KEY_ID" "" in
    if string_empty osAccessKeyId then
      mkConfiguration false
        (mkCredentialStrings osSecretAccessKey osAccessKeyId (cs_osSessionToken cs))
        osRegion REGULAR g
        [VSIError VSIE_AWSInvalidCredentials
           "AWS_ACCESS_KEY_ID configuration option not defined"]
    else
      mkConfiguration true
        (mkCredentialStrings osSecretAccessKey osAccessKeyId
           (option_value papszOptions osPathForOption "AWS_SESSION_TOKEN" ""))
        osRegion REGULAR g []
  else
  let cs := mkCredentialStrings osSecretAccessKey (cs_osAccessKeyId cs)
              (cs_osSessionToken cs) in
  let bAssumedRole := negb (string_empty (gosRoleArn g)) in
  let '(ok, (cs, osRegion), g) :=
    if bAssumedRole
    then GetOrRefreshTemporaryCredentialsForRole false cs osRegion g
    else (false, (cs, osRegion), g) in
  if ok then mkConfiguration true cs osRegion ASSUMED_ROLE g []
  else
  let vars0 :=
    set_cv_osRegion osRegion
      (set_cv_osSessionToken (cs_osSessionToken cs)
         (set_cv_osAccessKeyId (cs_osAccessKeyId cs)
            (set_cv_osSecretAccessKey (cs_osSecretAccessKey cs) empty_ConfigVars))) in
  let '(okFiles, vars, log) :=
    GetConfigurationFromAWSConfigFiles osPathForOption None vars0 in
  if okFiles then
    if string_empty (cv_osSecretAccessKey vars) && negb (string_empty (cv_osRoleArn vars))
    then assume_configured_role osPathForOption vars g log
    else
      mkConfiguration true
        (mkCredentialStrings (cv_osSecretAccessKey vars) (cv_osAccessKeyId vars)
           (cv_osSessionToken vars))
        (cv_osRegion vars) REGULAR g log
  else
  let cs := mkCredentialStrings (cv_osSecretAccessKey vars) (cv_osAccessKeyId vars)
              (cv_osSessionToken vars) in
  let osRegion := cv_osRegion vars in
  let '(okW, cs, g) :=
    if CPLTestBool (CPLGetConfigOption "CPL_AWS_WEB_IDENTITY_ENABLE" "YES")
    then GetConfigurationFromAssumeRoleWithWebIdentity false osPathForOption "" "" cs g
    else (false, cs, g) in
  if okW then mkConfiguration true cs osRegion WEB_IDENTITY g log
  else
  let '(okE, cs, g) := GetConfigurationFromEC2 false osPathForOption cs g in
  if okE then mkConfiguration true cs osRegion EC2 g log
  else
    mkConfiguration false cs osRegion REGULAR g
      (log ++ [VSIError VSIE_AWSInvalidCredentials
                 ("AWS_SECRET_ACCESS_KEY and AWS_NO_SIGN_REQUEST configuration "
                  ++ "options not defined, and " ++ c_str (cv_osCredentials vars)
                  ++ " not filled")]).

(** [BuildFromURI]: the new handle with the globals and errors it leaves,
    [None] for a null result.  [pszURI] is [None] for a null pointer. *)
Definition BuildFromURI (pszURI : option string) (pszFSPrefix : string)
    (bAllowNoObject : bool) (papszOptions : list string) (g : Globals)
  : option VSIS3HandleHelper * Globals * list ErrorEvent :=
  let osPathForOption :=
    "/vsis3/" ++ match pszURI with Some u => u | None => "" end in
  let conf :=
    GetConfiguration osPathForOption papszOptions (mkCredentialStrings "" "" "") g in
  if negb (cfg_ret conf) then (None, cfg_globals conf, cfg_errors conf) else
  let osDefaultRegion :=
    option_value papszOptions osPathForOption "AWS_DEFAULT_REGION" "" in
  let osRegion :=
    if negb (string_empty osDefaultRegion) then osDefaultRegion
    else cfg_osRegion conf in
  let osEndpoint :=
    VSIGetPathSpecificOption osPathForOption "AWS_S3_ENDPOINT" "s3.amazonaws.com" in
  let osRequestPayer :=
    VSIGetPathSpecificOption osPathForOption "AWS_REQUEST_PAYER" "" in
  let parsed :=
    match pszURI with
    | Some u =>
        if negb (string_empty u)
        then GetBucketAndObjectKey u pszFSPrefix bAllowNoObject ""
        else mkBucketAndObjectKey true "" "" []
    | None => mkBucketAndObjectKey true "" "" []
    end in
  if negb (bk_ret parsed)
  then (None, cfg_globals conf, (cfg_errors conf ++ bk_errors parsed)%list) else
  let osBucket := bk_osBucket parsed in
  let osObjectKey := bk_osObjectKey parsed in
  let bUseHTTPS :=
    CPLTestBool (VSIGetPathSpecificOption osPathForOption "AWS_HTTPS" "YES") in
  let bIsValidNameForVirtualHosting :=
    match string_find "." osBucket with None => true | Some _ => false end in
  let bUseVirtualHosting :=
    CPLTestBool
      (CSLFetchNameValueDef papszOptions "AWS_VIRTUAL_HOSTING"
         (VSIGetPathSpecificOption osPathForOption "AWS_VIRTUAL_HOSTING"
            (if bIsValidNameForVirtualHosting then "TRUE" else "FALSE"))) in
  (Some (new_VSIS3HandleHelper (cs_osSecretAccessKey (cfg_credentials conf))
           (cs_osAccessKeyId (cfg_credentials conf))
           (cs_osSessionToken (cfg_credentials conf))
           osEndpoint osRegion osRequestPayer osBucket osObjectKey bUseHTTPS
           bUseVirtualHosting (cfg_eCredentialsSource conf)),
   cfg_globals conf, (cfg_errors conf ++ bk_errors parsed)%list).

End Configuration.

(** *** A machine without network, for the scenarios *)

(** No URL can be fetched. *)
Definition offline_network : Network := {|
  CPLHTTPFetch := fun _ _ => None
|}.

(** A clock that reads [now]; the conversions are not used by a read of the
    cache. *)
Definition clock_at (now : Z) : TimeLib := {|
  time_now := now;
  CPLYMDHMSToUnixTime := fun _ => 0;
  CPLUnixTimeToYMDHMS := fun _ => mk_tm 70 0 1 0 0 0;
  sscanf_iso8601 := fun _ => None
|}.

Definition not_ec2 : Platform := {| IsMachinePotentiallyEC2Instance := false |}.

(** A tokenizer that finds no token. *)
Definition no_tokens : Tokenizer := {| CSLTokenizeString2 := fun _ _ _ => [] |}.

(** A stand-in for the hash primitives, for scenarios in which nothing is
    signed. *)
Definition no_hash : HashPrimitives := {|
  CPL_SHA256 := fun _ => string_repeat NUL 32;
  CPL_HMAC_SHA256 := fun _ _ => string_repeat NUL 32
|}.


(** A cache that holds temporary credentials expiring at [T]. *)
Definition cache_until (T : Z) : Globals :=
  store_credentials (mkCredentialStrings "TEMPSECRET" "ASIATEMP" "TOKEN") T
    initial_globals.

(** No option at all is set; static credentials come from [papszOptions]. *)
Definition no_options : Options := {|
  path_option := fun _ _ => None;
  config_option := fun _ => None
|}.

(* --------------------------------------------------------------------- *)
(** ** Further functions of the file                                      *)
(* --------------------------------------------------------------------- *)

(** [CPLAWSGetHeaderVal]: the trimmed value of the first header line that
    starts with the key and a colon, the empty string when there is none.
    ([pszKey] is a C string, so [osKey.c_str()] is [osKey].) *)
Fixpoint CPLAWSGetHeaderVal (psExistingHeaders : list string) (pszKey : string)
  : string :=
  let osKey := pszKey ++ ":" in
  match psExistingHeaders with
  | [] => ""
  | data :: next =>
      if STARTS_WITH data osKey
      then CPLString_Trim (string_skip (String.length osKey) data)
      else CPLAWSGetHeaderVal next pszKey
  end.

Definition set_m_oMapQueryParameters (v : StringMap) (h : VSIS3HandleHelper)
  : VSIS3HandleHelper :=
  mkVSIS3HandleHelper (m_osURL h)
    (m_osSecretAccessKey h) (m_osAccessKeyId h) (m_osSessionToken h)
    (m_osEndpoint h) (m_osRegion h) (m_osRequestPayer h) (m_osBucket h)
    (m_osObjectKey h) (m_bUseHTTPS h) (m_bUseVirtualHosting h)
    (m_eCredentialsSource h) v.

(** The three assignments [m_osSecretAccessKey = ...; m_osAccessKeyId = ...;
    m_osSessionToken = ...] of [RefreshCredentials]. *)
Definition set_handle_credentials (cs : CredentialStrings) (h : VSIS3HandleHelper)
  : VSIS3HandleHelper :=
  mkVSIS3HandleHelper (m_osURL h)
    (cs_osSecretAccessKey cs) (cs_osAccessKeyId cs) (cs_osSessionToken cs)
    (m_osEndpoint h) (m_osRegion h) (m_osRequestPayer h) (m_osBucket h)
    (m_osObjectKey h) (m_bUseHTTPS h) (m_bUseVirtualHosting h)
    (m_eCredentialsSource h) (m_oMapQueryParameters h).

(** [ResetQueryParameters] and [AddQueryParameter]. *)
Definition ResetQueryParameters (h : VSIS3HandleHelper) : VSIS3HandleHelper :=
  RebuildURL (set_m_oMapQueryParameters [] h).

Definition AddQueryParameter (osKey osValue : string) (h : VSIS3HandleHelper)
  : VSIS3HandleHelper :=
  RebuildURL
    (set_m_oMapQueryParameters (map_set osKey osValue (m_oMapQueryParameters h)) h).

(** [GetURLNoKVP]: the URL of the handle ([GetURL()] returns [m_osURL]) cut
    before its first ['?']. *)
Definition GetURLNoKVP (h : VSIS3HandleHelper) : string :=
  let osURL := m_osURL h in
  match string_find "?" osURL with
  | Some nPos => string_resize nPos osURL
  | None => osURL
  end.

(** [VSIS3HandleHelper::ClearCache]: every global is cleared. *)
Definition ClearCache (g : Globals) : Globals :=
  mkGlobals "" "" "" "" 0 "" "" "" "" "" "" "" "" "" "".

(** The host a request is signed for, as [GetCurlHeaders] and
    [GetSignedURL] compute it. *)
Definition signing_host (h : VSIS3HandleHelper) : string :=
  if m_bUseVirtualHosting h && negb (string_empty (m_osBucket h))
  then (m_osBucket h ++ ".") ++ m_osEndpoint h
  else m_osEndpoint h.

(** The canonical URI they sign. *)
Definition signing_canonical_URI (h : VSIS3HandleHelper) : string :=
  if m_bUseVirtualHosting h
  then c_str (CPLAWSURLEncode ("/" ++ m_osObjectKey h) false)
  else c_str (CPLAWSURLEncode ((("/" ++ m_osBucket h) ++ "/") ++ m_osObjectKey h) false).

Section Requests.
Context {opts : Options} {files : Files} {xml : XMLReader} {net : Network}
        {clock : TimeLib} {platform : Platform} {tok : Tokenizer}
        {hash : HashPrimitives}.

(** [RefreshCredentials]: the handle (its credentials are [mutable]) and the
    globals after the call. *)
Definition RefreshCredentials (osPathForOption : string) (bForceRefresh : bool)
    (h : VSIS3HandleHelper) (g : Globals) : VSIS3HandleHelper * Globals :=
  match m_eCredentialsSource h with
  | EC2 =>
      let '(ok, cs, g') :=
        GetConfigurationFromEC2 bForceRefresh (c_str osPathForOption)
          (mkCredentialStrings "" "" "") g in
      (if ok then set_handle_credentials cs h else h, g')
  | ASSUMED_ROLE =>
      let '(ok, (cs, _), g') :=
        GetOrRefreshTemporaryCredentialsForRole bForceRefresh
          (mkCredentialStrings "" "" "") "" g in
      (if ok then set_handle_credentials cs h else h, g')
  | WEB_IDENTITY =>
      let '(ok, cs, g') :=
        GetConfigurationFromAssumeRoleWithWebIdentity bForceRefresh
          (c_str osPathForOption) "" "" (mkCredentialStrings "" "" "") g in
      (if ok then set_handle_credentials cs h else h, g')
  | REGULAR => (h, g)
  end.

(** [GetCurlHeaders]: the list of header lines appended, in order, with the
    handle and the globals after the refresh of the credentials.
    [pabyDataContent] is the payload as the string of its [nBytesContent]
    bytes. *)
Definition GetCurlHeaders (osVerb : string) (psExistingHeaders : list string)
    (pabyDataContent : string) (h : VSIS3HandleHelper) (g : Globals)
  : list string * VSIS3HandleHelper * Globals :=
  let osPathForOption := (("/vsis3/" ++ m_osBucket h) ++ "/") ++ m_osObjectKey h in
  let '(h, g) := RefreshCredentials osPathForOption false h g in
  let osXAMZDate :=
    VSIGetPathSpecificOption (c_str osPathForOption) "AWS_TIMESTAMP" "" in
  let osXAMZDate :=
    if string_empty osXAMZDate then CPLGetAWS_SIGN4_Timestamp time_now
    else osXAMZDate in
  let osXAMZContentSHA256 := CPLGetLowerCaseHexSHA256 pabyDataContent in
  let osCanonicalQueryString := GetQueryString h true in
  let osCanonicalQueryString :=
    if negb (string_empty osCanonicalQueryString)
    then string_skip 1 osCanonicalQueryString else osCanonicalQueryString in
  let osHost := signing_host h in
  let osAuthorization :=
    if string_empty (m_osSecretAccessKey h) then ""
    else
      CPLGetAWS_SIGN4_Authorization (m_osSecretAccessKey h) (m_osAccessKeyId h)
        (m_osSessionToken h) (m_osRegion h) (m_osRequestPayer h) "s3" osVerb
        psExistingHeaders osHost (signing_canonical_URI h) osCanonicalQueryString
        osXAMZContentSHA256 true osXAMZDate in
  let headers := ["x-amz-date: " ++ c_str osXAMZDate] in
  let headers :=
    (headers ++ [("x-amz-content-sha256: " ++ c_str osXAMZContentSHA256)%string])%list in
  let headers :=
    if negb (string_empty (m_osSessionToken h))
    then (headers ++ [("X-Amz-Security-Token: " ++ c_str (m_osSessionToken h))%string])%list
    else headers in
  let headers :=
    if negb (string_empty (m_osRequestPayer h))
    then (headers ++ [("x-amz-request-payer: " ++ c_str (m_osRequestPayer h))%string])%list
    else headers in
  let headers :=
    if negb (string_empty osAuthorization)
    then (headers ++ [("Authorization: " ++ c_str osAuthorization)%string])%list
    else headers in
  (headers, h, g).

End Requests.

(** What [GetSignedURL] reads beside the options and the clock: [sscanf]
    with the format ["%04d%02d%02dT%02d%02d%02dZ"] (the six numbers, a
    field that is not read keeping the 0 it is initialised with; [None]
    when fewer than three fields are read) and [CPLAtoGIntBig]
    (cpl_conv.cpp). *)
Class StartDateReader : Type := {
  sscanf_timestamp : string -> option (Z * Z * Z * Z * Z * Z);
  CPLAtoGIntBig : string -> Z
}.

(** What [GetSignedURL] leaves behind: the string it returns, the handle,
    the globals and the errors reported. *)
Record SignedURL : Type := mkSignedURL {
  su_ret : string;
  su_handle : VSIS3HandleHelper;
  su_globals : Globals;
  su_errors : list ErrorEvent
}.

Section SignedURLs.
Context {opts : Options} {files : Files} {xml : XMLReader} {net : Network}
        {clock : TimeLib} {platform : Platform} {tok : Tokenizer}
        {hash : HashPrimitives} {reader : StartDateReader}.

(** The query parameters of a signed URL before its signature is added,
    set one after the other on a handle whose parameters were reset. *)
Definition SignedURL_parameters (osXAMZDate osXAMZExpires : string)
    (h : VSIS3HandleHelper) : VSIS3HandleHelper :=
  let osDate := string_resize 8 osXAMZDate in
  let h := ResetQueryParameters h in
  let h := AddQueryParameter "X-Amz-Algorithm" "AWS4-HMAC-SHA256" h in
  let h :=
    AddQueryParameter "X-Amz-Credential"
      ((((m_osAccessKeyId h ++ "/") ++ osDate) ++ "/") ++ m_osRegion h
       ++ "/s3/aws4_request") h in
  let h := AddQueryParameter "X-Amz-Date" osXAMZDate h in
  let h := AddQueryParameter "X-Amz-Expires" osXAMZExpires h in
  let h :=
    if negb (string_empty (m_osSessionToken h))
    then AddQueryParameter "X-Amz-Security-Token" (m_osSessionToken h) h
    else h in
  AddQueryParameter "X-Amz-SignedHeaders" "host" h.

(** The signature of a signed URL, for the handle that holds the other
    parameters. *)
Definition SignedURL_signature (osVerb osXAMZDate : string) (h : VSIS3HandleHelper)
  : string :=
  let osCanonicalQueryString := string_skip 1 (GetQueryString h true) in
  fst (CPLGetAWS_SIGN4_Signature (m_osSecretAccessKey h) "" (m_osRegion h)
         (m_osRequestPayer h) "s3" osVerb [] (signing_host h)
         (signing_canonical_URI h) osCanonicalQueryString "UNSIGNED-PAYLOAD"
         false osXAMZDate).

(** The end of [GetSignedURL], once the credentials are settled: the
    parameters are set, the request is signed, the signature is added, and
    the URL of the handle is returned. *)
Definition SignedURL_finish (osVerb osXAMZDate osXAMZExpires : string)
    (h : VSIS3HandleHelper) (g : Globals) : SignedURL :=
  let h := SignedURL_parameters osXAMZDate osXAMZExpires h in
  let osSignature := SignedURL_signature osVerb osXAMZDate h in
  let h := AddQueryParameter "X-Amz-Signature" osSignature h in
  mkSignedURL (m_osURL h) h g [].

(** [GetSignedURL].  For credentials that expire, the start date is read
    and the credentials are refreshed, with force, when the URL would
    outlive them less one minute ([GIntBig] arithmetic wraps around). *)
Definition GetSignedURL (papszOptions : list string) (h : VSIS3HandleHelper)
    (g : Globals) : SignedURL :=
  let osPathForOption := (("/vsis3/" ++ m_osBucket h) ++ "/") ++ m_osObjectKey h in
  let osXAMZDate :=
    CSLFetchNameValueDef papszOptions "START_DATE"
      (VSIGetPathSpecificOption (c_str osPathForOption) "AWS_TIMESTAMP" "") in
  let osXAMZDate :=
    if string_empty osXAMZDate then CPLGetAWS_SIGN4_Timestamp time_now
    else osXAMZDate in
  let osXAMZExpires := CSLFetchNameValueDef papszOptions "EXPIRATION_DELAY" "3600" in
  let checked : option (VSIS3HandleHelper * Globals) :=
    match m_eCredentialsSource h with
    | REGULAR => Some (h, g)
    | _ =>
        match sscanf_timestamp (c_str osXAMZDate) with
        | None => None
        | Some (nYear, nMonth, nDay, nHour, nMin, nSec) =>
            let nStartDate :=
              CPLYMDHMSToUnixTime
                (mk_tm (nYear - 1900) (nMonth - 1) nDay nHour nMin nSec) in
            if GIntBig_sub (gnGlobalExpiration g) 60
               <=? wrap64 (nStartDate + CPLAtoGIntBig (c_str osXAMZExpires))
            then Some (RefreshCredentials osPathForOption true h g)
            else Some (h, g)
        end
    end in
  match checked with
  | None =>
      mkSignedURL "" h g
        [CPLError CE_Failure CPLE_AppDefined "Bad format for START_DATE"]
  | Some (h, g) =>
      SignedURL_finish (CSLFetchNameValueDef papszOptions "VERB" "GET")
        osXAMZDate osXAMZExpires h g
  end.

End SignedURLs.

(** Decoders, used to state and prove that the encoders of this file lose
    no information.  They are not part of the source.  [hex_index] is the
    place of a digit in a digit table, [byte_of_hex] the byte two digits
    stand for, and [url_decode_head] reads the first encoded byte of a
    text written by [CPLAWSURLEncode]. *)
Fixpoint hex_index (table : string) (ch : ascii) : N :=
  match table with
  | EmptyString => 0%N
  | String c rest => if Ascii.eqb c ch then 0%N else N.succ (hex_index rest ch)
  end.

Definition byte_of_hex (table : string) (high low : ascii) : ascii :=
  ascii_of_N (16 * hex_index table high + hex_index table low).

Definition url_decode_head (s : string) : option (ascii * string) :=
  match s with
  | EmptyString => None
  | String c rest =>
      if Ascii.eqb c "%" then
        match rest with
        | String high (String low rest') => Some (byte_of_hex achHEX high low, rest')
        | _ => None
        end
      else Some (c, rest)
  end.

(** The bytes [CPLAWSURLEncode] can write: the unreserved set, the percent
    sign, and the slash when slashes are not encoded. *)
Definition is_url_output (bEncodeSlash : bool) (ch : ascii) : bool :=
  is_unreserved ch || Ascii.eqb ch "%" || (negb bEncodeSlash && Ascii.eqb ch "/").

(** [SetRequestPayer]. *)
Definition set_m_osRequestPayer (v : string) (h : VSIS3HandleHelper)
  : VSIS3HandleHelper :=
  mkVSIS3HandleHelper (m_osURL h)
    (m_osSecretAccessKey h) (m_osAccessKeyId h) (m_osSessionToken h)
    (m_osEndpoint h) (m_osRegion h) v (m_osBucket h)
    (m_osObjectKey h) (m_bUseHTTPS h) (m_bUseVirtualHosting h)
    (m_eCredentialsSource h) (m_oMapQueryParameters h).

Definition SetRequestPayer (osStr : string) (h : VSIS3HandleHelper)
  : VSIS3HandleHelper :=
  set_m_osRequestPayer osStr h.

(** The member functions that may change a handle once it is built, with
    their arguments. *)
Inductive HandleCall : Type :=
| Call_SetEndpoint (osStr : string)
| Call_SetRegion (osStr : string)
| Call_SetRequestPayer (osStr : string)
| Call_SetVirtualHosting (b : bool)
| Call_ResetQueryParameters
| Call_AddQueryParameter (osKey osValue : string)
| Call_RefreshCredentials (osPathForOption : string) (bForceRefresh : bool)
| Call_GetCurlHeaders (osVerb : string) (psExistingHeaders : list string)
    (pabyDataContent : string)
| Call_GetSignedURL (papszOptions : list string)
| Call_CanRestartOnError (pszErrorMsg : string) (pszHeaders : option string)
    (bSetError : bool) (pbUpdateMap : option bool).

(** The URL of a handle is in step with its other members: it is what
    [RebuildURL] would write. *)
Definition URL_in_step (h : VSIS3HandleHelper) : Prop :=
  m_osURL h
  = BuildURL (m_osEndpoint h) (m_osBucket h) (m_osObjectKey h) (m_bUseHTTPS h)
      (m_bUseVirtualHosting h)
    ++ GetQueryString h false.

(** What every call keeps true of a handle built as [h0], and what no call
    changes. *)
Definition handle_kept (h0 h : VSIS3HandleHelper) : Prop :=
  URL_in_step h
  /\ m_osBucket h = m_osBucket h0
  /\ m_osObjectKey h = m_osObjectKey h0
  /\ m_bUseHTTPS h = m_bUseHTTPS h0
  /\ m_eCredentialsSource h = m_eCredentialsSource h0.

Section HandleCalls.
Context {opts : Options} {files : Files} {xml : XMLReader} {net : Network}
        {clock : TimeLib} {platform : Platform} {tok : Tokenizer}
        {hash : HashPrimitives} {reader : StartDateReader}.

(** One call on a handle: the handle and the globals after it. *)
Definition run_call (st : VSIS3HandleHelper * Globals) (c : HandleCall)
  : VSIS3HandleHelper * Globals :=
  let '(h, g) := st in
  match c with
  | Call_SetEndpoint osStr => (SetEndpoint osStr h, g)
  | Call_SetRegion osStr => (SetRegion osStr h, g)
  | Call_SetRequestPayer osStr => (SetRequestPayer osStr h, g)
  | Call_SetVirtualHosting b => (SetVirtualHosting b h, g)
  | Call_ResetQueryParameters => (ResetQueryParameters h, g)
  | Call_AddQueryParameter osKey osValue => (AddQueryParameter osKey osValue h, g)
  | Call_RefreshCredentials osPathForOption bForceRefresh =>
      RefreshCredentials osPathForOption bForceRefresh h g
  | Call_GetCurlHeaders osVerb psExistingHeaders pabyDataContent =>
      let '(_, h', g') :=
        GetCurlHeaders osVerb psExistingHeaders pabyDataContent h g in
      (h', g')
  | Call_GetSignedURL papszOptions =>
      let r := GetSignedURL papszOptions h g in
      (su_handle r, su_globals r)
  | Call_CanRestartOnError pszErrorMsg pszHeaders bSetError pbUpdateMap =>
      (cr_handle (CanRestartOnError h pszErrorMsg pszHeaders bSetError pbUpdateMap),
       g)
  end.

End HandleCalls.

(** The credentials of a handle. *)
Definition handle_credentials (h : VSIS3HandleHelper) : CredentialStrings :=
  mkCredentialStrings (m_osSecretAccessKey h) (m_osAccessKeyId h)
    (m_osSessionToken h).

(** Two states of the globals hold the same cached credentials with the
    same expiration. *)
Definition same_cache (g g' : Globals) : Prop :=
  cached_credentials g' = cached_credentials g
  /\ gnGlobalExpiration g' = gnGlobalExpiration g.

(** The cache holds no credentials. *)
Definition cache_emptied (g : Globals) : Prop :=
  cached_credentials g = mkCredentialStrings "" "" "".

(** *** A pod with a web identity, for the scenarios *)

(** The role and the token file are set for every path; nothing else is. *)
Definition web_identity_options : Options := {|
  path_option := fun _ key =>
    if String.eqb key "AWS_ROLE_ARN" then Some "arn:aws:iam::1:role/r"
    else if String.eqb key "AWS_WEB_IDENTITY_TOKEN_FILE" then Some "/token"
    else None;
  config_option := fun _ => None
|}.

(** The token file holds one line; there is no other file. *)
Definition token_files : Files := {|
  read_lines := fun _ => None;
  VSIIngestFile := fun path =>
    if String.eqb path "/token" then Some ("jwt" ++ nl) else None;
  CPLParseNameValue := split_at_equal
|}.

(** The token file holds a line feed and nothing else. *)
Definition blank_token_files : Files := {|
  read_lines := fun _ => None;
  VSIIngestFile := fun path =>
    if String.eqb path "/token" then Some nl else None;
  CPLParseNameValue := split_at_equal
|}.

(** STS answers the [AssumeRoleWithWebIdentity] request of that role and
    token; no other URL can be fetched. *)
Definition sts_response : string := "<AssumeRoleWithWebIdentityResponse/>".

Definition sts_network : Network := {|
  CPLHTTPFetch := fun url _ =>
    if String.eqb url
         ("https://sts.us-east-1.amazonaws.com/?Action=AssumeRoleWithWebIdentity"
          ++ "&RoleSessionName=gdal&Version=2011-06-15"
          ++ "&RoleArn=arn%3Aaws%3Aiam%3A%3A1%3Arole%2Fr&WebIdentityToken=jwt")
    then Some (mkCPLHTTPResult 0 (Some sts_response) None)
    else None
|}.

(** An XML reader that knows the answer of STS and its credentials node. *)
Definition sts_xml : XMLReader := {|
  CPLXMLNode := list (string * string);
  CPLParseXMLString := fun s =>
    if String.eqb s sts_response then
      Some [("AccessKeyId", "ASIAWEB"); ("SecretAccessKey", "WEBSECRET");
            ("SessionToken", "WEBTOKEN"); ("Expiration", "2030-01-01T00:00:00Z")]
    else None;
  CPLGetXMLNode := fun tree path =>
    if String.eqb path
         ("=AssumeRoleWithWebIdentityResponse.AssumeRoleWithWebIdentityResult"
          ++ ".Credentials")
    then Some tree else None;
  CPLGetXMLValue := fun tree path => assoc_find path tree
|}.

(** A clock that reads [now] and knows one date, which it places at [T]. *)
Definition clock_reading (now T : Z) : TimeLib := {|
  time_now := now;
  CPLYMDHMSToUnixTime := fun _ => T;
  CPLUnixTimeToYMDHMS := fun _ => mk_tm 130 0 1 0 0 0;
  sscanf_iso8601 := fun s =>
    if String.eqb s "2030-01-01T00:00:00Z" then Some (2030, 1, 1, 0, 0, 0)
    else None
|}.

(** Requests are not to be signed; no other option is set. *)
Definition no_sign_options : Options := {|
  path_option := fun _ key =>
    if String.eqb key "AWS_NO_SIGN_REQUEST" then Some "YES" else None;
  config_option := fun _ => None
|}.

(** What one ["key = value"] entry of the selected profile of the
    credentials file does to
    [(osSecretAccessKey, osAccessKeyId, osSessionToken)]: the body of the
    loop of [ReadAWSCredentials] for a line inside the profile. *)
Definition credentials_entry (st : string * string * string) (e : string * string)
  : string * string * string :=
  let '(osSecretAccessKey, osAccessKeyId, osSessionToken) := st in
  let '(pszKey, pszValue) := e in
  if EQUAL pszKey "aws_access_key_id" then
    (osSecretAccessKey, pszValue, osSessionToken)
  else if EQUAL pszKey "aws_secret_access_key" then
    (pszValue, osAccessKeyId, osSessionToken)
  else if EQUAL pszKey "aws_session_token" then
    (osSecretAccessKey, osAccessKeyId, pszValue)
  else st.

(** A credentials file with a comment, the profile [other], the profile
    [default] and a second section headed [default]. *)
Definition two_profiles_files : Files := {|
  read_lines := fun path =>
    if String.eqb path "/home/u/.aws/credentials" then
      Some ["# keys"; "[other]"; "aws_access_key_id = OTHER";
            "[default]"; "aws_access_key_id = FIRST";
            "aws_secret_access_key = SECRET"; "aws_access_key_id = AKID";
            "[default]"; "aws_access_key_id = LATER"]
    else None;
  VSIIngestFile := fun _ => None;
  CPLParseNameValue := split_at_equal
|}.

(** [p] holds for every number below [n]. *)
Fixpoint all_below (n : nat) (p : Z -> bool) : bool :=
  match n with
  | O => true
  | S k => p (Z.of_nat k) && all_below k p
  end.

(** No key of the map is the empty string. *)
Definition keys_not_empty (m : StringMap) : bool :=
  forallb (fun e => negb (string_empty (fst e))) m.

(** An entry ["name=value"] made of two words next to each other, the name
    at an even index. *)
Definition paired_entry (oWords : list string) (entry : string) : Prop :=
  exists (i : nat) (name value : string),
    Nat.even i = true
    /\ nth_error oWords i = Some name
    /\ nth_error oWords (i + 1) = Some value
    /\ entry = name ++ "=" ++ value.

(** A reported event is a warning. *)
Definition is_warning (e : ErrorEvent) : bool :=
  match e with
  | CPLError CE_Warning _ _ => true
  | _ => false
  end.

(** No query parameter has an empty value. *)
Definition values_not_empty (m : StringMap) : bool :=
  forallb (fun e => negb (string_empty (snd e))) m.

(** The query string [GetCurlHeaders] signs: that of the handle, with an
    ["="] after every name, without its ['?']. *)
Definition signing_query_string (h : VSIS3HandleHelper) : string :=
  let osCanonicalQueryString := GetQueryString h true in
  if negb (string_empty osCanonicalQueryString)
  then string_skip 1 osCanonicalQueryString
  else osCanonicalQueryString.

(** Both files of the conflict scenario under the home [/home/u]. *)
Definition conflict_files : Files := scenario_files "OTHER".

(** *** A container with a credentials endpoint, for the scenarios *)






(* ===================================================================== *)
(** * Part II. Properties                                                 *)
(* ===================================================================== *)

(* --------------------------------------------------------------------- *)
(** ** Strings                                                            *)
(* --------------------------------------------------------------------- *)

Lemma append_nil_r (s : string) : s ++ "" = s.
Proof. induction s as [|c s IH]; simpl; [reflexivity | now rewrite IH]. Qed.

Lemma append_assoc (a b c : string) : (a ++ b) ++ c = a ++ (b ++ c).
Proof. induction a as [|x a IH]; simpl; [reflexivity | now rewrite IH]. Qed.

Lemma append_length (a b : string) :
  String.length (a ++ b) = (String.length a + String.length b)%nat.
Proof. induction a as [|x a IH]; simpl; [reflexivity | now rewrite IH]. Qed.

(* --------------------------------------------------------------------- *)
(** ** URL encoding                                                       *)
(* --------------------------------------------------------------------- *)

(** The loop appends to its accumulator. *)
Lemma CPLAWSURLEncode_loop_acc (b : bool) (s acc : string) :
  CPLAWSURLEncode_loop b s acc = acc ++ CPLAWSURLEncode_loop b s "".
Proof.
  revert acc. induction s as [|ch s IH]; intro acc; simpl.
  - now rewrite append_nil_r.
  - rewrite (IH (CPLAWSURLEncode_step b acc ch)).
    rewrite (IH (CPLAWSURLEncode_step b "" ch)).
    rewrite <- append_assoc. f_equal.
    unfold CPLAWSURLEncode_step.
    repeat match goal with |- context [if ?c then _ else _] => destruct c end;
      simpl; reflexivity.
Qed.

(** The source's test on one byte agrees with the specification's set, and
    its output with the specification's per-byte encoding. *)
Lemma CPLAWSURLEncode_step_spec (b : bool) (ch : ascii) :
  CPLAWSURLEncode_step b "" ch = url_encode_byte b ch.
Proof.
  destruct b; destruct ch as [[] [] [] [] [] [] [] []]; vm_compute; reflexivity.
Qed.

Lemma CPLAWSURLEncode_cons (b : bool) (ch : ascii) (s : string) :
  CPLAWSURLEncode (String ch s) b = url_encode_byte b ch ++ CPLAWSURLEncode s b.
Proof.
  unfold CPLAWSURLEncode. simpl.
  rewrite CPLAWSURLEncode_loop_acc, CPLAWSURLEncode_step_spec. reflexivity.
Qed.

Lemma CPLAWSURLEncode_app (b : bool) (s1 s2 : string) :
  CPLAWSURLEncode (s1 ++ s2) b = CPLAWSURLEncode s1 b ++ CPLAWSURLEncode s2 b.
Proof.
  induction s1 as [|ch s1 IH]; simpl.
  - reflexivity.
  - rewrite !CPLAWSURLEncode_cons, IH, append_assoc. reflexivity.
Qed.

Lemma CPLAWSURLEncode_unreserved (b : bool) (s : string) :
  string_forallb is_unreserved s = true -> CPLAWSURLEncode s b = s.
Proof.
  induction s as [|ch s IH]; simpl; intro H.
  - reflexivity.
  - apply andb_true_iff in H. destruct H as [Hc Hs].
    rewrite CPLAWSURLEncode_cons, (IH Hs).
    unfold url_encode_byte. rewrite Hc. reflexivity.
Qed.

(** C2.  [CPLAWSURLEncode] works byte by byte: it distributes over
    concatenation; a byte of the unreserved set [A-Z a-z 0-9 _ - ~ .] is
    left unchanged; ['/'] is kept when [bEncodeSlash] is false and becomes
    ["%2F"] when it is true; every other byte becomes ['%'] followed by the
    two uppercase hexadecimal digits of the byte; hence a string of
    unreserved bytes is a fixed point, and encoding it twice is encoding it
    once. *)
Theorem CPLAWSURLEncode_law (s : string) (bEncodeSlash : bool) :
  (forall s1 s2, CPLAWSURLEncode (s1 ++ s2) bEncodeSlash
                 = CPLAWSURLEncode s1 bEncodeSlash ++ CPLAWSURLEncode s2 bEncodeSlash)
  /\ (forall ch, is_unreserved ch = true ->
                 CPLAWSURLEncode (str1 ch) bEncodeSlash = str1 ch)
  /\ CPLAWSURLEncode "/" bEncodeSlash = (if bEncodeSlash then "%2F" else "/")
  /\ (forall ch, is_unreserved ch = false -> ch <> "/"%char ->
                 CPLAWSURLEncode (str1 ch) bEncodeSlash
                 = String "%" (String (hex_at achHEX (uchar ch / 16))
                                 (str1 (hex_at achHEX (uchar ch mod 16)))))
  /\ (string_forallb is_unreserved s = true ->
      CPLAWSURLEncode s bEncodeSlash = s
      /\ CPLAWSURLEncode (CPLAWSURLEncode s bEncodeSlash) bEncodeSlash
         = CPLAWSURLEncode s bEncodeSlash).
Proof.
  split; [| split; [| split; [| split]]].
  - intros s1 s2. apply CPLAWSURLEncode_app.
  - intros ch Hch. apply (CPLAWSURLEncode_unreserved bEncodeSlash (str1 ch)).
    simpl. now rewrite Hch.
  - destruct bEncodeSlash; reflexivity.
  - intros ch Hch Hslash.
    unfold str1 at 1. rewrite CPLAWSURLEncode_cons.
    unfold url_encode_byte. rewrite Hch.
    destruct (Ascii.eqb_spec ch "/") as [E|_]; [contradiction|].
    reflexivity.
  - intro H. rewrite (CPLAWSURLEncode_unreserved bEncodeSlash s H).
    split; [reflexivity | apply CPLAWSURLEncode_unreserved, H].
Qed.

(** C2 at the object key ["key-1.tif"], made of unreserved bytes only. *)
Lemma CPLAWSURLEncode_law_witness :
  CPLAWSURLEncode "key-1.tif" false = "key-1.tif"
  /\ CPLAWSURLEncode (CPLAWSURLEncode "key-1.tif" false) false
     = CPLAWSURLEncode "key-1.tif" false.
Proof.
  apply (CPLAWSURLEncode_law "key-1.tif" false). reflexivity.
Defined.

Lemma string_empty_true (s : string) : string_empty s = true <-> s = "".
Proof. destruct s; simpl; split; congruence. Qed.

Lemma c_str_no_nul (s : string) : no_nul s = true -> c_str s = s.
Proof.
  unfold no_nul. induction s as [|ch s IH]; simpl; intro H.
  - reflexivity.
  - apply andb_true_iff in H. destruct H as [Hc Hs].
    destruct (Ascii.eqb ch NUL); [discriminate|]. now rewrite (IH Hs).
Qed.

Lemma no_nul_app (a b : string) : no_nul (a ++ b) = no_nul a && no_nul b.
Proof.
  unfold no_nul. induction a as [|ch a IH]; simpl.
  - reflexivity.
  - now rewrite IH, andb_assoc.
Qed.

(* --------------------------------------------------------------------- *)
(** ** Bucket and object key                                              *)
(* --------------------------------------------------------------------- *)

Lemma string_find_none (ch : ascii) (s : string) :
  string_find ch s = None <-> string_mem ch s = false.
Proof.
  induction s as [|c s IH]; simpl.
  - split; reflexivity.
  - destruct (Ascii.eqb c ch); simpl.
    + split; discriminate.
    + destruct (string_find ch s); simpl.
      * split; [discriminate|]. intro H. apply IH in H. discriminate.
      * split; [|reflexivity]. intros _. now apply IH.
Qed.

(** The first occurrence of [ch] in [b ++ ch :: k] is at the end of [b]
    when [b] holds no [ch]. *)
Lemma string_find_app (ch : ascii) (b k : string) :
  string_mem ch b = false ->
  string_find ch (b ++ String ch k) = Some (String.length b).
Proof.
  induction b as [|c b IH]; simpl; intro H.
  - now rewrite Ascii.eqb_refl.
  - apply orb_false_iff in H. destruct H as [Hc Hb].
    rewrite Hc, (IH Hb). reflexivity.
Qed.

Lemma string_resize_app (b k : string) :
  string_resize (String.length b) (b ++ k) = b.
Proof. induction b as [|c b IH]; simpl; [reflexivity | now rewrite IH]. Qed.

Lemma string_skip_app (b k : string) :
  string_skip (String.length b) (b ++ k) = k.
Proof. induction b as [|c b IH]; simpl; [now destruct k | exact IH]. Qed.

(** C6 on the URI ["/key"]: its bucket part is empty, and it is accepted,
    the emptiness being tested on the whole URI before the split. *)
Lemma GetBucketAndObjectKey_empty_bucket_accepted :
  bk_ret (GetBucketAndObjectKey "/key" "/vsis3/" false "") = true
  /\ bk_osBucket (GetBucketAndObjectKey "/key" "/vsis3/" false "") = ""
  /\ bk_osObjectKey (GetBucketAndObjectKey "/key" "/vsis3/" false "") = "key".
Proof. repeat split. Qed.

Lemma string_empty_app_cons (b : string) (ch : ascii) (k : string) :
  string_empty (b ++ String ch k) = false.
Proof. destruct b; reflexivity. Qed.

Lemma string_skip_app_cons (b : string) (ch : ascii) (k : string) :
  string_skip (String.length b + 1) (b ++ String ch k) = k.
Proof.
  induction b as [|c b IH]; simpl.
  - reflexivity.
  - exact IH.
Qed.

(** A URI with a ['/']: the split at the first one. *)
Lemma GetBucketAndObjectKey_slash
    (b k pszFSPrefix : string) (bAllowNoObject : bool) (osObjectKey0 : string) :
  string_mem "/" b = false ->
  GetBucketAndObjectKey (b ++ "/" ++ k) pszFSPrefix bAllowNoObject osObjectKey0
  = mkBucketAndObjectKey true b k [].
Proof.
  intro Hb. unfold GetBucketAndObjectKey. simpl ("/" ++ k).
  rewrite string_empty_app_cons, (string_find_app "/" b k Hb).
  rewrite string_resize_app, string_skip_app_cons. reflexivity.
Qed.

(** A non-empty URI without ['/']. *)
Lemma GetBucketAndObjectKey_no_slash
    (pszURI pszFSPrefix : string) (bAllowNoObject : bool) (osObjectKey0 : string) :
  pszURI <> "" -> string_mem "/" pszURI = false ->
  GetBucketAndObjectKey pszURI pszFSPrefix bAllowNoObject osObjectKey0
  = if bAllowNoObject then mkBucketAndObjectKey true pszURI "" []
    else mkBucketAndObjectKey false pszURI osObjectKey0
           [CPLError CE_Failure CPLE_AppDefined
              ("Filename should be of the form " ++ pszFSPrefix ++ "bucket/key")].
Proof.
  intros Hne Hmem. unfold GetBucketAndObjectKey.
  destruct pszURI as [|c u]; [contradiction|].
  cbn [string_empty]. apply string_find_none in Hmem. rewrite Hmem. reflexivity.
Qed.

(** C6, what the code does.  [GetBucketAndObjectKey] splits the URI at its
    first ['/']: the empty URI is rejected, without an error being reported; a
    non-empty URI without ['/'] is accepted as a bucket with an empty object
    key when [bAllowNoObject], and otherwise rejected with one [CE_Failure]
    of number [CPLE_AppDefined]; a URI [b ++ "/" ++ k] where [b] has no
    ['/'] is accepted with bucket [b] and key [k], also when [b] is
    empty. *)
Theorem GetBucketAndObjectKey_spec
    (pszURI pszFSPrefix : string) (bAllowNoObject : bool) (osObjectKey0 : string) :
  let r := GetBucketAndObjectKey pszURI pszFSPrefix bAllowNoObject osObjectKey0 in
  (pszURI = "" -> bk_ret r = false /\ bk_errors r = [])
  /\ (pszURI <> "" -> string_mem "/" pszURI = false -> bAllowNoObject = true ->
      bk_ret r = true /\ bk_osBucket r = pszURI /\ bk_osObjectKey r = ""
      /\ bk_errors r = [])
  /\ (pszURI <> "" -> string_mem "/" pszURI = false -> bAllowNoObject = false ->
      bk_ret r = false
      /\ bk_errors r =
           [CPLError CE_Failure CPLE_AppDefined
              ("Filename should be of the form " ++ pszFSPrefix ++ "bucket/key")])
  /\ (forall b k, pszURI = b ++ "/" ++ k -> string_mem "/" b = false ->
      bk_ret r = true /\ bk_osBucket r = b /\ bk_osObjectKey r = k
      /\ bk_errors r = []).
Proof.
  cbv zeta. split; [| split; [| split]].
  - intros ->. split; reflexivity.
  - intros Hne Hmem ->.
    rewrite (GetBucketAndObjectKey_no_slash _ _ _ _ Hne Hmem). repeat split.
  - intros Hne Hmem ->.
    rewrite (GetBucketAndObjectKey_no_slash _ _ _ _ Hne Hmem). repeat split.
  - intros b k -> Hb.
    rewrite (GetBucketAndObjectKey_slash _ _ _ _ _ Hb). repeat split.
Qed.

(** C6 at the URI ["bucket/dir/key.tif"]: split at the first slash. *)
Lemma GetBucketAndObjectKey_spec_witness :
  bk_ret (GetBucketAndObjectKey "bucket/dir/key.tif" "/vsis3/" false "") = true
  /\ bk_osBucket (GetBucketAndObjectKey "bucket/dir/key.tif" "/vsis3/" false "") = "bucket"
  /\ bk_osObjectKey (GetBucketAndObjectKey "bucket/dir/key.tif" "/vsis3/" false "")
     = "dir/key.tif"
  /\ bk_errors (GetBucketAndObjectKey "bucket/dir/key.tif" "/vsis3/" false "") = [].
Proof.
  apply (GetBucketAndObjectKey_spec "bucket/dir/key.tif" "/vsis3/" false "").
  - reflexivity.
  - reflexivity.
Defined.

(* --------------------------------------------------------------------- *)
(** ** Destruction of a handle                                            *)
(* --------------------------------------------------------------------- *)

Lemma string_set_app (a : string) (c ch : ascii) (b : string) :
  string_set (String.length a) ch (a ++ String c b) = a ++ String ch b.
Proof. induction a as [|x a IH]; simpl; [reflexivity | now rewrite IH]. Qed.

Lemma string_repeat_snoc (ch : ascii) (n : nat) :
  String ch (string_repeat ch n) = string_repeat ch n ++ str1 ch.
Proof. induction n as [|n IH]; simpl; [reflexivity | now rewrite <- IH]. Qed.

(** With the first [length a] bytes done, the loop zeroes the rest. *)
Lemma zero_bytes_loop_app (b a : string) :
  zero_bytes_loop (String.length b) (String.length a) (a ++ b)
  = a ++ string_repeat NUL (String.length b).
Proof.
  revert a. induction b as [|c b IH]; intro a; simpl.
  - reflexivity.
  - rewrite string_set_app.
    replace (a ++ String NUL b) with ((a ++ str1 NUL) ++ b)
      by (rewrite append_assoc; reflexivity).
    replace (S (String.length a)) with (String.length (a ++ str1 NUL))
      by (rewrite append_length; simpl; lia).
    rewrite IH, append_assoc. reflexivity.
Qed.

Lemma zero_bytes_loop_all (s : string) :
  zero_bytes_loop (String.length s) 0 s = string_repeat NUL (String.length s).
Proof. exact (zero_bytes_loop_app s ""). Qed.

(** C9 as the claim states it fails: the session token of a destroyed
    handle still holds its bytes. *)
Lemma destroy_keeps_session_token :
  let h := new_VSIS3HandleHelper "SECRET" "AKID" "TOKEN" "s3.amazonaws.com"
             "us-east-1" "" "bucket" "key" true true ASSUMED_ROLE in
  m_osSessionToken (destroy_VSIS3HandleHelper h) = "TOKEN"
  /\ m_osSessionToken (destroy_VSIS3HandleHelper h)
     <> string_repeat NUL (String.length (m_osSessionToken h)).
Proof. split; [reflexivity | discriminate]. Qed.

(** C9, amended.  The destructor overwrites every byte of the stored secret
    access key with zero, keeping its length; it writes to no other member:
    the session token and the access key id are as they were. *)
Theorem destroy_VSIS3HandleHelper_zeroes_secret_key (h : VSIS3HandleHelper) :
  m_osSecretAccessKey (destroy_VSIS3HandleHelper h)
  = string_repeat NUL (String.length (m_osSecretAccessKey h))
  /\ m_osSessionToken (destroy_VSIS3HandleHelper h) = m_osSessionToken h
  /\ m_osAccessKeyId (destroy_VSIS3HandleHelper h) = m_osAccessKeyId h
  /\ destroy_VSIS3HandleHelper h
     = mkVSIS3HandleHelper (m_osURL h)
         (string_repeat NUL (String.length (m_osSecretAccessKey h)))
         (m_osAccessKeyId h) (m_osSessionToken h) (m_osEndpoint h) (m_osRegion h)
         (m_osRequestPayer h) (m_osBucket h) (m_osObjectKey h) (m_bUseHTTPS h)
         (m_bUseVirtualHosting h) (m_eCredentialsSource h)
         (m_oMapQueryParameters h).
Proof.
  unfold destroy_VSIS3HandleHelper. cbn [m_osSecretAccessKey m_osSessionToken m_osAccessKeyId].
  rewrite zero_bytes_loop_all. repeat split.
Qed.

(* --------------------------------------------------------------------- *)
(** ** The URL of a handle                                                *)
(* --------------------------------------------------------------------- *)

Lemma no_nul_loop_step (b : bool) (acc : string) (ch : ascii) :
  no_nul acc = true -> no_nul (CPLAWSURLEncode_step b acc ch) = true.
Proof.
  intro Hacc.
  assert (Hone : no_nul (CPLAWSURLEncode_step b "" ch) = true)
    by (destruct b; destruct ch as [[] [] [] [] [] [] [] []]; vm_compute; reflexivity).
  assert (E : CPLAWSURLEncode_step b acc ch = acc ++ CPLAWSURLEncode_step b "" ch).
  { unfold CPLAWSURLEncode_step.
    repeat match goal with |- context [if ?c then _ else _] => destruct c end;
      reflexivity. }
  rewrite E, no_nul_app, Hacc, Hone. reflexivity.
Qed.

(** The encoder never outputs a NUL byte: a NUL of the input becomes
    ["%00"]. *)
Lemma CPLAWSURLEncode_no_nul (s : string) (b : bool) :
  no_nul (CPLAWSURLEncode s b) = true.
Proof.
  unfold CPLAWSURLEncode.
  assert (G : forall acc, no_nul acc = true ->
                          no_nul (CPLAWSURLEncode_loop b s acc) = true).
  { induction s as [|ch s IH]; intros acc Hacc; simpl.
    - exact Hacc.
    - apply IH, no_nul_loop_step, Hacc. }
  apply G. reflexivity.
Qed.

(* --------------------------------------------------------------------- *)
(** ** The key order of [std::map<CPLString, CPLString>]                  *)
(* --------------------------------------------------------------------- *)

Lemma compare_refl (s : string) : String.compare s s = Eq.
Proof.
  induction s as [|c s IH]; simpl; [reflexivity|].
  unfold Ascii.compare. now rewrite N.compare_refl.
Qed.

Lemma compare_eq (a b : string) : String.compare a b = Eq <-> a = b.
Proof.
  split; [apply String.compare_eq_iff | intros ->; apply compare_refl].
Qed.

Lemma compare_gt_lt (a b : string) :
  String.compare a b = Gt <-> String.compare b a = Lt.
Proof.
  rewrite (String.compare_antisym b a).
  destruct (String.compare a b); simpl; split; congruence.
Qed.

Lemma ascii_compare_eq (a b : ascii) : Ascii.compare a b = Eq -> a = b.
Proof.
  unfold Ascii.compare. intro H. apply N.compare_eq in H.
  rewrite <- (ascii_N_embedding a), <- (ascii_N_embedding b). now rewrite H.
Qed.

Lemma compare_lt_trans (a b c : string) :
  String.compare a b = Lt -> String.compare b c = Lt -> String.compare a c = Lt.
Proof.
  revert b c. induction a as [|x a IH]; intros [|y b] [|z c]; simpl;
    try congruence.
  destruct (Ascii.compare x y) eqn:Exy; try discriminate;
    destruct (Ascii.compare y z) eqn:Eyz; try discriminate; intros Hab Hbc.
  - apply ascii_compare_eq in Exy, Eyz. subst.
    unfold Ascii.compare. rewrite N.compare_refl. eapply IH; eassumption.
  - apply ascii_compare_eq in Exy. subst. now rewrite Eyz.
  - apply ascii_compare_eq in Eyz. subst. now rewrite Exy.
  - unfold Ascii.compare in *. rewrite N.compare_lt_iff in *.
    assert (E : (N_of_ascii x ?= N_of_ascii z)%N = Lt)
      by (apply N.compare_lt_iff; lia).
    now rewrite E.
Qed.

Lemma map_set_sorted (key value : string) (m : StringMap) :
  keys_sorted m = true -> keys_sorted (map_set key value m) = true.
Proof.
  induction m as [|[k v] rest IH]; intro Hs.
  - reflexivity.
  - simpl map_set. destruct (String.compare key k) eqn:E.
    + exact Hs.
    + cbn [keys_sorted]. rewrite E. exact Hs.
    + assert (Hrest : keys_sorted rest = true).
      { simpl in Hs. destruct rest as [|[k' v'] r]; [reflexivity|].
        destruct (String.compare k k'); congruence. }
      specialize (IH Hrest).
      destruct rest as [|[k' v'] r].
      * simpl. apply compare_gt_lt in E. now rewrite E.
      * simpl in Hs. destruct (String.compare k k') eqn:Ekk'; try discriminate.
        simpl map_set in *. destruct (String.compare key k') eqn:E'.
        -- cbn [keys_sorted] in *. now rewrite Ekk'.
        -- cbn [keys_sorted] in *. apply compare_gt_lt in E. now rewrite E.
        -- cbn [keys_sorted] in *. now rewrite Ekk'.
Qed.

(** Closes a goal whose hypotheses order three keys in a cycle. *)
Ltac compare_cycle :=
  repeat match goal with
         | H : String.compare ?a ?b = Gt |- _ => apply compare_gt_lt in H
         end;
  match goal with
  | H1 : String.compare ?a ?b = Lt, H2 : String.compare ?b ?c = Lt,
    H3 : String.compare ?c ?a = Lt |- _ =>
      pose proof (compare_lt_trans _ _ _ H1 H2) as Hac;
      apply compare_gt_lt in H3; congruence
  end.

(** Assignments to two different keys commute. *)
Lemma map_set_comm (k1 v1 k2 v2 : string) (m : StringMap) :
  k1 <> k2 ->
  map_set k1 v1 (map_set k2 v2 m) = map_set k2 v2 (map_set k1 v1 m).
Proof.
  intro Hne.
  assert (F : forall a b, String.compare a b = CompOpp (String.compare b a))
    by apply String.compare_antisym.
  induction m as [|[k v] rest IH].
  - simpl. rewrite (F k2 k1).
    destruct (String.compare k1 k2) eqn:E; simpl; try reflexivity.
    apply compare_eq in E. contradiction.
  - simpl map_set.
    destruct (String.compare k1 k) eqn:E1; destruct (String.compare k2 k) eqn:E2;
      destruct (String.compare k1 k2) eqn:E12;
      try (apply compare_eq in E12; contradiction);
      try (apply compare_eq in E1; subst k);
      try (apply compare_eq in E2; subst k);
      try congruence;
      pose proof (F k2 k1) as F21; rewrite E12 in F21; simpl in F21;
      simpl map_set; rewrite ?E1, ?E2, ?E12, ?F21, ?compare_refl;
      simpl map_set; rewrite ?E1, ?E2, ?E12, ?F21, ?compare_refl;
      try reflexivity; try congruence; try (f_equal; exact IH);
      try (exfalso; clear F21; compare_cycle).
Qed.

(* --------------------------------------------------------------------- *)
(** ** Canonical headers                                                  *)
(* --------------------------------------------------------------------- *)

Lemma fold_existing_header_entry (p : string) (m : StringMap) (data : string) :
  fold_existing_header p m data
  = match header_entry p data with
    | Some (k, v) => map_set k v m
    | None => m
    end.
Proof.
  unfold fold_existing_header, header_entry.
  destruct (STARTS_WITH_CI data p || STARTS_WITH_CI data "Content-MD5");
    [|reflexivity].
  destruct (string_find ":" data); reflexivity.
Qed.

Lemma fold_existing_headers (p : string) (l : list string) (m : StringMap) :
  fold_left (fold_existing_header p) l m = map_set_all (folded_headers p l) m.
Proof.
  revert m. induction l as [|data l IH]; intro m; simpl.
  - reflexivity.
  - rewrite IH, fold_existing_header_entry.
    destruct (header_entry p data) as [[k v]|]; reflexivity.
Qed.

Lemma canonical_lines_text (m : StringMap) (acc : string) :
  canonical_lines m acc = acc ++ canonical_text m.
Proof.
  revert acc. induction m as [|[k v] rest IH]; intro acc; simpl.
  - now rewrite append_nil_r.
  - rewrite IH, !append_assoc. reflexivity.
Qed.

Lemma map_set_all_sorted (entries : list (string * string)) (m : StringMap) :
  keys_sorted m = true -> keys_sorted (map_set_all entries m) = true.
Proof.
  revert m. induction entries as [|[k v] rest IH]; intros m Hm; simpl.
  - exact Hm.
  - apply IH, map_set_sorted, Hm.
Qed.

Lemma folded_headers_perm (p : string) (l l' : list string) :
  Permutation l l' -> Permutation (folded_headers p l) (folded_headers p l').
Proof.
  induction 1 as [|x l l' _ IH|x y l|l l' l'' _ IH1 _ IH2]; simpl.
  - constructor.
  - destruct (header_entry p x); [now constructor | exact IH].
  - destruct (header_entry p y), (header_entry p x);
      try apply Permutation_refl. apply perm_swap.
  - eapply Permutation_trans; eassumption.
Qed.

(** Entries with pairwise different keys may be assigned in any order. *)
Lemma map_set_all_perm (e e' : list (string * string)) :
  Permutation e e' -> NoDup (map fst e) ->
  forall m, map_set_all e m = map_set_all e' m.
Proof.
  induction 1 as [|[k v] l l' _ IH|[k1 v1] [k2 v2] l|l l' l'' H1 IH1 H2 IH2];
    intros Hnd m; simpl.
  - reflexivity.
  - inversion Hnd; subst. now apply IH.
  - f_equal. apply map_set_comm.
    inversion Hnd as [|? ? Hin _]; subst. simpl in Hin. intro E. apply Hin.
    left. exact E.
  - rewrite IH1 by exact Hnd. apply IH2.
    eapply Permutation_NoDup; [|exact Hnd]. now apply Permutation_map.
Qed.

(** C3 as the claim states it fails: two headers whose names differ only in
    case share a key, and the one that comes later in the list wins. *)
Lemma BuildCanonicalizedHeaders_order_matters :
  Permutation ["x-amz-meta-a: 1"; "X-Amz-Meta-A: 2"]
              ["X-Amz-Meta-A: 2"; "x-amz-meta-a: 1"]
  /\ fst (BuildCanonicalizedHeaders []
            ["x-amz-meta-a: 1"; "X-Amz-Meta-A: 2"] "x-amz-")
     = "x-amz-meta-a:2" ++ nl
  /\ fst (BuildCanonicalizedHeaders []
            ["X-Amz-Meta-A: 2"; "x-amz-meta-a: 1"] "x-amz-")
     = "x-amz-meta-a:1" ++ nl.
Proof. split; [apply perm_swap | split; reflexivity]. Qed.

(** C3, amended.  [BuildCanonicalizedHeaders] assigns to the base map, in
    the order of the list, the entry of every existing header that starts
    (without regard to case) with the prefix or with ["Content-MD5"] and
    holds a colon: its name lowercased, its value trimmed.  The text is one
    ["key:value\n"] line per entry of the resulting map; the keys stay in
    sorted order.  The result is the same for every permutation of the
    existing headers when the folded headers have pairwise different
    lowercased names. *)
Theorem BuildCanonicalizedHeaders_spec
    (oSortedMapHeaders : StringMap) (psExistingHeaders : list string)
    (pszHeaderPrefix : string) :
  let entries := folded_headers pszHeaderPrefix psExistingHeaders in
  let m := map_set_all entries oSortedMapHeaders in
  BuildCanonicalizedHeaders oSortedMapHeaders psExistingHeaders pszHeaderPrefix
  = (canonical_text m, m)
  /\ (keys_sorted oSortedMapHeaders = true -> keys_sorted m = true)
  /\ (forall psPermuted,
        Permutation psExistingHeaders psPermuted ->
        NoDup (map fst entries) ->
        BuildCanonicalizedHeaders oSortedMapHeaders psPermuted pszHeaderPrefix
        = BuildCanonicalizedHeaders oSortedMapHeaders psExistingHeaders
            pszHeaderPrefix).
Proof.
  cbv zeta. unfold BuildCanonicalizedHeaders.
  split; [| split].
  - rewrite fold_existing_headers, canonical_lines_text. reflexivity.
  - apply map_set_all_sorted.
  - intros l' Hperm Hnd. rewrite !fold_existing_headers.
    rewrite <- (map_set_all_perm _ _ (folded_headers_perm pszHeaderPrefix _ _ Hperm) Hnd).
    reflexivity.
Qed.

(** C3 at two headers with different names, in both orders. *)
Lemma BuildCanonicalizedHeaders_spec_witness :
  BuildCanonicalizedHeaders [("host", "h")]
    ["x-amz-date: 20150830T123600Z"; "X-Amz-Acl: private"] "x-amz-"
  = BuildCanonicalizedHeaders [("host", "h")]
      ["X-Amz-Acl: private"; "x-amz-date: 20150830T123600Z"] "x-amz-".
Proof.
  apply (BuildCanonicalizedHeaders_spec [("host", "h")]
           ["X-Amz-Acl: private"; "x-amz-date: 20150830T123600Z"] "x-amz-").
  - apply perm_swap.
  - simpl. repeat constructor; simpl; intuition discriminate.
Defined.

(* --------------------------------------------------------------------- *)
(** ** The SigV4 signature                                                *)
(* --------------------------------------------------------------------- *)

Lemma string_take_repeat (ch : ascii) (n m : nat) :
  (n <= m)%nat -> string_take n (string_repeat ch m) = string_repeat ch n.
Proof.
  revert m. induction n as [|n IH]; intros [|m] H; simpl; try reflexivity; try lia.
  rewrite IH by lia. reflexivity.
Qed.

(** [resize(n)] is the first [n] bytes of the string padded with NULs. *)
Lemma string_resize_take_pad (n m : nat) (s : string) :
  (n <= m)%nat ->
  string_resize n s = string_take n (s ++ string_repeat NUL m).
Proof.
  revert m s. induction n as [|n IH]; intros m s H.
  - destruct s; reflexivity.
  - destruct s as [|c s].
    + simpl (_ ++ _). rewrite string_take_repeat by exact H. reflexivity.
    + simpl. rewrite (IH m s) by lia. reflexivity.
Qed.


(** Outside the timestamp format: [resize(8)] pads a text shorter than 8
    bytes, such as ["2015"], with NUL bytes. *)
Lemma SIGN4_Scope_short_timestamp :
  SIGN4_Scope "2015" "us-east-1" "s3"
  = "2015" ++ string_repeat NUL 4 ++ "/us-east-1/s3/aws4_request"
  /\ SIGN4_Scope "2015" "us-east-1" "s3"
     <> string_take 8 "2015" ++ "/" ++ "us-east-1" ++ "/" ++ "s3" ++ "/aws4_request".
Proof. split; [reflexivity | discriminate]. Qed.

Section SignatureProperties.
Context {hash : HashPrimitives}.

(** The signature for any timestamp text, with the date as [resize(8)]
    leaves it. *)
Lemma CPLGetAWS_SIGN4_Signature_resized
    (osSecretAccessKey osAccessToken osRegion osRequestPayer osService osVerb : string)
    (psExistingHeaders : list string)
    (osHost osCanonicalURI osCanonicalQueryString osXAMZContentSHA256 : string)
    (bAddHeaderAMZContentSHA256 : bool) (osTimestamp : string) :
  let date := string_take 8 (osTimestamp ++ string_repeat NUL 8) in
  let scope := date ++ "/" ++ osRegion ++ "/" ++ osService ++ "/aws4_request" in
  let canonical_request :=
    fst (SIGN4_CanonicalRequest osAccessToken osRequestPayer osVerb
           psExistingHeaders osHost osCanonicalURI osCanonicalQueryString
           osXAMZContentSHA256 bAddHeaderAMZContentSHA256 osTimestamp) in
  let string_to_sign :=
    "AWS4-HMAC-SHA256" ++ nl ++ osTimestamp ++ nl ++ scope ++ nl
      ++ CPLGetLowerCaseHex (CPL_SHA256 canonical_request) in
  let signing_key :=
    CPL_HMAC_SHA256
      (CPL_HMAC_SHA256
         (CPL_HMAC_SHA256
            (CPL_HMAC_SHA256 ("AWS4" ++ osSecretAccessKey) date)
            osRegion)
         osService)
      "aws4_request" in
  fst (CPLGetAWS_SIGN4_Signature osSecretAccessKey osAccessToken osRegion
         osRequestPayer osService osVerb psExistingHeaders osHost osCanonicalURI
         osCanonicalQueryString osXAMZContentSHA256 bAddHeaderAMZContentSHA256
         osTimestamp)
  = CPLGetLowerCaseHex (CPL_HMAC_SHA256 signing_key string_to_sign).
Proof.
  cbv zeta. unfold CPLGetAWS_SIGN4_Signature.
  destruct (SIGN4_CanonicalRequest _ _ _ _ _ _ _ _ _ _) as [osCanonicalRequest sh].
  cbn [fst]. f_equal.
  unfold SIGN4_SigningKey, SIGN4_StringToSign, SIGN4_Scope, SIGN4_YYMMDD,
    CPLGetLowerCaseHexSHA256.
  rewrite <- (string_resize_take_pad 8 8 osTimestamp (le_n 8)).
  f_equal. rewrite !append_assoc. reflexivity.
Qed.


End SignatureProperties.


(** Printing NUL-free strings through [%s] loses nothing. *)
Lemma BuildURL_no_nul (osEndpoint osBucket osObjectKey : string)
    (bUseHTTPS bUseVirtualHosting : bool) :
  no_nul osEndpoint = true -> no_nul osBucket = true ->
  BuildURL osEndpoint osBucket osObjectKey bUseHTTPS bUseVirtualHosting
  = let scheme := if bUseHTTPS then "https" else "http" in
    if string_empty osBucket then scheme ++ "://" ++ osEndpoint
    else if bUseVirtualHosting then
      scheme ++ "://" ++ osBucket ++ "." ++ osEndpoint ++ "/"
        ++ CPLAWSURLEncode osObjectKey false
    else
      scheme ++ "://" ++ osEndpoint ++ "/" ++ osBucket ++ "/"
        ++ CPLAWSURLEncode osObjectKey false.
Proof.
  intros He Hb. unfold BuildURL.
  rewrite (c_str_no_nul _ He), (c_str_no_nul _ Hb),
    (c_str_no_nul _ (CPLAWSURLEncode_no_nul osObjectKey false)).
  reflexivity.
Qed.

(* --------------------------------------------------------------------- *)
(** ** Redirect and region errors                                         *)
(* --------------------------------------------------------------------- *)

Lemma string_take_app (b x : string) : string_take (String.length b) (b ++ x) = b.
Proof. induction b as [|c b IH]; simpl; [now destruct x | now rewrite IH]. Qed.

Lemma string_take_all (b : string) : string_take (String.length b) b = b.
Proof. induction b as [|c b IH]; simpl; [reflexivity | now rewrite IH]. Qed.

(** [strncmp] over the length of [b] succeeds on [b ++ x]. *)
Lemma strncmp_eq_prefix (b x : string) :
  strncmp_eq (b ++ x) b (String.length b) = true.
Proof.
  unfold strncmp_eq. rewrite string_take_app, string_take_all.
  apply String.eqb_refl.
Qed.

Lemma cstr_at_app (b : string) (ch : ascii) (x : string) :
  cstr_at (b ++ String ch x) (String.length b) = ch.
Proof. unfold cstr_at. induction b as [|c b IH]; simpl; [reflexivity | exact IH]. Qed.

(** [EQUAL] relates strings with the same lowercase form. *)
Lemma EQUAL_true (a b : string) :
  EQUAL a b = true <-> CPLString_tolower a = CPLString_tolower b.
Proof. unfold EQUAL. apply String.eqb_eq. Qed.

Lemma EQUAL_other (code a b : string) :
  EQUAL code a = true -> CPLString_tolower a <> CPLString_tolower b ->
  EQUAL code b = false.
Proof.
  intros Ha Hne. apply EQUAL_true in Ha.
  destruct (EQUAL code b) eqn:E; [|reflexivity].
  apply EQUAL_true in E. congruence.
Qed.

Section ErrorResponseProperties.
Context {xml : XMLReader}.

(** C8.  On a body that parses as an [<Error>] document: with code
    [AuthorizationHeaderMalformed] and a [<Region>], [CanRestartOnError]
    stores that region in the handle and returns true; with code
    [PermanentRedirect] and an [<Endpoint>] that is the bucket name, a dot
    and a suffix, on a handle in path style whose bucket has no dot or whose
    header block holds no [x-amz-bucket-region], it switches the handle to
    virtual hosting, sets the endpoint to the suffix (rebuilding the URL)
    and returns true. *)
Theorem CanRestartOnError_spec
    (h : VSIS3HandleHelper) (pszErrorMsg : string) (pszHeaders : option string)
    (bSetError : bool) (pbUpdateMap : option bool)
    (psTree : CPLXMLNode) (pszCode : string) :
  STARTS_WITH pszErrorMsg "<?xml" || STARTS_WITH pszErrorMsg "<Error>" = true ->
  CPLParseXMLString pszErrorMsg = Some psTree ->
  CPLGetXMLValue psTree "=Error.Code" = Some pszCode ->
  let r := CanRestartOnError h pszErrorMsg pszHeaders bSetError pbUpdateMap in
  (forall pszRegion,
      EQUAL pszCode "AuthorizationHeaderMalformed" = true ->
      CPLGetXMLValue psTree "=Error.Region" = Some pszRegion ->
      cr_ret r = true
      /\ m_osRegion (cr_handle r) = pszRegion
      /\ cr_handle r = set_m_osRegion pszRegion h
      /\ cr_errors r = [])
  /\ (forall suffix,
      EQUAL pszCode "PermanentRedirect" = true ->
      CPLGetXMLValue psTree "=Error.Endpoint" = Some (m_osBucket h ++ "." ++ suffix) ->
      m_bUseVirtualHosting h = false ->
      no_nul (m_osBucket h) = true ->
      string_mem "." (m_osBucket h) = false
      \/ match pszHeaders with
         | Some hd => strstr hd "x-amz-bucket-region: "
         | None => None
         end = None ->
      cr_ret r = true
      /\ m_bUseVirtualHosting (cr_handle r) = true
      /\ m_osEndpoint (cr_handle r) = suffix
      /\ cr_handle r
         = RebuildURL (set_m_osEndpoint suffix (set_m_bUseVirtualHosting true h))
      /\ cr_pbUpdateMap r = store_flag pbUpdateMap true
      /\ cr_errors r = []).
Proof.
  intros Hstart Hparse Hcode. cbv zeta.
  assert (Hpre : negb (STARTS_WITH pszErrorMsg "<?xml")
                 && negb (STARTS_WITH pszErrorMsg "<Error>") = false).
  { rewrite <- negb_orb, Hstart. reflexivity. }
  split.
  - intros pszRegion Hauth Hregion.
    unfold CanRestartOnError. rewrite Hpre, Hparse, Hcode, Hauth, Hregion.
    repeat split.
  - intros suffix Hredir Hendpoint Hpath Hnul Hstyle.
    assert (Hauth : EQUAL pszCode "AuthorizationHeaderMalformed" = false)
      by (apply (EQUAL_other _ _ _ Hredir); discriminate).
    assert (Htemp : EQUAL pszCode "TemporaryRedirect" = false)
      by (apply (EQUAL_other _ _ _ Hredir); discriminate).
    unfold CanRestartOnError.
    rewrite Hpre, Hparse, Hcode, Hauth, Hredir, Htemp, Hendpoint, Hpath.
    rewrite (c_str_no_nul _ Hnul).
    simpl ("." ++ suffix).
    rewrite strncmp_eq_prefix, cstr_at_app.
    cbn [andb orb negb Ascii.eqb Bool.eqb].
    assert (Hskip : string_skip (String.length (m_osBucket h) + 1)
                      (m_osBucket h ++ String "." suffix) = suffix)
      by apply string_skip_app_cons.
    destruct Hstyle as [Hdot | Hhdr].
    + rewrite Hdot. cbn [m_bUseVirtualHosting set_m_bUseVirtualHosting].
      rewrite Hskip. repeat split.
    + rewrite Hhdr.
      destruct (string_mem "." (m_osBucket h));
        cbn [m_bUseVirtualHosting set_m_bUseVirtualHosting];
        rewrite Hskip; repeat split.
Qed.

End ErrorResponseProperties.

(** C8 on the two bodies of the redirect scenario, for a path-style handle
    on the bucket ["bucket"]. *)
Lemma CanRestartOnError_spec_witness :
  let h := new_VSIS3HandleHelper "SECRET" "AKID" "" "s3.amazonaws.com" "us-east-1"
             "" "bucket" "key" true false REGULAR in
  (cr_ret (CanRestartOnError (xml := scenario_xml) h body_region_error None true None)
   = true
   /\ m_osRegion (cr_handle (CanRestartOnError (xml := scenario_xml) h
                               body_region_error None true None))
      = "ap-south-1")
  /\ (cr_ret (CanRestartOnError (xml := scenario_xml) h body_redirect_error None
                true None) = true
      /\ m_bUseVirtualHosting
           (cr_handle (CanRestartOnError (xml := scenario_xml) h
                         body_redirect_error None true None)) = true
      /\ m_osEndpoint
           (cr_handle (CanRestartOnError (xml := scenario_xml) h
                         body_redirect_error None true None))
         = "s3.eu-west-1.amazonaws.com").
Proof.
  cbv zeta. split.
  - pose proof (CanRestartOnError_spec (xml := scenario_xml)
                  (new_VSIS3HandleHelper "SECRET" "AKID" "" "s3.amazonaws.com"
                     "us-east-1" "" "bucket" "key" true false REGULAR)
                  body_region_error None true None
                  [("=Error.Code", "AuthorizationHeaderMalformed");
                   ("=Error.Region", "ap-south-1")]
                  "AuthorizationHeaderMalformed"
                  eq_refl eq_refl eq_refl) as [HA _].
    destruct (HA "ap-south-1" eq_refl eq_refl) as [H1 [H2 _]].
    split; assumption.
  - pose proof (CanRestartOnError_spec (xml := scenario_xml)
                  (new_VSIS3HandleHelper "SECRET" "AKID" "" "s3.amazonaws.com"
                     "us-east-1" "" "bucket" "key" true false REGULAR)
                  body_redirect_error None true None
                  [("=Error.Code", "PermanentRedirect");
                   ("=Error.Endpoint", "bucket.s3.eu-west-1.amazonaws.com")]
                  "PermanentRedirect"
                  eq_refl eq_refl eq_refl) as [_ HB].
    destruct (HB "s3.eu-west-1.amazonaws.com" eq_refl eq_refl eq_refl eq_refl
                (or_introl eq_refl)) as [H1 [H2 [H3 _]]].
    repeat split; assumption.
Defined.

(* --------------------------------------------------------------------- *)
(** ** The pairing loop of [ParseSimpleJson]                              *)
(* --------------------------------------------------------------------- *)

(** One turn of the loop. *)
Lemma ParseSimpleJson_loop_step (oWords : list string) (i : nat)
    (st : list nat * list string) :
  ParseSimpleJson_loop oWords i st
  = if (i <? List.length oWords)%nat then
      ParseSimpleJson_loop oWords (i + 2)
        ((fst st ++ [i; (i + 1)%nat])%list,
         SetNameValue (snd st) (CPLStringList_at oWords i)
                      (CPLStringList_at oWords (i + 1)))
    else st.
Proof.
  rewrite ParseSimpleJson_loop_equation_1.
  destruct (le_lt_dec (List.length oWords) i) as [H|H]; simpl.
  - destruct (Nat.ltb_spec i (List.length oWords)); [lia | reflexivity].
  - destruct (Nat.ltb_spec i (List.length oWords)); [reflexivity | lia].
Qed.

Lemma ParseSimpleJson_loop_keeps (oWords : list string) (j : nat) :
  forall k i st, (List.length oWords - i <= k)%nat ->
    In j (fst st) -> In j (fst (ParseSimpleJson_loop oWords i st)).
Proof.
  induction k as [|k IH]; intros i st Hk Hin; rewrite ParseSimpleJson_loop_step;
    destruct (Nat.ltb_spec i (List.length oWords)) as [Hlt|Hge];
    try exact Hin; try lia.
  apply IH; [lia|]. cbn [fst]. apply in_or_app. now left.
Qed.

Lemma ParseSimpleJson_loop_allowed (oWords : list string) :
  forall k i st, (List.length oWords - i <= k)%nat -> Nat.even i = true ->
    Forall (read_allowed oWords) (fst st) ->
    Forall (read_allowed oWords) (fst (ParseSimpleJson_loop oWords i st)).
Proof.
  induction k as [|k IH]; intros i st Hk Hev Hst; rewrite ParseSimpleJson_loop_step;
    destruct (Nat.ltb_spec i (List.length oWords)) as [Hlt|Hge];
    try exact Hst; try lia.
  apply IH; [lia | |].
  - replace (i + 2)%nat with (S (S i)) by lia. exact Hev.
  - cbn [fst]. apply Forall_app. split; [exact Hst|].
    constructor; [now left|]. constructor; [|constructor].
    destruct (Nat.eq_dec (i + 1) (List.length oWords)) as [E|NE].
    + right. split; [exact E|]. split.
      * rewrite <- E. replace (i + 1)%nat with (S i) by lia.
        rewrite Nat.odd_succ. exact Hev.
      * unfold CPLStringList_at. apply nth_error_None. lia.
    + left. lia.
Qed.

Lemma ParseSimpleJson_loop_reads_end (oWords : list string) :
  Nat.odd (List.length oWords) = true ->
  forall k i st, (List.length oWords - i <= k)%nat -> Nat.even i = true ->
    (i < List.length oWords)%nat ->
    In (List.length oWords) (fst (ParseSimpleJson_loop oWords i st)).
Proof.
  intro Hodd. induction k as [|k IH]; intros i st Hk Hev Hlt; [lia|].
  rewrite ParseSimpleJson_loop_step.
  destruct (Nat.ltb_spec i (List.length oWords)) as [_|Hge]; [|lia].
  destruct (Nat.eq_dec (i + 1) (List.length oWords)) as [E|NE].
  - apply (ParseSimpleJson_loop_keeps oWords _ (List.length oWords - (i + 2)));
      [lia|].
    cbn [fst]. apply in_or_app. right. rewrite E. simpl. auto.
  - assert (Hev2 : Nat.even (i + 2) = true)
      by (replace (i + 2)%nat with (S (S i)) by lia; exact Hev).
    apply IH; [lia | exact Hev2 |].
    destruct (Nat.eq_dec (i + 2) (List.length oWords)) as [E2|NE2]; [|lia].
    rewrite <- E2, <- Nat.negb_even, Hev2 in Hodd. discriminate.
Qed.

(** The loop on three words: the third is paired with the null pointer read
    at index 3, and [SetNameValue] leaves the list as it is. *)
Example ParseSimpleJson_loop_three_words :
  ParseSimpleJson_loop ["Code"; "Success"; "Type"] 0 ([], [])
  = ([0; 1; 2; 3]%nat, ["Code=Success"]).
Proof.
  rewrite ParseSimpleJson_loop_step. cbn [Nat.ltb Nat.leb List.length fst snd app].
  rewrite ParseSimpleJson_loop_step. cbn [Nat.ltb Nat.leb List.length fst snd app Nat.add].
  rewrite ParseSimpleJson_loop_step. reflexivity.
Qed.

Section SimpleJsonProperties.
Context {tok : Tokenizer}.

(** C10.  For every input of [ParseSimpleJson], each index at which the
    pairing loop reads the word list is at most the number of words [n]: it
    is the index of a word, or the index [n] of the list's terminator, read
    only when [n] is odd and answered by a null pointer, which
    [SetNameValue] accepts.  For an odd [n] that read does happen; for an
    even [n] every read is the index of a word.  (The loop is defined by
    well-founded recursion on the number of words left, so it ends on
    every input.) *)
Theorem ParseSimpleJson_reads_in_bounds (pszJson : string) :
  let oWords := CSLTokenizeString2 pszJson json_delimiters CSLT_HONOURSTRINGS in
  let n := List.length oWords in
  let reads := fst (ParseSimpleJson_run pszJson) in
  Forall (fun j => (j <= n)%nat) reads
  /\ Forall (fun j => (j < n)%nat
                      \/ (j = n /\ Nat.odd n = true
                          /\ CPLStringList_at oWords j = None)) reads
  /\ (if Nat.odd n then In n reads else Forall (fun j => (j < n)%nat) reads).
Proof.
  cbv zeta. unfold ParseSimpleJson_run.
  set (oWords := CSLTokenizeString2 pszJson json_delimiters CSLT_HONOURSTRINGS).
  assert (Hall : Forall (read_allowed oWords)
                   (fst (ParseSimpleJson_loop oWords 0 ([], [])))).
  { apply (ParseSimpleJson_loop_allowed oWords (List.length oWords));
      [lia | reflexivity | constructor]. }
  split; [| split].
  - eapply Forall_impl; [|exact Hall]. intros j [H|[H _]]; lia.
  - exact Hall.
  - destruct (Nat.odd (List.length oWords)) eqn:Hodd.
    + apply (ParseSimpleJson_loop_reads_end oWords Hodd (List.length oWords));
        [lia | reflexivity |].
      destruct oWords; [discriminate | simpl; lia].
    + eapply Forall_impl; [|exact Hall].
      intros j [H|[_ [H _]]]; [exact H | congruence].
Qed.

End SimpleJsonProperties.

(* --------------------------------------------------------------------- *)
(** ** Precedence between the credentials and the config file             *)
(* --------------------------------------------------------------------- *)

Lemma string_map_length (f : ascii -> ascii) (s : string) :
  String.length (string_map f s) = String.length s.
Proof. induction s as [|c s IH]; simpl; [reflexivity | now rewrite IH]. Qed.

Lemma string_map_app (f : ascii -> ascii) (a b : string) :
  string_map f (a ++ b) = string_map f a ++ string_map f b.
Proof. induction a as [|c a IH]; simpl; [reflexivity | now rewrite IH]. Qed.

Lemma string_map_take (f : ascii -> ascii) (n : nat) (s : string) :
  string_map f (string_take n s) = string_take n (string_map f s).
Proof.
  revert s. induction n as [|n IH]; intros [|c s]; simpl; try reflexivity.
  now rewrite IH.
Qed.

Lemma string_take_app_le (n : nat) (a b : string) :
  (n <= String.length a)%nat -> string_take n (a ++ b) = string_take n a.
Proof.
  revert a. induction n as [|n IH]; intros [|c a] H; simpl in *;
    try reflexivity; try lia.
  rewrite IH by lia. reflexivity.
Qed.

Lemma string_take_app_plus (m : nat) (a b : string) :
  string_take (String.length a + m) (a ++ b) = a ++ string_take m b.
Proof. induction a as [|c a IH]; simpl; [reflexivity | now rewrite IH]. Qed.

(** A keyword that [EQUAL]s a lowercase name has its length. *)
Lemma EQUAL_length (k name : string) :
  EQUAL k name = true -> CPLString_tolower name = name ->
  CPLString_tolower k = name /\ String.length k = String.length name.
Proof.
  intros H Hn. apply EQUAL_true in H. rewrite Hn in H. split; [exact H|].
  rewrite <- H. unfold CPLString_tolower. now rewrite string_map_length.
Qed.

(** The warning of a keyword is recognised as the warning of the key it
    names, and of no other key. *)
Lemma is_warning_about_keyword (K K' : CredentialKey) (k cred cfg : string) :
  EQUAL k (key_name K') = true ->
  is_warning_about K (inconsistency_warning k cred cfg)
  = match K, K' with
    | KeyAccessKeyId, KeyAccessKeyId
    | KeySecretAccessKey, KeySecretAccessKey
    | KeySessionToken, KeySessionToken => true
    | _, _ => false
    end.
Proof.
  intro H.
  assert (Hl : CPLString_tolower (key_name K') = key_name K')
    by (destruct K'; reflexivity).
  destruct (EQUAL_length _ _ H Hl) as [Hk Hlen].
  unfold is_warning_about, inconsistency_warning, STARTS_WITH_CI, EQUALN.
  unfold CPLString_tolower in *.
  destruct K, K'; cbn [key_name] in *; simpl String.length in *;
    try (rewrite string_take_app_le by lia;
         rewrite string_map_take, Hk; reflexivity).
  (* the longer name [aws_secret_access_key] against a shorter keyword *)
  all: change 21%nat with (17 + 4)%nat; rewrite <- Hlen;
    rewrite string_take_app_plus, Hlen; simpl string_take;
    rewrite string_map_app, Hk; reflexivity.
Qed.

(** Two keys have different names, also without regard to case. *)
Lemma EQUAL_key_name (k : string) (K K' : CredentialKey) :
  EQUAL k (key_name K') = true ->
  EQUAL k (key_name K)
  = match K, K' with
    | KeyAccessKeyId, KeyAccessKeyId
    | KeySecretAccessKey, KeySecretAccessKey
    | KeySessionToken, KeySessionToken => true
    | _, _ => false
    end.
Proof.
  intro H. destruct K, K'; try exact H;
    apply (EQUAL_other _ _ _ H); discriminate.
Qed.

(** [UpdateAndWarnIfInconsistent] on a value that is already set: it is
    kept, and the warning is reported exactly when the new value differs. *)
Lemma UpdateAndWarnIfInconsistent_set (k val new cred cfg : string) :
  val <> "" ->
  UpdateAndWarnIfInconsistent k val new cred cfg
  = (val, if negb (String.eqb new val) then [inconsistency_warning k cred cfg] else []).
Proof.
  intro Hne. unfold UpdateAndWarnIfInconsistent.
  destruct val as [|c val]; [contradiction|]. cbn [string_empty].
  rewrite (String.eqb_sym new). destruct (String.eqb (String c val) new); reflexivity.
Qed.

(** Whatever the value, it reports nothing or the warning of its keyword. *)
Lemma UpdateAndWarnIfInconsistent_log (k val new cred cfg : string) :
  snd (UpdateAndWarnIfInconsistent k val new cred cfg) = []
  \/ snd (UpdateAndWarnIfInconsistent k val new cred cfg)
     = [inconsistency_warning k cred cfg].
Proof.
  unfold UpdateAndWarnIfInconsistent.
  destruct (string_empty val); [now left|].
  destruct (negb (String.eqb val new)); [now right | now left].
Qed.

Lemma filter_none {A : Type} (p : A -> bool) (l : list A) :
  (forall x, In x l -> p x = false) -> filter p l = [].
Proof.
  induction l as [|x l IH]; intro H; simpl; [reflexivity|].
  rewrite (H x (or_introl eq_refl)). apply IH. intros y Hy. apply H. now right.
Qed.

Lemma filter_app_nil {A : Type} (p : A -> bool) (l w : list A) :
  filter p w = [] -> filter p (l ++ w) = (filter p l ++ [])%list.
Proof. intro H. now rewrite filter_app, H. Qed.

(** The entry names the key under study: its value is set, so it stays. *)
Ltac own_key_entry Hv Hw :=
  rewrite (UpdateAndWarnIfInconsistent_set _ _ _ _ _ Hv);
  cbn [fst snd andb]; repeat split; rewrite filter_app;
  match goal with |- context [negb ?b] => destruct (negb b) end;
  cbn [filter app]; rewrite ?Hw; reflexivity.

(** The entry names another key: whatever it reports is not about the key
    under study. *)
Ltac other_key_entry Hw :=
  match goal with
  | |- context [UpdateAndWarnIfInconsistent ?k ?v ?n ?cr ?cf] =>
      let Hlog := fresh "Hlog" in
      pose proof (UpdateAndWarnIfInconsistent_log k v n cr cf) as Hlog;
      destruct (UpdateAndWarnIfInconsistent k v n cr cf) as [? ?];
      cbn [fst snd andb] in *; repeat split;
      apply filter_app_nil; destruct Hlog as [-> | ->];
      cbn [filter]; rewrite ?Hw; reflexivity
  end.

(** One entry of the config file, seen from a key the credentials file has
    set: the value stays, and the warnings about that key grow by one
    exactly when the entry names the key with a different value. *)
Lemma config_entry_key (K : CredentialKey) (cfg : string) (c : ConfigVars)
    (log : list ErrorEvent) (k v2 : string) :
  key_value K c <> "" ->
  key_value K (fst (config_entry cfg (c, log) k v2)) = key_value K c
  /\ cv_osCredentials (fst (config_entry cfg (c, log) k v2)) = cv_osCredentials c
  /\ filter (is_warning_about K) (snd (config_entry cfg (c, log) k v2))
     = (filter (is_warning_about K) log
        ++ if EQUAL k (key_name K) && negb (String.eqb v2 (key_value K c))
           then [inconsistency_warning k (cv_osCredentials c) cfg] else [])%list.
Proof.
  intro Hv. unfold config_entry.
  destruct (EQUAL k "aws_access_key_id") eqn:E1;
    [| destruct (EQUAL k "aws_secret_access_key") eqn:E2;
       [| destruct (EQUAL k "aws_session_token") eqn:E3]].
  - pose proof (is_warning_about_keyword K KeyAccessKeyId k (cv_osCredentials c)
                  cfg E1) as Hw.
    rewrite (EQUAL_key_name k K KeyAccessKeyId E1).
    destruct K; cbn [key_value] in *;
      first [own_key_entry Hv Hw | other_key_entry Hw].
  - pose proof (is_warning_about_keyword K KeySecretAccessKey k (cv_osCredentials c)
                  cfg E2) as Hw.
    rewrite (EQUAL_key_name k K KeySecretAccessKey E2).
    destruct K; cbn [key_value] in *;
      first [own_key_entry Hv Hw | other_key_entry Hw].
  - pose proof (is_warning_about_keyword K KeySessionToken k (cv_osCredentials c)
                  cfg E3) as Hw.
    rewrite (EQUAL_key_name k K KeySessionToken E3).
    destruct K; cbn [key_value] in *;
      first [own_key_entry Hv Hw | other_key_entry Hw].
  - assert (Hk : EQUAL k (key_name K) = false) by (destruct K; assumption).
    rewrite Hk. cbn [andb]. rewrite app_nil_r.
    repeat match goal with
           | |- context [if ?b then _ else _] => destruct b
           end; destruct K; repeat split.
Qed.

Section ConfigFileProperties.
Context {opts : Options} {files : Files}.

(** Inside the section of the profile the loop applies the entries of the
    lines up to the next header. *)
Lemma config_file_loop_in_profile (lines : list string) (b bp cfg : string)
    (st : ConfigVars * list ErrorEvent) :
  config_file_loop lines b bp cfg true st
  = config_entries_fold cfg (parsed_entries (section_body lines)) st.
Proof.
  unfold config_entries_fold. revert st.
  induction lines as [|l rest IH]; intro st; simpl.
  - reflexivity.
  - destruct (Ascii.eqb (cstr_at l 0) "["); [reflexivity|].
    simpl. rewrite IH.
    destruct (CPLParseNameValue l) as [[k v]|]; reflexivity.
Qed.

(** The loop applies the entries of the selected profile, in order. *)
Lemma config_file_loop_entries (lines : list string) (osProfile cfg : string)
    (st : ConfigVars * list ErrorEvent) :
  config_file_loop lines ("[" ++ osProfile ++ "]") ("[profile " ++ osProfile ++ "]")
    cfg false st
  = config_entries_fold cfg (config_profile_entries osProfile lines) st.
Proof.
  unfold config_profile_entries.
  generalize ("[" ++ osProfile ++ "]") as b.
  generalize ("[profile " ++ osProfile ++ "]") as bp. intros bp b.
  induction lines as [|l rest IH]; simpl.
  - reflexivity.
  - destruct (Ascii.eqb (cstr_at l 0) "[").
    + destruct (String.eqb l b || String.eqb l bp).
      * apply config_file_loop_in_profile.
      * exact IH.
    + exact IH.
Qed.

End ConfigFileProperties.

(** A key that is set keeps its value through all entries, and the warnings
    about it are those of the conflicting entries. *)
Lemma config_entries_fold_key (K : CredentialKey) (cfg : string)
    (entries : list (string * string)) :
  forall (c : ConfigVars) (log : list ErrorEvent),
    key_value K c <> "" ->
    key_value K (fst (config_entries_fold cfg entries (c, log))) = key_value K c
    /\ filter (is_warning_about K) (snd (config_entries_fold cfg entries (c, log)))
       = (filter (is_warning_about K) log
          ++ map (fun e => inconsistency_warning (fst e) (cv_osCredentials c) cfg)
               (conflicting_entries K (key_value K c) entries))%list.
Proof.
  unfold config_entries_fold, conflicting_entries.
  induction entries as [|[k v2] rest IH]; intros c log Hv;
    cbn [fold_left filter map fst snd].
  - now rewrite app_nil_r.
  - destruct (config_entry_key K cfg c log k v2 Hv) as [Hval [Hcred Hlog]].
    destruct (config_entry cfg (c, log) k v2) as [c' log'] eqn:E.
    cbn [fst snd] in *.
    assert (Hv' : key_value K c' <> "") by (rewrite Hval; exact Hv).
    destruct (IH c' log' Hv') as [IH1 IH2].
    rewrite IH1, IH2, Hval, Hcred, Hlog. split; [reflexivity|].
    rewrite <- app_assoc. f_equal.
    destruct (EQUAL k (key_name K) && negb (String.eqb v2 (key_value K c)));
      cbn [map fst app]; reflexivity.
Qed.

(** C5 as the claim states it fails: both files set [aws_access_key_id] for
    the default profile, to the same value, and no warning is reported. *)
Lemma GetConfigurationFromAWSConfigFiles_equal_values_no_warning :
  let r := GetConfigurationFromAWSConfigFiles (opts := scenario_options)
             (files := scenario_files "AKID") "/vsis3/bucket/key" None
             empty_ConfigVars in
  credentials_value KeyAccessKeyId
    (snd (ReadAWSCredentials (files := scenario_files "AKID") "default"
            "/home/u/.aws/credentials")) = "AKID"
  /\ In ("aws_access_key_id", "AKID")
        (config_entries_at (files := scenario_files "AKID") "/home/u/.aws/config"
           "default")
  /\ cv_osAccessKeyId (snd (fst r)) = "AKID"
  /\ snd r = [].
Proof.
  cbv zeta. split; [reflexivity|]. split; [|split; reflexivity].
  vm_compute. right. left. reflexivity.
Qed.

Section PrecedenceProperties.
Context {opts : Options} {files : Files}.

(** C5, amended.  When the credentials file sets one of
    [aws_access_key_id], [aws_secret_access_key] and [aws_session_token]
    for the selected profile to a non-empty value, that value is the one in
    the result, whatever the config file holds.  When the config file can be
    read, the warnings about the key are, in order, one for each entry of
    the selected profile that names the key with a different value, each
    naming the keyword and both files: such an entry is always warned
    about, and no warning is reported when every entry for the key has the
    value of the credentials file. *)
Theorem GetConfigurationFromAWSConfigFiles_precedence
    (osPathForOption : string) (pszProfile : option string) (vars : ConfigVars)
    (K : CredentialKey) :
  let osProfile := selected_profile osPathForOption pszProfile in
  let osCredentials := credentials_path osPathForOption in
  let osConfig := config_path osPathForOption in
  let v := credentials_value K (snd (ReadAWSCredentials osProfile osCredentials)) in
  let r := GetConfigurationFromAWSConfigFiles osPathForOption pszProfile vars in
  v <> "" ->
  key_value K (snd (fst r)) = v
  /\ forall lines, read_lines osConfig = Some lines ->
       let entries := config_profile_entries osProfile lines in
       filter (is_warning_about K) (snd r)
       = map (fun e => inconsistency_warning (fst e) osCredentials osConfig)
           (conflicting_entries K v entries)
       /\ (forall kw v2, In (kw, v2) entries -> EQUAL kw (key_name K) = true ->
                         v2 <> v ->
                         In (inconsistency_warning kw osCredentials osConfig) (snd r))
       /\ ((forall kw v2, In (kw, v2) entries -> EQUAL kw (key_name K) = true ->
                          v2 = v) ->
           filter (is_warning_about K) (snd r) = []).
Proof.
  cbv zeta. intro Hv. unfold GetConfigurationFromAWSConfigFiles.
  set (osProfile := selected_profile osPathForOption pszProfile) in *.
  set (osCredentials := credentials_path osPathForOption) in *.
  set (osConfig := config_path osPathForOption) in *.
  destruct (ReadAWSCredentials osProfile osCredentials)
    as [bRet [[osSecretAccessKey osAccessKeyId] osSessionToken]] eqn:Ecred.
  cbn [snd] in Hv.
  set (vars0 := set_cv_osSessionToken osSessionToken
                  (set_cv_osAccessKeyId osAccessKeyId
                     (set_cv_osSecretAccessKey osSecretAccessKey
                        (set_cv_osCredentials osCredentials vars)))).
  assert (Hk0 : key_value K vars0
                = credentials_value K (osSecretAccessKey, osAccessKeyId, osSessionToken))
    by (destruct K; reflexivity).
  assert (Hc0 : cv_osCredentials vars0 = osCredentials) by reflexivity.
  assert (Hv0 : key_value K vars0 <> "") by (rewrite Hk0; exact Hv).
  destruct (read_lines osConfig) as [lines|] eqn:Elines.
  - rewrite config_file_loop_entries.
    destruct (config_entries_fold_key K osConfig (config_profile_entries osProfile lines)
                vars0 [] Hv0) as [Hval Hlog].
    destruct (config_entries_fold osConfig (config_profile_entries osProfile lines)
                (vars0, [])) as [vars1 log1].
    cbn [fst snd] in *. rewrite Hc0, Hk0 in Hlog. cbn [filter app] in Hlog.
    split; [now rewrite Hval|].
    intros lines' Hl. injection Hl as <-.
    split; [exact Hlog | split].
    + intros kw v2 Hin Heq Hne.
      assert (Hin' : In (inconsistency_warning kw osCredentials osConfig)
                       (filter (is_warning_about K) log1)).
      { rewrite Hlog.
        apply (in_map (fun e => inconsistency_warning (fst e) osCredentials osConfig)
                 _ (kw, v2)).
        unfold conflicting_entries. apply filter_In. split; [exact Hin|].
        cbn [fst snd]. rewrite Heq. apply String.eqb_neq in Hne. now rewrite Hne. }
      apply filter_In in Hin'. exact (proj1 Hin').
    + intro Hsame. rewrite Hlog. unfold conflicting_entries.
      rewrite filter_none; [reflexivity|].
      intros [kw v2] Hin. cbn [fst snd].
      destruct (EQUAL kw (key_name K)) eqn:Heq; [|reflexivity].
      rewrite (Hsame kw v2 Hin Heq), String.eqb_refl. reflexivity.
  - split.
    + destruct (path_option osPathForOption "AWS_CONFIG_FILE") as [env|];
        [destruct (negb (string_empty env))|]; cbn [fst snd]; now rewrite Hk0.
    + intros lines Hl. discriminate.
Qed.

End PrecedenceProperties.

(** C5 where the config file sets another access key id than the
    credentials file: the credentials value is kept and the warning is
    reported. *)
Lemma GetConfigurationFromAWSConfigFiles_precedence_witness :
  cv_osAccessKeyId
    (snd (fst (GetConfigurationFromAWSConfigFiles (opts := scenario_options)
                 (files := scenario_files "OTHER") "/vsis3/bucket/key" None
                 empty_ConfigVars))) = "AKID"
  /\ In (inconsistency_warning "aws_access_key_id" "/home/u/.aws/credentials"
           "/home/u/.aws/config")
        (snd (GetConfigurationFromAWSConfigFiles (opts := scenario_options)
                (files := scenario_files "OTHER") "/vsis3/bucket/key" None
                empty_ConfigVars)).
Proof.
  destruct (GetConfigurationFromAWSConfigFiles_precedence
              (opts := scenario_options) (files := scenario_files "OTHER")
              "/vsis3/bucket/key" None empty_ConfigVars KeyAccessKeyId)
    as [Hval Hread].
  - vm_compute. discriminate.
  - split; [exact Hval|].
    destruct (Hread ["[default]"; "region = eu-west-1"; "aws_access_key_id = OTHER"]
                eq_refl) as [_ [Hwarn _]].
    apply (Hwarn "aws_access_key_id" "OTHER").
    + vm_compute. right. left. reflexivity.
    + reflexivity.
    + vm_compute. discriminate.
Defined.

(* --------------------------------------------------------------------- *)
(** ** Expiry of the credential cache                                     *)
(* --------------------------------------------------------------------- *)


Section CacheProperties.
Context {opts : Options} {files : Files} {xml : XMLReader} {net : Network}
        {clock : TimeLib} {platform : Platform} {tok : Tokenizer}
        {hash : HashPrimitives}.






End CacheProperties.



(* --------------------------------------------------------------------- *)
(** ** The URL and the hosting style of a new handle                      *)
(* --------------------------------------------------------------------- *)

Section HandleConstruction.
Context {opts : Options} {files : Files} {xml : XMLReader} {net : Network}
        {clock : TimeLib} {platform : Platform} {tok : Tokenizer}
        {hash : HashPrimitives}.

(** What [BuildFromURI] returns for a URI whose bucket and object key are
    known, when [GetConfiguration] finds credentials and
    [AWS_VIRTUAL_HOSTING] is set neither in [papszOptions] nor for the
    path. *)
Lemma BuildFromURI_parsed
    (pszURI bucket key pszFSPrefix : string) (bAllowNoObject : bool)
    (papszOptions : list string) (g : Globals) :
  pszURI <> "" ->
  GetBucketAndObjectKey pszURI pszFSPrefix bAllowNoObject ""
  = mkBucketAndObjectKey true bucket key [] ->
  CSLFetchNameValue papszOptions "AWS_VIRTUAL_HOSTING" = None ->
  path_option ("/vsis3/" ++ pszURI) "AWS_VIRTUAL_HOSTING" = None ->
  let conf :=
    GetConfiguration ("/vsis3/" ++ pszURI) papszOptions
      (mkCredentialStrings "" "" "") g in
  cfg_ret conf = true ->
  let osEndpoint :=
    VSIGetPathSpecificOption ("/vsis3/" ++ pszURI) "AWS_S3_ENDPOINT"
      "s3.amazonaws.com" in
  let bUseHTTPS :=
    CPLTestBool (VSIGetPathSpecificOption ("/vsis3/" ++ pszURI) "AWS_HTTPS" "YES") in
  exists h,
    BuildFromURI (Some pszURI) pszFSPrefix bAllowNoObject papszOptions g
    = (Some h, cfg_globals conf, cfg_errors conf)
    /\ m_osBucket h = bucket /\ m_osObjectKey h = key
    /\ m_osEndpoint h = osEndpoint /\ m_bUseHTTPS h = bUseHTTPS
    /\ m_bUseVirtualHosting h = negb (string_mem "." bucket)
    /\ m_osURL h
       = BuildURL osEndpoint bucket key bUseHTTPS (negb (string_mem "." bucket)).
Proof.
  intros Hne Hparse Hopt Hpath conf Hconf osEndpoint bUseHTTPS.
  unfold BuildFromURI. fold conf. rewrite Hconf. cbn [negb].
  assert (He : string_empty pszURI = false) by (destruct pszURI; [contradiction | reflexivity]).
  rewrite He. cbn [negb]. rewrite Hparse.
  cbn [bk_ret bk_osBucket bk_osObjectKey bk_errors negb].
  unfold CSLFetchNameValueDef. rewrite Hopt.
  unfold VSIGetPathSpecificOption at 4. rewrite Hpath.
  assert (Hv : CPLTestBool
                 (if match string_find "." bucket with
                     | Some _ => false | None => true end
                  then "TRUE" else "FALSE")
               = negb (string_mem "." bucket)).
  { destruct (string_find "." bucket) as [n|] eqn:E.
    - destruct (string_mem "." bucket) eqn:Em; [reflexivity|].
      apply string_find_none in Em. congruence.
    - apply string_find_none in E. rewrite E. reflexivity. }
  rewrite Hv, app_nil_r.
  eexists. split; [reflexivity|].
  cbn [m_bUseVirtualHosting m_osBucket m_osURL m_osEndpoint m_osObjectKey
       m_bUseHTTPS new_VSIS3HandleHelper].
  repeat split.
Qed.

(** C7.  For an endpoint and a bucket that are C strings (no NUL byte),
    [BuildURL] gives ["<scheme>://<endpoint>"] for an empty bucket,
    ["<scheme>://<bucket>.<endpoint>/<encoded key>"] under virtual hosting
    and ["<scheme>://<endpoint>/<bucket>/<encoded key>"] in path style, the
    scheme being [https] exactly when [bUseHTTPS] and the key being encoded
    with ['/'] kept.  For the URI [bucket ++ "/" ++ key], and for the URI
    [bucket] alone where no object is required, when [GetConfiguration]
    finds credentials and the option [AWS_VIRTUAL_HOSTING] is set neither
    in [papszOptions] nor for the path, [BuildFromURI] returns a handle
    for this bucket and this key, with the endpoint and the scheme of the
    options [AWS_S3_ENDPOINT] and [AWS_HTTPS], which uses virtual hosting
    exactly when [bucket] holds no ['.'] and whose URL is the one
    [BuildURL] gives for these.  Whatever the URI, a handle that
    [BuildFromURI] returns under this default uses virtual hosting exactly
    when its bucket name holds no ['.'], and its URL is the one [BuildURL]
    gives for its members. *)
Theorem BuildURL_and_hosting_default :
  (forall (osEndpoint osBucket osObjectKey : string)
          (bUseHTTPS bUseVirtualHosting : bool),
      no_nul osEndpoint = true -> no_nul osBucket = true ->
      let scheme := if bUseHTTPS then "https" else "http" in
      BuildURL osEndpoint osBucket osObjectKey bUseHTTPS bUseVirtualHosting
      = if string_empty osBucket then scheme ++ "://" ++ osEndpoint
        else if bUseVirtualHosting then
          scheme ++ "://" ++ osBucket ++ "." ++ osEndpoint ++ "/"
            ++ CPLAWSURLEncode osObjectKey false
        else
          scheme ++ "://" ++ osEndpoint ++ "/" ++ osBucket ++ "/"
            ++ CPLAWSURLEncode osObjectKey false)
  /\ (forall (bucket key pszFSPrefix : string) (bAllowNoObject : bool)
             (papszOptions : list string) (g : Globals),
      string_mem "/" bucket = false ->
      let pszURI := bucket ++ "/" ++ key in
      CSLFetchNameValue papszOptions "AWS_VIRTUAL_HOSTING" = None ->
      path_option ("/vsis3/" ++ pszURI) "AWS_VIRTUAL_HOSTING" = None ->
      let conf :=
        GetConfiguration ("/vsis3/" ++ pszURI) papszOptions
          (mkCredentialStrings "" "" "") g in
      cfg_ret conf = true ->
      let osEndpoint :=
        VSIGetPathSpecificOption ("/vsis3/" ++ pszURI) "AWS_S3_ENDPOINT"
          "s3.amazonaws.com" in
      let bUseHTTPS :=
        CPLTestBool
          (VSIGetPathSpecificOption ("/vsis3/" ++ pszURI) "AWS_HTTPS" "YES") in
      exists h,
        BuildFromURI (Some pszURI) pszFSPrefix bAllowNoObject papszOptions g
        = (Some h, cfg_globals conf, cfg_errors conf)
        /\ m_osBucket h = bucket /\ m_osObjectKey h = key
        /\ m_osEndpoint h = osEndpoint /\ m_bUseHTTPS h = bUseHTTPS
        /\ m_bUseVirtualHosting h = negb (string_mem "." bucket)
        /\ m_osURL h
           = BuildURL osEndpoint bucket key bUseHTTPS
               (negb (string_mem "." bucket)))
  /\ (forall (bucket pszFSPrefix : string) (papszOptions : list string)
             (g : Globals),
      bucket <> "" -> string_mem "/" bucket = false ->
      CSLFetchNameValue papszOptions "AWS_VIRTUAL_HOSTING" = None ->
      path_option ("/vsis3/" ++ bucket) "AWS_VIRTUAL_HOSTING" = None ->
      let conf :=
        GetConfiguration ("/vsis3/" ++ bucket) papszOptions
          (mkCredentialStrings "" "" "") g in
      cfg_ret conf = true ->
      let osEndpoint :=
        VSIGetPathSpecificOption ("/vsis3/" ++ bucket) "AWS_S3_ENDPOINT"
          "s3.amazonaws.com" in
      let bUseHTTPS :=
        CPLTestBool
          (VSIGetPathSpecificOption ("/vsis3/" ++ bucket) "AWS_HTTPS" "YES") in
      exists h,
        BuildFromURI (Some bucket) pszFSPrefix true papszOptions g
        = (Some h, cfg_globals conf, cfg_errors conf)
        /\ m_osBucket h = bucket /\ m_osObjectKey h = ""
        /\ m_osEndpoint h = osEndpoint /\ m_bUseHTTPS h = bUseHTTPS
        /\ m_bUseVirtualHosting h = negb (string_mem "." bucket)
        /\ m_osURL h
           = BuildURL osEndpoint bucket "" bUseHTTPS
               (negb (string_mem "." bucket)))
  /\ (forall (pszURI : option string) (pszFSPrefix : string) (bAllowNoObject : bool)
             (papszOptions : list string) (g g' : Globals)
             (h : VSIS3HandleHelper) (errors : list ErrorEvent),
      CSLFetchNameValue papszOptions "AWS_VIRTUAL_HOSTING" = None ->
      path_option ("/vsis3/" ++ match pszURI with Some u => u | None => "" end)
        "AWS_VIRTUAL_HOSTING" = None ->
      BuildFromURI pszURI pszFSPrefix bAllowNoObject papszOptions g
      = (Some h, g', errors) ->
      (m_bUseVirtualHosting h = true <-> string_mem "." (m_osBucket h) = false)
      /\ m_osURL h
         = BuildURL (m_osEndpoint h) (m_osBucket h) (m_osObjectKey h)
             (m_bUseHTTPS h) (m_bUseVirtualHosting h)).
Proof.
  split; [| split; [| split]].
  - intros. apply BuildURL_no_nul; assumption.
  - intros bucket key pszFSPrefix bAllowNoObject papszOptions g Hb pszURI
      Hopt Hpath conf Hconf.
    apply (BuildFromURI_parsed pszURI bucket key pszFSPrefix bAllowNoObject
             papszOptions g); try assumption.
    + unfold pszURI. destruct bucket; discriminate.
    + apply GetBucketAndObjectKey_slash. exact Hb.
  - intros bucket pszFSPrefix papszOptions g Hne Hb Hopt Hpath conf Hconf.
    apply (BuildFromURI_parsed bucket bucket "" pszFSPrefix true
             papszOptions g); try assumption.
    rewrite (GetBucketAndObjectKey_no_slash _ _ _ _ Hne Hb). reflexivity.
  - intros pszURI pszFSPrefix bAllowNoObject papszOptions g g' h errors Hopt Hpath Hbuild.
    unfold BuildFromURI in Hbuild.
    destruct (negb (cfg_ret (GetConfiguration _ papszOptions _ g))); [discriminate|].
    match type of Hbuild with
    | context [negb (bk_ret ?p)] => set (parsed := p) in *
    end.
    destruct (negb (bk_ret parsed)); [discriminate|].
    unfold CSLFetchNameValueDef, VSIGetPathSpecificOption in Hbuild.
    rewrite Hopt, Hpath in Hbuild.
    injection Hbuild as <- _ _.
    cbn [m_bUseVirtualHosting m_osBucket m_osURL m_osEndpoint m_osObjectKey
         m_bUseHTTPS new_VSIS3HandleHelper].
    split; [|reflexivity].
    destruct (string_find "." (bk_osBucket parsed)) as [n|] eqn:E.
    + assert (Hm : string_mem "." (bk_osBucket parsed) = true).
      { destruct (string_mem "." (bk_osBucket parsed)) eqn:Em; [reflexivity|].
        apply string_find_none in Em. congruence. }
      rewrite Hm. split; intro H; [vm_compute in H|]; discriminate.
    + apply string_find_none in E. rewrite E. split; reflexivity.
Qed.

End HandleConstruction.

(** C7 with static credentials given in the options.  The bucket of
    ["my.bucket/obj"] has a dot: the handle is in path style, with URL
    [https://s3.amazonaws.com/my.bucket/obj].  The bucket of
    ["bucket/obj"] has none: the handle uses virtual hosting, with URL
    [https://bucket.s3.amazonaws.com/obj]. *)
Lemma BuildURL_and_hosting_default_witness :
  let papszOptions := ["AWS_SECRET_ACCESS_KEY=SECRET"; "AWS_ACCESS_KEY_ID=AKID"] in
  BuildURL "s3.amazonaws.com" "my.bucket" "obj" true false
  = "https://s3.amazonaws.com/my.bucket/obj"
  /\ (exists h,
        BuildFromURI (opts := no_options) (files := scenario_files "AKID")
          (xml := scenario_xml) (net := offline_network) (clock := clock_at 0)
          (platform := not_ec2) (tok := no_tokens) (hash := no_hash)
          (Some "my.bucket/obj") "/vsis3/" false papszOptions initial_globals
        = (Some h, initial_globals, [])
        /\ m_osBucket h = "my.bucket" /\ m_osObjectKey h = "obj"
        /\ m_bUseVirtualHosting h = false
        /\ m_osURL h = "https://s3.amazonaws.com/my.bucket/obj")
  /\ (exists h,
        BuildFromURI (opts := no_options) (files := scenario_files "AKID")
          (xml := scenario_xml) (net := offline_network) (clock := clock_at 0)
          (platform := not_ec2) (tok := no_tokens) (hash := no_hash)
          (Some "bucket/obj") "/vsis3/" false papszOptions initial_globals
        = (Some h, initial_globals, [])
        /\ m_osBucket h = "bucket" /\ m_osObjectKey h = "obj"
        /\ m_bUseVirtualHosting h = true
        /\ m_osURL h = "https://bucket.s3.amazonaws.com/obj").
Proof.
  cbv zeta.
  destruct (BuildURL_and_hosting_default (opts := no_options)
              (files := scenario_files "AKID") (xml := scenario_xml)
              (net := offline_network) (clock := clock_at 0) (platform := not_ec2)
              (tok := no_tokens) (hash := no_hash)) as [Hurl [Hslash _]].
  split; [| split].
  - apply (Hurl "s3.amazonaws.com" "my.bucket" "obj" true false); reflexivity.
  - destruct (Hslash "my.bucket" "obj" "/vsis3/" false
                ["AWS_SECRET_ACCESS_KEY=SECRET"; "AWS_ACCESS_KEY_ID=AKID"]
                initial_globals eq_refl eq_refl eq_refl eq_refl)
      as (h & Hbuild & Hb & Hk & _ & _ & Hv & Hu).
    exists h. vm_compute in Hbuild. vm_compute in Hu.
    repeat split; assumption.
  - destruct (Hslash "bucket" "obj" "/vsis3/" false
                ["AWS_SECRET_ACCESS_KEY=SECRET"; "AWS_ACCESS_KEY_ID=AKID"]
                initial_globals eq_refl eq_refl eq_refl eq_refl)
      as (h & Hbuild & Hb & Hk & _ & _ & Hv & Hu).
    exists h. vm_compute in Hbuild. vm_compute in Hu.
    repeat split; assumption.
Defined.

(** What comes of a URI with an empty bucket part: for ["/key"],
    [BuildFromURI] returns a handle without bucket whose URL is the root
    of the service, the key being dropped, while the canonical URI that
    is signed for its requests is ["/key"]. *)
Lemma empty_bucket_key_signed_not_requested :
  exists h,
    BuildFromURI (opts := no_options) (files := scenario_files "AKID")
      (xml := scenario_xml) (net := offline_network) (clock := clock_at 0)
      (platform := not_ec2) (tok := no_tokens) (hash := no_hash)
      (Some "/key") "/vsis3/" false
      ["AWS_SECRET_ACCESS_KEY=SECRET"; "AWS_ACCESS_KEY_ID=AKID"] initial_globals
    = (Some h, initial_globals, [])
    /\ m_osBucket h = "" /\ m_osObjectKey h = "key"
    /\ m_osURL h = "https://s3.amazonaws.com"
    /\ signing_host h = "s3.amazonaws.com"
    /\ signing_canonical_URI h = "/key".
Proof.
  eexists. split; [vm_compute; reflexivity|]. repeat split.
Qed.


(* ===================================================================== *)
(** * Further properties of the file                                      *)
(* ===================================================================== *)

(* --------------------------------------------------------------------- *)
(** ** The encoders lose nothing                                          *)
(* --------------------------------------------------------------------- *)

Lemma string_forallb_app (p : ascii -> bool) (a b : string) :
  string_forallb p (a ++ b) = string_forallb p a && string_forallb p b.
Proof.
  induction a as [|c a IH]; simpl; [reflexivity|].
  now rewrite IH, andb_assoc.
Qed.

Lemma byte_of_hex_digits (b : ascii) :
  byte_of_hex achHex
    (hex_at achHex (Z.shiftr (Z.land (uchar b) 240) 4))
    (hex_at achHex (Z.land (uchar b) 15)) = b.
Proof. destruct b as [[] [] [] [] [] [] [] []]; vm_compute; reflexivity. Qed.

(** [CPLGetLowerCaseHex] writes two digits of [0-9a-f] for every byte of
    its input, and nothing else. *)
Theorem CPLGetLowerCaseHex_digits (pabyData : string) :
  String.length (CPLGetLowerCaseHex pabyData) = (2 * String.length pabyData)%nat
  /\ string_forallb (fun ch => string_mem ch achHex) (CPLGetLowerCaseHex pabyData)
     = true.
Proof.
  induction pabyData as [|b rest [IHlen IHdig]].
  - split; reflexivity.
  - split.
    + cbn [CPLGetLowerCaseHex String.length]. rewrite IHlen. lia.
    + cbn [CPLGetLowerCaseHex string_forallb]. rewrite IHdig.
      destruct b as [[] [] [] [] [] [] [] []]; vm_compute; reflexivity.
Qed.

(** [CPLGetLowerCaseHex] is injective: two byte strings have the same
    hexadecimal text only when they are equal. *)
Theorem CPLGetLowerCaseHex_injective (a b : string) :
  CPLGetLowerCaseHex a = CPLGetLowerCaseHex b <-> a = b.
Proof.
  split; [|intro E; now rewrite E].
  revert b. induction a as [|x a IH]; intros [|y b] E.
  - reflexivity.
  - discriminate E.
  - discriminate E.
  - cbn [CPLGetLowerCaseHex] in E. injection E as Eh El Er.
    f_equal.
    + rewrite <- (byte_of_hex_digits x), <- (byte_of_hex_digits y).
      now rewrite Eh, El.
    + apply IH, Er.
Qed.

Lemma url_decode_head_byte (b : bool) (ch : ascii) (rest : string) :
  url_decode_head (url_encode_byte b ch ++ rest) = Some (ch, rest).
Proof. destruct b; destruct ch as [[] [] [] [] [] [] [] []]; reflexivity. Qed.

(** [CPLAWSURLEncode] is injective, whatever [bEncodeSlash]: two strings
    with the same encoding are equal, so distinct object keys never share a
    URL. *)
Theorem CPLAWSURLEncode_injective (a b : string) (bEncodeSlash : bool) :
  CPLAWSURLEncode a bEncodeSlash = CPLAWSURLEncode b bEncodeSlash <-> a = b.
Proof.
  split; [|intro E; now rewrite E].
  revert b. induction a as [|x a IH]; intros [|y b] E.
  - reflexivity.
  - rewrite CPLAWSURLEncode_cons in E.
    apply (f_equal url_decode_head) in E.
    rewrite url_decode_head_byte in E. discriminate E.
  - rewrite CPLAWSURLEncode_cons in E.
    apply (f_equal url_decode_head) in E.
    rewrite url_decode_head_byte in E. discriminate E.
  - rewrite !CPLAWSURLEncode_cons in E.
    apply (f_equal url_decode_head) in E.
    rewrite !url_decode_head_byte in E.
    injection E as Ex Er. subst y. f_equal. apply IH, Er.
Qed.

Lemma url_encode_byte_output (b : bool) (ch : ascii) :
  string_forallb (is_url_output b) (url_encode_byte b ch) = true
  /\ (1 <= String.length (url_encode_byte b ch) <= 3)%nat.
Proof.
  destruct b; destruct ch as [[] [] [] [] [] [] [] []];
    (split; [vm_compute; reflexivity | cbn; lia]).
Qed.

(** The text [CPLAWSURLEncode] returns is made of unreserved bytes, percent
    signs and, when slashes are not encoded, slashes: no space, no ['?'],
    ['&'], ['='] or ['#'], no control or non-ASCII byte.  It is at least as
    long as the input and at most three times as long. *)
Theorem CPLAWSURLEncode_output (osURL : string) (bEncodeSlash : bool) :
  string_forallb (is_url_output bEncodeSlash) (CPLAWSURLEncode osURL bEncodeSlash)
  = true
  /\ (String.length osURL <= String.length (CPLAWSURLEncode osURL bEncodeSlash)
      <= 3 * String.length osURL)%nat.
Proof.
  induction osURL as [|ch s [IHout IHlen]].
  - split; [reflexivity | cbn; lia].
  - rewrite CPLAWSURLEncode_cons.
    destruct (url_encode_byte_output bEncodeSlash ch) as [Hout Hlen].
    split.
    + now rewrite string_forallb_app, Hout, IHout.
    + rewrite append_length. cbn [String.length]. lia.
Qed.


(* --------------------------------------------------------------------- *)
(** ** Header values                                                      *)
(* --------------------------------------------------------------------- *)

Lemma STARTS_WITH_app (a b : string) : STARTS_WITH (a ++ b) a = true.
Proof.
  unfold STARTS_WITH, strncmp_eq.
  rewrite string_take_app, string_take_all. apply String.eqb_refl.
Qed.

(** [CPLAWSGetHeaderVal] returns the value of the first header line that
    starts with the key and a colon, trimmed; lines before it that do not
    start so (the match is case-sensitive) are passed over, lines after it
    are not looked at; without such a line the result is empty. *)
Theorem CPLAWSGetHeaderVal_first_match
    (before after : list string) (pszKey value : string) :
  forallb (fun data => negb (STARTS_WITH data (pszKey ++ ":"))) before = true ->
  CPLAWSGetHeaderVal before pszKey = ""
  /\ CPLAWSGetHeaderVal (before ++ ((pszKey ++ ":") ++ value) :: after) pszKey
     = CPLString_Trim value.
Proof.
  induction before as [|data before IH]; intro H.
  - split; [reflexivity|].
    cbn [app CPLAWSGetHeaderVal].
    rewrite STARTS_WITH_app, string_skip_app. reflexivity.
  - cbn [forallb] in H. apply andb_true_iff in H. destruct H as [Hd Hb].
    apply negb_true_iff in Hd.
    destruct (IH Hb) as [IH1 IH2].
    cbn [app CPLAWSGetHeaderVal]. rewrite Hd. split; assumption.
Qed.

(** The key [Content-Type] is not found in a line written in lower case;
    the first line that matches gives the value, without the white space
    around it. *)
Lemma CPLAWSGetHeaderVal_first_match_witness :
  CPLAWSGetHeaderVal ["content-type: text/plain"] "Content-Type" = ""
  /\ CPLAWSGetHeaderVal
       ["content-type: text/plain"; "Content-Type: image/tiff ";
        "Content-Type: other"] "Content-Type"
     = "image/tiff".
Proof.
  apply (CPLAWSGetHeaderVal_first_match ["content-type: text/plain"]
           ["Content-Type: other"] "Content-Type" " image/tiff ").
  reflexivity.
Defined.


(* --------------------------------------------------------------------- *)
(** ** The handle and its URL                                             *)
(* --------------------------------------------------------------------- *)

Lemma handle_kept_RebuildURL (h0 h : VSIS3HandleHelper) :
  m_osBucket h = m_osBucket h0 -> m_osObjectKey h = m_osObjectKey h0 ->
  m_bUseHTTPS h = m_bUseHTTPS h0 ->
  m_eCredentialsSource h = m_eCredentialsSource h0 ->
  handle_kept h0 (RebuildURL h).
Proof.
  intros Hb Hk Hs He. unfold handle_kept, URL_in_step.
  repeat split; assumption.
Qed.

Lemma handle_kept_credentials (h0 h : VSIS3HandleHelper) (cs : CredentialStrings) :
  handle_kept h0 h -> handle_kept h0 (set_handle_credentials cs h).
Proof. intro H. exact H. Qed.

Section HandleProperties.
Context {opts : Options} {files : Files} {xml : XMLReader} {net : Network}
        {clock : TimeLib} {platform : Platform} {tok : Tokenizer}
        {hash : HashPrimitives} {reader : StartDateReader}.

Lemma handle_kept_RefreshCredentials (h0 h : VSIS3HandleHelper) (g : Globals)
    (osPathForOption : string) (bForceRefresh : bool) :
  handle_kept h0 h ->
  handle_kept h0 (fst (RefreshCredentials osPathForOption bForceRefresh h g)).
Proof.
  intro H. unfold RefreshCredentials.
  destruct (m_eCredentialsSource h).
  - exact H.
  - destruct (GetConfigurationFromEC2 _ _ _ _) as [[[] cs] g']; exact H.
  - destruct (GetConfigurationFromAssumeRoleWithWebIdentity _ _ _ _ _ _)
      as [[[] cs] g']; exact H.
  - destruct (GetOrRefreshTemporaryCredentialsForRole _ _ _ _)
      as [[[] [cs r]] g']; exact H.
Qed.

Lemma handle_kept_CanRestartOnError (h0 h : VSIS3HandleHelper)
    (pszErrorMsg : string) (pszHeaders : option string) (bSetError : bool)
    (pbUpdateMap : option bool) :
  handle_kept h0 h ->
  handle_kept h0
    (cr_handle (CanRestartOnError h pszErrorMsg pszHeaders bSetError pbUpdateMap)).
Proof.
  intro H. pose proof H as [Hu [Hb [Hk [Hs He]]]].
  unfold CanRestartOnError.
  repeat match goal with
         | |- context [match ?x with _ => _ end] => destruct x
         end;
    cbn [cr_handle]; try exact H;
    unfold SetRegion, SetEndpoint;
    first [ apply handle_kept_RebuildURL; assumption
          | apply (handle_kept_RebuildURL h0
                     (set_m_osEndpoint _ (set_m_bUseVirtualHosting true h)));
            assumption
          | idtac ].
  all: unfold handle_kept, URL_in_step; cbn; repeat split; assumption.
Qed.

Lemma SignedURL_parameters_fields (d e : string) (h : VSIS3HandleHelper) :
  let h' := SignedURL_parameters d e h in
  m_osBucket h' = m_osBucket h /\ m_osObjectKey h' = m_osObjectKey h
  /\ m_bUseHTTPS h' = m_bUseHTTPS h
  /\ m_eCredentialsSource h' = m_eCredentialsSource h
  /\ handle_credentials h' = handle_credentials h
  /\ m_osRegion h' = m_osRegion h
  /\ m_osEndpoint h' = m_osEndpoint h
  /\ m_osRequestPayer h' = m_osRequestPayer h
  /\ m_bUseVirtualHosting h' = m_bUseVirtualHosting h.
Proof.
  cbv zeta. unfold SignedURL_parameters. cbv zeta.
  destruct (negb (string_empty _)); repeat split.
Qed.

Lemma handle_kept_SignedURL_finish (h0 h : VSIS3HandleHelper) (g : Globals)
    (v d e : string) :
  handle_kept h0 h -> handle_kept h0 (su_handle (SignedURL_finish v d e h g)).
Proof.
  intros [_ [Hb [Hk [Hs He]]]].
  destruct (SignedURL_parameters_fields d e h) as [Fb [Fk [Fs [Fe _]]]].
  unfold SignedURL_finish. cbv zeta. cbn [su_handle].
  generalize (SignedURL_signature v d (SignedURL_parameters d e h)) as sig.
  generalize dependent (SignedURL_parameters d e h). intros h2 Fb Fk Fs Fe sig.
  apply handle_kept_RebuildURL; cbn; congruence.
Qed.

Lemma handle_kept_GetSignedURL (h0 h : VSIS3HandleHelper) (g : Globals)
    (papszOptions : list string) :
  handle_kept h0 h -> handle_kept h0 (su_handle (GetSignedURL papszOptions h g)).
Proof.
  intro H. unfold GetSignedURL. cbv zeta.
  set (path := (("/vsis3/" ++ m_osBucket h) ++ "/") ++ m_osObjectKey h).
  pose proof (handle_kept_RefreshCredentials h0 h g path true H) as HR.
  destruct (m_eCredentialsSource h).
  - apply handle_kept_SignedURL_finish, H.
  - destruct (sscanf_timestamp _) as [[[[[[y mo] d] hh] mi] ss]|];
      [|exact H].
    destruct (_ <=? _); [|apply handle_kept_SignedURL_finish, H].
    destruct (RefreshCredentials path true h g) as [h1 g1].
    apply handle_kept_SignedURL_finish, HR.
  - destruct (sscanf_timestamp _) as [[[[[[y mo] d] hh] mi] ss]|];
      [|exact H].
    destruct (_ <=? _); [|apply handle_kept_SignedURL_finish, H].
    destruct (RefreshCredentials path true h g) as [h1 g1].
    apply handle_kept_SignedURL_finish, HR.
  - destruct (sscanf_timestamp _) as [[[[[[y mo] d] hh] mi] ss]|];
      [|exact H].
    destruct (_ <=? _); [|apply handle_kept_SignedURL_finish, H].
    destruct (RefreshCredentials path true h g) as [h1 g1].
    apply handle_kept_SignedURL_finish, HR.
Qed.

Lemma handle_kept_run_call (h0 : VSIS3HandleHelper)
    (st : VSIS3HandleHelper * Globals) (c : HandleCall) :
  handle_kept h0 (fst st) -> handle_kept h0 (fst (run_call st c)).
Proof.
  destruct st as [h g]. cbn [fst]. intro H.
  pose proof H as [Hu [Hb [Hk [Hs He]]]].
  destruct c; cbn [run_call fst].
  - apply handle_kept_RebuildURL; assumption.
  - exact H.
  - exact H.
  - apply handle_kept_RebuildURL; assumption.
  - apply handle_kept_RebuildURL; assumption.
  - apply handle_kept_RebuildURL; assumption.
  - apply handle_kept_RefreshCredentials, H.
  - unfold GetCurlHeaders.
    pose proof (handle_kept_RefreshCredentials h0 h g
                  ((("/vsis3/" ++ m_osBucket h) ++ "/") ++ m_osObjectKey h) false H)
      as HR.
    destruct (RefreshCredentials _ false h g) as [h' g']. exact HR.
  - apply handle_kept_GetSignedURL, H.
  - apply handle_kept_CanRestartOnError, H.
Qed.

(** Whatever is called on a handle after its construction, in whatever
    order, its URL stays what [BuildURL] gives for its endpoint, bucket,
    object key and flags, followed by its query string; and its bucket, its
    object key, its scheme and the source of its credentials stay those it
    was built with. *)
Theorem handle_URL_in_step
    (osSecretAccessKey osAccessKeyId osSessionToken osEndpoint osRegion
     osRequestPayer osBucket osObjectKey : string)
    (bUseHTTPS bUseVirtualHosting : bool)
    (eCredentialsSource : AWSCredentialsSource)
    (calls : list HandleCall) (g : Globals) :
  let h0 :=
    new_VSIS3HandleHelper osSecretAccessKey osAccessKeyId osSessionToken
      osEndpoint osRegion osRequestPayer osBucket osObjectKey bUseHTTPS
      bUseVirtualHosting eCredentialsSource in
  let h := fst (fold_left run_call calls (h0, g)) in
  m_osURL h
  = BuildURL (m_osEndpoint h) osBucket osObjectKey bUseHTTPS (m_bUseVirtualHosting h)
    ++ GetQueryString h false
  /\ m_osBucket h = osBucket
  /\ m_osObjectKey h = osObjectKey
  /\ m_bUseHTTPS h = bUseHTTPS
  /\ m_eCredentialsSource h = eCredentialsSource.
Proof.
  intros h0 h.
  assert (K : handle_kept h0 h).
  { subst h.
    assert (K0 : handle_kept h0 (fst (h0, g))).
    { unfold handle_kept, URL_in_step, h0, new_VSIS3HandleHelper, GetQueryString.
      cbn. rewrite append_nil_r. repeat split. }
    generalize dependent (h0, g). clear g.
    induction calls as [|c calls IH]; intros st K0.
    - exact K0.
    - cbn [fold_left]. apply IH, handle_kept_run_call, K0. }
  destruct K as [Hu [Hb [Hk [Hs He]]]].
  unfold URL_in_step in Hu. rewrite Hb, Hk, Hs in Hu.
  repeat split; assumption.
Qed.

End HandleProperties.


(* --------------------------------------------------------------------- *)
(** ** Query parameters                                                   *)
(* --------------------------------------------------------------------- *)

Lemma map_set_same (k v1 v2 : string) (m : StringMap) :
  map_set k v2 (map_set k v1 m) = map_set k v2 m.
Proof.
  induction m as [|[k0 v0] rest IH].
  - cbn [map_set]. now rewrite compare_refl.
  - cbn [map_set]. destruct (String.compare k k0) eqn:E.
    + cbn [map_set]. now rewrite E.
    + cbn [map_set]. now rewrite compare_refl.
    + cbn [map_set]. now rewrite E, IH.
Qed.

(** The URL of a handle does not depend on the order in which query
    parameters of different names were added: the handles are equal.
    Adding a parameter again replaces its value. *)
Theorem AddQueryParameter_order (k1 v1 k2 v2 v3 : string) (h : VSIS3HandleHelper) :
  k1 <> k2 ->
  AddQueryParameter k1 v1 (AddQueryParameter k2 v2 h)
  = AddQueryParameter k2 v2 (AddQueryParameter k1 v1 h)
  /\ AddQueryParameter k1 v3 (AddQueryParameter k1 v1 h) = AddQueryParameter k1 v3 h.
Proof.
  intro Hne. unfold AddQueryParameter, RebuildURL, GetQueryString.
  cbn. rewrite (map_set_comm k1 v1 k2 v2 _ Hne), map_set_same.
  split; reflexivity.
Qed.

Lemma AddQueryParameter_order_witness :
  let h :=
    new_VSIS3HandleHelper "" "" "" "s3.amazonaws.com" "us-east-1" "" "bucket"
      "key" true true REGULAR in
  AddQueryParameter "uploads" "" (AddQueryParameter "partNumber" "1" h)
  = AddQueryParameter "partNumber" "1" (AddQueryParameter "uploads" "" h)
  /\ AddQueryParameter "uploads" "2" (AddQueryParameter "uploads" "" h)
     = AddQueryParameter "uploads" "2" h.
Proof.
  intro h. apply (AddQueryParameter_order "uploads" "" "partNumber" "1" "2" h).
  discriminate.
Defined.

Lemma string_mem_app (ch : ascii) (a b : string) :
  string_mem ch (a ++ b) = string_mem ch a || string_mem ch b.
Proof.
  induction a as [|c a IH]; simpl; [reflexivity|].
  now rewrite IH, orb_assoc.
Qed.

Lemma string_mem_c_str (ch : ascii) (s : string) :
  string_mem ch s = false -> string_mem ch (c_str s) = false.
Proof.
  induction s as [|c s IH]; simpl; intro H; [reflexivity|].
  apply orb_false_iff in H. destruct H as [Hc Hs].
  destruct (Ascii.eqb c NUL); [reflexivity|].
  simpl. now rewrite Hc, (IH Hs).
Qed.

Lemma string_forallb_not_mem (p : ascii -> bool) (ch : ascii) (s : string) :
  p ch = false -> string_forallb p s = true -> string_mem ch s = false.
Proof.
  intro Hp. induction s as [|c s IH]; simpl; intro H; [reflexivity|].
  apply andb_true_iff in H. destruct H as [Hc Hs].
  rewrite (IH Hs), orb_false_r.
  destruct (Ascii.eqb_spec c ch) as [E|_]; [|reflexivity].
  subst c. congruence.
Qed.

Lemma CPLAWSURLEncode_alphabet (s : string) (b : bool) :
  string_forallb (is_url_output b) (CPLAWSURLEncode s b) = true.
Proof.
  induction s as [|ch s IH]; [reflexivity|].
  rewrite CPLAWSURLEncode_cons, string_forallb_app, IH, andb_true_r.
  destruct b; destruct ch as [[] [] [] [] [] [] [] []]; vm_compute; reflexivity.
Qed.

Lemma BuildURL_no_question (osEndpoint osBucket osObjectKey : string)
    (bUseHTTPS bUseVirtualHosting : bool) :
  string_mem "?" osEndpoint = false -> string_mem "?" osBucket = false ->
  string_mem "?"
    (BuildURL osEndpoint osBucket osObjectKey bUseHTTPS bUseVirtualHosting) = false.
Proof.
  intros He Hb.
  pose proof (string_mem_c_str "?" _ He) as He'.
  pose proof (string_mem_c_str "?" _ Hb) as Hb'.
  assert (Hk : string_mem "?" (c_str (CPLAWSURLEncode osObjectKey false)) = false).
  { apply string_mem_c_str.
    apply (string_forallb_not_mem (is_url_output false)); [reflexivity|].
    apply CPLAWSURLEncode_alphabet. }
  unfold BuildURL.
  destruct (string_empty osBucket); [|destruct bUseVirtualHosting];
    destruct bUseHTTPS;
    rewrite ?string_mem_app, ?He', ?Hb', ?Hk; reflexivity.
Qed.

Lemma GetQueryString_loop_acc (b first : bool) (m : StringMap) (acc : string) :
  GetQueryString_loop b first m acc = acc ++ GetQueryString_loop b first m "".
Proof.
  revert first acc. induction m as [|[k v] rest IH]; intros first acc.
  - cbn. now rewrite append_nil_r.
  - cbn [GetQueryString_loop]. cbv zeta.
    rewrite IH. symmetry. rewrite IH. symmetry.
    rewrite <- append_assoc. f_equal.
    destruct (negb (string_empty v) || b); cbn [append];
      rewrite ?append_assoc; reflexivity.
Qed.

(** A query string is empty or starts with ['?']. *)
Lemma GetQueryString_head (h : VSIS3HandleHelper) (b : bool) :
  GetQueryString h b = ""
  \/ exists rest, GetQueryString h b = String "?" rest.
Proof.
  unfold GetQueryString.
  destruct (m_oMapQueryParameters h) as [|[k v] rest]; [left; reflexivity|].
  right. cbn [GetQueryString_loop]. cbv zeta.
  rewrite GetQueryString_loop_acc.
  destruct (negb (string_empty v) || b); cbn [append]; eexists; reflexivity.
Qed.

(** [GetURLNoKVP] gives the URL without its query string, that is what
    [BuildURL] wrote, whatever the query parameters are, for an endpoint
    and a bucket that hold no ['?'] (the object key may: it is encoded). *)
Theorem GetURLNoKVP_drops_query (h : VSIS3HandleHelper) :
  URL_in_step h ->
  string_mem "?" (m_osEndpoint h) = false ->
  string_mem "?" (m_osBucket h) = false ->
  GetURLNoKVP h
  = BuildURL (m_osEndpoint h) (m_osBucket h) (m_osObjectKey h) (m_bUseHTTPS h)
      (m_bUseVirtualHosting h).
Proof.
  intros Hu He Hb. unfold GetURLNoKVP. rewrite Hu.
  pose proof (BuildURL_no_question (m_osEndpoint h) (m_osBucket h)
                (m_osObjectKey h) (m_bUseHTTPS h) (m_bUseVirtualHosting h) He Hb)
    as Hq.
  destruct (GetQueryString_head h false) as [E|[rest E]]; rewrite E.
  - rewrite append_nil_r.
    apply string_find_none in Hq. now rewrite Hq.
  - rewrite (string_find_app "?" _ rest Hq). apply string_resize_app.
Qed.

(** An object key with a question mark and two query parameters. *)
Lemma GetURLNoKVP_drops_query_witness :
  let h :=
    AddQueryParameter "uploadId" "a?b"
      (AddQueryParameter "partNumber" "1"
         (new_VSIS3HandleHelper "" "" "" "s3.amazonaws.com" "us-east-1" ""
            "bucket" "what?.tif" true true REGULAR)) in
  m_osURL h
  = "https://bucket.s3.amazonaws.com/what%3F.tif?partNumber=1&uploadId=a%3Fb"
  /\ GetURLNoKVP h = "https://bucket.s3.amazonaws.com/what%3F.tif".
Proof.
  intro h. split; [reflexivity|].
  apply (GetURLNoKVP_drops_query h); reflexivity.
Defined.


(* --------------------------------------------------------------------- *)
(** ** What is signed is what is requested                                *)
(* --------------------------------------------------------------------- *)

(** For a handle with a bucket, the URL is the scheme, the host that
    [GetCurlHeaders] and [GetSignedURL] sign as the [host] header, and the
    canonical URI they sign: always under virtual hosting, and in path
    style when the bucket name is made of unreserved bytes.  (Endpoint and
    bucket are C strings in the URL: they hold no NUL.) *)
Theorem signed_host_and_URI_make_the_URL (h : VSIS3HandleHelper) :
  no_nul (m_osEndpoint h) = true -> no_nul (m_osBucket h) = true ->
  string_empty (m_osBucket h) = false ->
  (m_bUseVirtualHosting h = false ->
   string_forallb is_unreserved (m_osBucket h) = true) ->
  BuildURL (m_osEndpoint h) (m_osBucket h) (m_osObjectKey h) (m_bUseHTTPS h)
    (m_bUseVirtualHosting h)
  = (if m_bUseHTTPS h then "https" else "http") ++ "://"
    ++ signing_host h ++ signing_canonical_URI h.
Proof.
  intros He Hb Hne Hpath.
  rewrite (BuildURL_no_nul _ _ _ _ _ He Hb). cbv zeta. rewrite Hne.
  unfold signing_host, signing_canonical_URI. rewrite Hne.
  rewrite !(c_str_no_nul _ (CPLAWSURLEncode_no_nul _ false)).
  destruct (m_bUseVirtualHosting h).
  - cbn [andb negb]. rewrite CPLAWSURLEncode_app.
    change (CPLAWSURLEncode "/" false) with "/".
    destruct (m_bUseHTTPS h); rewrite !append_assoc; reflexivity.
  - cbn [andb]. rewrite !CPLAWSURLEncode_app.
    rewrite (CPLAWSURLEncode_unreserved false _ (Hpath eq_refl)).
    change (CPLAWSURLEncode "/" false) with "/".
    destruct (m_bUseHTTPS h); rewrite !append_assoc; reflexivity.
Qed.

(** A path-style handle, its bucket name holding a dot. *)
Lemma signed_host_and_URI_make_the_URL_witness :
  let h :=
    new_VSIS3HandleHelper "" "" "" "s3.amazonaws.com" "us-east-1" ""
      "my.bucket" "dir/a b.tif" true false REGULAR in
  m_osURL h = "https://s3.amazonaws.com/my.bucket/dir/a%20b.tif"
  /\ m_osURL h
     = "https" ++ "://" ++ signing_host h ++ signing_canonical_URI h.
Proof.
  intro h. split; [reflexivity|].
  apply (signed_host_and_URI_make_the_URL h); reflexivity.
Defined.

(* --------------------------------------------------------------------- *)
(** ** Error responses                                                    *)
(* --------------------------------------------------------------------- *)

Section ErrorResponseProperties.
Context {xml : XMLReader}.

(** The outcomes of [CanRestartOnError].  When it answers that the request
    can be restarted it has reported no error.  When it answers that it
    cannot, the handle is as it was, the flag behind [pbUpdateMap] (if any)
    is true, and exactly one error has been reported if [bSetError] and
    none otherwise.  In both cases the credentials, the request payer and
    the query parameters of the handle are untouched, and a null
    [pbUpdateMap] is not written. *)
Theorem CanRestartOnError_outcomes (h : VSIS3HandleHelper) (pszErrorMsg : string)
    (pszHeaders : option string) (bSetError : bool) (pbUpdateMap : option bool) :
  let r := CanRestartOnError h pszErrorMsg pszHeaders bSetError pbUpdateMap in
  (if cr_ret r then cr_errors r = []
   else cr_handle r = h
        /\ cr_pbUpdateMap r = store_flag pbUpdateMap true
        /\ List.length (cr_errors r) = (if bSetError then 1 else 0)%nat)
  /\ m_osSecretAccessKey (cr_handle r) = m_osSecretAccessKey h
  /\ m_osAccessKeyId (cr_handle r) = m_osAccessKeyId h
  /\ m_osSessionToken (cr_handle r) = m_osSessionToken h
  /\ m_osRequestPayer (cr_handle r) = m_osRequestPayer h
  /\ m_oMapQueryParameters (cr_handle r) = m_oMapQueryParameters h
  /\ (pbUpdateMap = None -> cr_pbUpdateMap r = None).
Proof.
  cbv zeta.
  match goal with |- ?G =>
    match eval pattern (CanRestartOnError h pszErrorMsg pszHeaders bSetError
                          pbUpdateMap) in G with
    | ?P _ => set (outcome := P); change (outcome (CanRestartOnError h pszErrorMsg
                                            pszHeaders bSetError pbUpdateMap))
    end
  end.
  unfold CanRestartOnError.
  repeat match goal with
         | |- outcome ?body =>
             match body with
             | context [match ?x with _ => _ end] =>
                 tryif is_var x then fail else destruct x
             end
         end;
    subst outcome; cbv beta;
    cbn [cr_ret cr_handle cr_errors cr_pbUpdateMap];
    destruct bSetError, pbUpdateMap; cbn;
    repeat split; try reflexivity; try discriminate.
Qed.

End ErrorResponseProperties.


(* --------------------------------------------------------------------- *)
(** ** The credential cache: refreshes                                    *)
(* --------------------------------------------------------------------- *)

(** Case analysis on a scrutinee of the goal that holds no other case
    analysis. *)
Ltac destruct_innermost :=
  match goal with
  | |- context [match ?x with _ => _ end] =>
      lazymatch x with
      | context [match _ with _ => _ end] => fail
      | _ => destruct x eqn:?
      end
  end.

Lemma cached_credentials_store (cs : CredentialStrings) (T : Z) (g : Globals) :
  cached_credentials (store_credentials cs T g) = cs.
Proof. destruct cs; reflexivity. Qed.

Lemma same_cache_refl (g : Globals) : same_cache g g.
Proof. split; reflexivity. Qed.

Section RefreshProperties.
Context {opts : Options} {files : Files} {xml : XMLReader} {net : Network}
        {clock : TimeLib} {platform : Platform} {tok : Tokenizer}
        {hash : HashPrimitives}.

Lemma cache_still_valid_same (g g' : Globals) :
  same_cache g g' -> cache_still_valid g' = cache_still_valid g.
Proof.
  intros [Hc He]. unfold cache_still_valid. rewrite He.
  unfold cached_credentials in Hc. injection Hc as _ Ha _. now rewrite Ha.
Qed.

Lemma cache_emptied_invalid (g : Globals) :
  cache_emptied g -> cache_still_valid g = false.
Proof.
  unfold cache_emptied, cached_credentials, cache_still_valid.
  intro H. injection H as _ Ha _. now rewrite Ha.
Qed.

(** A refresh from the instance metadata either leaves the cache as it
    was, or succeeds and stores what it returns. *)
Lemma EC2_refresh_outcome (osPathForOption : string) (cs : CredentialStrings)
    (g : Globals) :
  let r := EC2_refresh osPathForOption cs g in
  same_cache g (snd r)
  \/ (fst (fst r) = true /\ cached_credentials (snd r) = snd (fst r)).
Proof.
  cbv zeta. unfold EC2_refresh.
  repeat destruct_innermost;
    cbn [fst snd];
    first [ left; split; reflexivity
          | right; split; [reflexivity | apply cached_credentials_store] ].
Qed.

Lemma AssumeRoleWithWebIdentity_refresh_outcome
    (osPathForOption osRoleArnIn osWebIdentityTokenFileIn : string)
    (cs : CredentialStrings) (g : Globals) :
  let r := AssumeRoleWithWebIdentity_refresh osPathForOption osRoleArnIn
             osWebIdentityTokenFileIn cs g in
  snd r = g
  \/ (fst (fst r) = true /\ cached_credentials (snd r) = snd (fst r)).
Proof.
  cbv zeta. unfold AssumeRoleWithWebIdentity_refresh.
  repeat destruct_innermost;
    cbn [fst snd];
    first [ left; reflexivity
          | right; split; [reflexivity | apply cached_credentials_store] ].
Qed.

End RefreshProperties.


Section RefreshTheorems.
Context {opts : Options} {files : Files} {xml : XMLReader} {net : Network}
        {clock : TimeLib} {platform : Platform} {tok : Tokenizer}
        {hash : HashPrimitives}.

(** A refresh of the credentials of an assumed role either succeeds and
    returns what the cache then holds, or fails and leaves the cache as it
    was or without credentials. *)
Lemma TemporaryCredentialsForRole_refresh_outcome (bForceRefresh : bool)
    (cs : CredentialStrings) (osRegion : string) (g : Globals) :
  let r := TemporaryCredentialsForRole_refresh bForceRefresh cs osRegion g in
  if fst (fst r) then fst (snd (fst r)) = cached_credentials (snd r)
  else same_cache g (snd r) \/ cache_emptied (snd r).
Proof.
  cbv zeta. unfold TemporaryCredentialsForRole_refresh.
  destruct (negb (string_empty (gosRoleArnWebIdentity g))).
  - unfold GetConfigurationFromAssumeRoleWithWebIdentity.
    destruct (negb bForceRefresh && cache_still_valid g).
    + cbn [negb]. destruct (GetTemporaryCredentialsForRole _ _ _ _ _ _ _)
        as [[temp osExpiration]|]; cbn [fst snd].
      * destruct (Iso8601ToUnixTime _); reflexivity.
      * right. reflexivity.
    + pose proof (AssumeRoleWithWebIdentity_refresh_outcome ""
                    (gosRoleArnWebIdentity g) (gosWebIdentityTokenFile g) cs g)
        as H. cbv zeta in H.
      destruct (AssumeRoleWithWebIdentity_refresh _ _ _ _ _) as [[ok cs1] g1].
      cbn [fst snd] in H. destruct ok.
      * cbn [negb]. destruct (GetTemporaryCredentialsForRole _ _ _ _ _ _ _)
          as [[temp osExpiration]|]; cbn [fst snd].
        -- destruct (Iso8601ToUnixTime _); reflexivity.
        -- right. reflexivity.
      * cbn [negb fst snd]. left.
        destruct H as [H|[H _]]; [subst g1; apply same_cache_refl | discriminate H].
  - cbn [negb]. destruct (GetTemporaryCredentialsForRole _ _ _ _ _ _ _)
      as [[temp osExpiration]|]; cbn [fst snd].
    + destruct (Iso8601ToUnixTime _); reflexivity.
    + right. reflexivity.
Qed.

(** A read of the credentials that fails installs nothing.  When
    [GetConfigurationFromEC2] returns false the cached credentials and
    their expiration are what they were; when
    [GetConfigurationFromAssumeRoleWithWebIdentity] returns false no global
    has changed; when [GetOrRefreshTemporaryCredentialsForRole] returns
    false the cache is as it was or holds no credentials at all (they are
    cleared before the [AssumeRole] request). *)
Theorem failed_read_installs_nothing (bForceRefresh : bool)
    (osPathForOption osRoleArnIn osWebIdentityTokenFileIn osRegion : string)
    (cs : CredentialStrings) (g : Globals) :
  (forall cs' g',
      GetConfigurationFromEC2 bForceRefresh osPathForOption cs g = (false, cs', g') ->
      same_cache g g')
  /\ (forall cs' g',
         GetConfigurationFromAssumeRoleWithWebIdentity bForceRefresh
           osPathForOption osRoleArnIn osWebIdentityTokenFileIn cs g
         = (false, cs', g') ->
         g' = g)
  /\ (forall out g',
         GetOrRefreshTemporaryCredentialsForRole bForceRefresh cs osRegion g
         = (false, out, g') ->
         same_cache g g' \/ cache_emptied g').
Proof.
  split; [|split].
  - intros cs' g'. unfold GetConfigurationFromEC2.
    destruct (negb bForceRefresh && cache_still_valid g); [discriminate|].
    intro E. pose proof (EC2_refresh_outcome osPathForOption cs g) as H.
    cbv zeta in H. rewrite E in H. cbn [fst snd] in H.
    destruct H as [H|[H _]]; [exact H | discriminate H].
  - intros cs' g'. unfold GetConfigurationFromAssumeRoleWithWebIdentity.
    destruct (negb bForceRefresh && cache_still_valid g); [discriminate|].
    intro E.
    pose proof (AssumeRoleWithWebIdentity_refresh_outcome osPathForOption
                  osRoleArnIn osWebIdentityTokenFileIn cs g) as H.
    cbv zeta in H. rewrite E in H. cbn [fst snd] in H.
    destruct H as [H|[H _]]; [exact H | discriminate H].
  - intros out g'. unfold GetOrRefreshTemporaryCredentialsForRole.
    destruct (negb bForceRefresh && cache_still_valid g); [discriminate|].
    intro E.
    pose proof (TemporaryCredentialsForRole_refresh_outcome bForceRefresh cs
                  osRegion g) as H.
    cbv zeta in H. rewrite E in H. cbn [fst snd] in H. exact H.
Qed.

(** After a read of the credentials that is not forced, a cache that is
    valid holds the credentials the handle then has: the handle never signs
    with credentials other than those a valid cache gives. *)
Theorem RefreshCredentials_coherent (osPathForOption : string)
    (h : VSIS3HandleHelper) (g : Globals) :
  m_eCredentialsSource h <> REGULAR ->
  cache_still_valid (snd (RefreshCredentials osPathForOption false h g)) = true ->
  handle_credentials (fst (RefreshCredentials osPathForOption false h g))
  = cached_credentials (snd (RefreshCredentials osPathForOption false h g)).
Proof.
  intro Hsrc. unfold RefreshCredentials.
  destruct (m_eCredentialsSource h); [congruence | | |].
  - unfold GetConfigurationFromEC2. cbn [negb andb].
    destruct (cache_still_valid g) eqn:Hv.
    + cbn [fst snd]. intros _. unfold handle_credentials, cached_credentials.
      reflexivity.
    + pose proof (EC2_refresh_outcome (c_str osPathForOption)
                    (mkCredentialStrings "" "" "") g) as H.
      cbv zeta in H.
      destruct (EC2_refresh _ _ _) as [[ok cs'] g']. cbn [fst snd] in H.
      destruct H as [H|[H1 H2]].
      * intro Hv'. destruct ok; cbn [fst snd] in Hv' |- *;
          rewrite (cache_still_valid_same g g' H) in Hv'; congruence.
      * subst ok. cbn [fst snd]. intros _. rewrite H2.
        destruct cs'; reflexivity.
  - unfold GetConfigurationFromAssumeRoleWithWebIdentity. cbn [negb andb].
    destruct (cache_still_valid g) eqn:Hv.
    + cbn [fst snd]. intros _. reflexivity.
    + pose proof (AssumeRoleWithWebIdentity_refresh_outcome
                    (c_str osPathForOption) "" ""
                    (mkCredentialStrings "" "" "") g) as H.
      cbv zeta in H.
      destruct (AssumeRoleWithWebIdentity_refresh _ _ _ _ _) as [[ok cs'] g'].
      cbn [fst snd] in H.
      destruct H as [H|[H1 H2]].
      * subst g'. intro Hv'. destruct ok; cbn [fst snd] in Hv'; congruence.
      * subst ok. cbn [fst snd]. intros _. rewrite H2.
        destruct cs'; reflexivity.
  - unfold GetOrRefreshTemporaryCredentialsForRole. cbn [negb andb].
    destruct (cache_still_valid g) eqn:Hv.
    + cbn [fst snd]. intros _. reflexivity.
    + pose proof (TemporaryCredentialsForRole_refresh_outcome false
                    (mkCredentialStrings "" "" "") "" g) as H.
      cbv zeta in H.
      destruct (TemporaryCredentialsForRole_refresh _ _ _ _)
        as [[ok [cs' r']] g'].
      cbn [fst snd] in H. destruct ok.
      * cbn [fst snd]. intros _. rewrite <- H. destruct cs'; reflexivity.
      * cbn [fst snd]. intro Hv'. destruct H as [H|H].
        -- rewrite (cache_still_valid_same g g' H) in Hv'. congruence.
        -- rewrite (cache_emptied_invalid g' H) in Hv'. discriminate Hv'.
Qed.

End RefreshTheorems.

(** Without network, on a machine that is not an EC2 instance and has no
    role configured, the three reads fail and the cache, which expired, is
    left as it was. *)
Lemma failed_read_installs_nothing_witness :
  let read_EC2 :=
    GetConfigurationFromEC2 (opts := no_options) (net := offline_network)
      (clock := clock_at 1000) (platform := not_ec2) (tok := no_tokens)
      true "/vsis3/b/k" (mkCredentialStrings "" "" "") (cache_until 900) in
  let read_web :=
    GetConfigurationFromAssumeRoleWithWebIdentity (opts := no_options)
      (files := scenario_files "") (xml := scenario_xml)
      (net := offline_network) (clock := clock_at 1000)
      true "/vsis3/b/k" "" "" (mkCredentialStrings "" "" "") (cache_until 900) in
  (fst (fst read_EC2) = false /\ same_cache (cache_until 900) (snd read_EC2))
  /\ (fst (fst read_web) = false /\ snd read_web = cache_until 900).
Proof.
  intros read_EC2 read_web.
  destruct (failed_read_installs_nothing (opts := no_options)
              (files := scenario_files "") (xml := scenario_xml)
              (net := offline_network) (clock := clock_at 1000)
              (platform := not_ec2) (tok := no_tokens) (hash := no_hash)
              true "/vsis3/b/k" "" "" ""
              (mkCredentialStrings "" "" "") (cache_until 900))
    as [HE [HW _]].
  split; (split; [reflexivity|]).
  - apply (HE (snd (fst read_EC2))). reflexivity.
  - apply (HW (snd (fst read_web))). reflexivity.
Defined.

(** A handle whose credentials come from a web identity, with an empty
    cache: the credentials STS returns are stored until [T = 5000]; at
    [now = 1000] the cache is valid and holds the credentials of the
    handle. *)
Lemma RefreshCredentials_coherent_witness :
  let h :=
    new_VSIS3HandleHelper "" "" "" "s3.amazonaws.com" "us-east-1" "" "b" "k"
      true true WEB_IDENTITY in
  let r :=
    RefreshCredentials (opts := web_identity_options) (files := token_files)
      (xml := sts_xml) (net := sts_network) (clock := clock_reading 1000 5000)
      (platform := not_ec2) (tok := no_tokens) (hash := no_hash)
      "/vsis3/b/k" false h initial_globals in
  handle_credentials (fst r) = mkCredentialStrings "WEBSECRET" "ASIAWEB" "WEBTOKEN"
  /\ handle_credentials (fst r) = cached_credentials (snd r).
Proof.
  intros h r. split; [reflexivity|].
  apply (RefreshCredentials_coherent (opts := web_identity_options)
           (files := token_files) (xml := sts_xml) (net := sts_network)
           (clock := clock_reading 1000 5000) (platform := not_ec2)
           (tok := no_tokens) (hash := no_hash) "/vsis3/b/k" h initial_globals).
  - discriminate.
  - reflexivity.
Defined.


(* --------------------------------------------------------------------- *)
(** ** The headers of a request                                           *)
(* --------------------------------------------------------------------- *)

Lemma CPLGetLowerCaseHex_no_nul (s : string) : no_nul (CPLGetLowerCaseHex s) = true.
Proof.
  induction s as [|b rest IH]; [reflexivity|].
  cbn [CPLGetLowerCaseHex]. unfold no_nul in *. cbn [string_forallb].
  rewrite IH. destruct b as [[] [] [] [] [] [] [] []]; vm_compute; reflexivity.
Qed.

Section RequestHeaders.
Context {opts : Options} {files : Files} {xml : XMLReader} {net : Network}
        {clock : TimeLib} {platform : Platform} {tok : Tokenizer}
        {hash : HashPrimitives}.

Lemma CPLGetAWS_SIGN4_Authorization_not_empty
    (osSecretAccessKey osAccessKeyId osAccessToken osRegion osRequestPayer
     osService osVerb : string) (psExistingHeaders : list string)
    (osHost osCanonicalURI osCanonicalQueryString osXAMZContentSHA256 : string)
    (bAddHeaderAMZContentSHA256 : bool) (osTimestamp : string) :
  string_empty
    (CPLGetAWS_SIGN4_Authorization osSecretAccessKey osAccessKeyId osAccessToken
       osRegion osRequestPayer osService osVerb psExistingHeaders osHost
       osCanonicalURI osCanonicalQueryString osXAMZContentSHA256
       bAddHeaderAMZContentSHA256 osTimestamp) = false.
Proof.
  unfold CPLGetAWS_SIGN4_Authorization.
  destruct (CPLGetAWS_SIGN4_Signature _ _ _ _ _ _ _ _ _ _ _ _ _) as [sig sh].
  reflexivity.
Qed.

(** The header lines [GetCurlHeaders] returns, after the credentials were
    refreshed without force, are these and no other, in this order: the
    date ([AWS_TIMESTAMP] when set, the clock otherwise); the SHA-256 of
    the payload in hexadecimal digits, whole; a security-token line exactly
    when the handle has a session token; a request-payer line exactly when
    it has a request payer; and an [Authorization] line, for the verb, the
    host, the canonical URI and the query string of the handle, exactly
    when it has a secret key: a request without secret key is never
    signed, one with a secret key always is. *)
Theorem GetCurlHeaders_lines (osVerb : string) (psExistingHeaders : list string)
    (pabyDataContent : string) (h : VSIS3HandleHelper) (g : Globals) :
  let osPathForOption := (("/vsis3/" ++ m_osBucket h) ++ "/") ++ m_osObjectKey h in
  let r := GetCurlHeaders osVerb psExistingHeaders pabyDataContent h g in
  let headers := fst (fst r) in
  let h' := snd (fst r) in
  let osXAMZDate :=
    if string_empty
         (VSIGetPathSpecificOption (c_str osPathForOption) "AWS_TIMESTAMP" "")
    then CPLGetAWS_SIGN4_Timestamp time_now
    else VSIGetPathSpecificOption (c_str osPathForOption) "AWS_TIMESTAMP" "" in
  let osXAMZContentSHA256 := CPLGetLowerCaseHexSHA256 pabyDataContent in
  let osCanonicalQueryString :=
    if string_empty (GetQueryString h' true) then ""
    else string_skip 1 (GetQueryString h' true) in
  let osAuthorization :=
    CPLGetAWS_SIGN4_Authorization (m_osSecretAccessKey h') (m_osAccessKeyId h')
      (m_osSessionToken h') (m_osRegion h') (m_osRequestPayer h') "s3" osVerb
      psExistingHeaders (signing_host h') (signing_canonical_URI h')
      osCanonicalQueryString osXAMZContentSHA256 true osXAMZDate in
  let date_line := "x-amz-date: " ++ c_str osXAMZDate in
  let sha256_line := "x-amz-content-sha256: " ++ osXAMZContentSHA256 in
  let token_line := "X-Amz-Security-Token: " ++ c_str (m_osSessionToken h') in
  let payer_line := "x-amz-request-payer: " ++ c_str (m_osRequestPayer h') in
  let authorization_line := "Authorization: " ++ c_str osAuthorization in
  (h', snd r) = RefreshCredentials osPathForOption false h g
  /\ headers
     = ([date_line; sha256_line]
        ++ (if string_empty (m_osSessionToken h') then [] else [token_line])
        ++ (if string_empty (m_osRequestPayer h') then [] else [payer_line])
        ++ (if string_empty (m_osSecretAccessKey h') then []
            else [authorization_line]))%list
  /\ (exists date, nth_error headers 0 = Some ("x-amz-date: " ++ date))
  /\ nth_error headers 1
     = Some ("x-amz-content-sha256: " ++ CPLGetLowerCaseHexSHA256 pabyDataContent)
  /\ existsb (fun line => STARTS_WITH line "X-Amz-Security-Token: ") headers
     = negb (string_empty (m_osSessionToken h'))
  /\ existsb (fun line => STARTS_WITH line "x-amz-request-payer: ") headers
     = negb (string_empty (m_osRequestPayer h'))
  /\ existsb (fun line => STARTS_WITH line "Authorization: ") headers
     = negb (string_empty (m_osSecretAccessKey h')).
Proof.
  cbv zeta. unfold GetCurlHeaders.
  destruct (RefreshCredentials _ false h g) as [h' g'].
  cbv zeta. cbn [fst snd].
  rewrite (c_str_no_nul (CPLGetLowerCaseHexSHA256 pabyDataContent))
    by apply CPLGetLowerCaseHex_no_nul.
  destruct (string_empty (GetQueryString h' true)) eqn:Hq;
    [destruct (GetQueryString h' true); [|discriminate]|];
    cbn [negb string_empty];
    (destruct (string_empty (m_osSecretAccessKey h')) eqn:Hs;
     rewrite ?CPLGetAWS_SIGN4_Authorization_not_empty;
     destruct (string_empty (m_osSessionToken h'));
     destruct (string_empty (m_osRequestPayer h'));
     cbn [negb fst snd app string_empty];
     (split; [reflexivity|]); (split; [reflexivity|]);
     (split; [eexists; reflexivity|]);
     repeat split; reflexivity).
Qed.

End RequestHeaders.


(* --------------------------------------------------------------------- *)
(** ** The provider chain                                                 *)
(* --------------------------------------------------------------------- *)

(** With [AWS_NO_SIGN_REQUEST] set, or with a secret key given as an
    option, [GetConfiguration] reads no file, fetches no URL and looks at
    no clock: its result is the same on any two machines with the same
    options.  The globals are left as they are, the credentials are not of
    the temporary kind, and the call fails only for a secret key without
    access key id. *)
Theorem GetConfiguration_static {opts : Options}
    (files1 files2 : Files) (xml1 xml2 : XMLReader) (net1 net2 : Network)
    (clock1 clock2 : TimeLib) (platform1 platform2 : Platform)
    (tok1 tok2 : Tokenizer) (hash1 hash2 : HashPrimitives)
    (osPathForOption : string) (papszOptions : list string)
    (cs : CredentialStrings) (g : Globals) :
  CPLTestBool (VSIGetPathSpecificOption osPathForOption "AWS_NO_SIGN_REQUEST" "NO")
  = true
  \/ string_empty
       (option_value papszOptions osPathForOption "AWS_SECRET_ACCESS_KEY" "")
     = false ->
  let conf :=
    GetConfiguration (files := files1) (xml := xml1) (net := net1)
      (clock := clock1) (platform := platform1) (tok := tok1) (hash := hash1)
      osPathForOption papszOptions cs g in
  conf
  = GetConfiguration (files := files2) (xml := xml2) (net := net2)
      (clock := clock2) (platform := platform2) (tok := tok2) (hash := hash2)
      osPathForOption papszOptions cs g
  /\ cfg_globals conf = g
  /\ cfg_eCredentialsSource conf = REGULAR
  /\ (cfg_ret conf = false ->
      cfg_errors conf
      = [VSIError VSIE_AWSInvalidCredentials
           "AWS_ACCESS_KEY_ID configuration option not defined"]).
Proof.
  intros H. cbv zeta. unfold GetConfiguration.
  destruct (CPLTestBool
              (VSIGetPathSpecificOption osPathForOption "AWS_NO_SIGN_REQUEST" "NO")).
  - repeat split. discriminate.
  - destruct H as [H|H]; [discriminate H|]. rewrite H. cbn [negb].
    destruct (string_empty
                (option_value papszOptions osPathForOption "AWS_ACCESS_KEY_ID" ""));
      repeat split; discriminate.
Qed.

(** A secret key and an access key id passed as options, on a machine
    without network and on the pod of the web-identity scenario. *)
Lemma GetConfiguration_static_witness :
  let conf :=
    GetConfiguration (opts := no_options) (files := scenario_files "")
      (xml := scenario_xml) (net := offline_network) (clock := clock_at 0)
      (platform := not_ec2) (tok := no_tokens) (hash := no_hash)
      "/vsis3/b/k" ["AWS_SECRET_ACCESS_KEY=SECRET"; "AWS_ACCESS_KEY_ID=AKID"]
      (mkCredentialStrings "" "" "") initial_globals in
  cfg_credentials conf = mkCredentialStrings "SECRET" "AKID" ""
  /\ conf
     = GetConfiguration (opts := no_options) (files := token_files)
         (xml := sts_xml) (net := sts_network) (clock := clock_reading 1000 5000)
         (platform := not_ec2) (tok := no_tokens) (hash := no_hash)
         "/vsis3/b/k" ["AWS_SECRET_ACCESS_KEY=SECRET"; "AWS_ACCESS_KEY_ID=AKID"]
         (mkCredentialStrings "" "" "") initial_globals.
Proof.
  intro conf. split; [reflexivity|].
  apply (GetConfiguration_static (opts := no_options)
           (scenario_files "") token_files scenario_xml sts_xml
           offline_network sts_network (clock_at 0) (clock_reading 1000 5000)
           not_ec2 not_ec2 no_tokens no_tokens no_hash no_hash
           "/vsis3/b/k" ["AWS_SECRET_ACCESS_KEY=SECRET"; "AWS_ACCESS_KEY_ID=AKID"]
           (mkCredentialStrings "" "" "") initial_globals).
  right. reflexivity.
Defined.

Section UnsignedRequests.
Context {opts : Options} {files : Files} {xml : XMLReader} {net : Network}
        {clock : TimeLib} {platform : Platform} {tok : Tokenizer}
        {hash : HashPrimitives}.

(** With [AWS_NO_SIGN_REQUEST] set for the path of a URI, the handle
    [BuildFromURI] builds has no credentials and the globals are untouched;
    and the headers [GetCurlHeaders] then gives for it, whatever the cache
    holds, have no [Authorization] and no security-token line, the handle
    and the globals staying as they are. *)
Theorem no_sign_request_is_not_signed (pszURI pszFSPrefix : string)
    (bAllowNoObject : bool) (papszOptions : list string) (g : Globals)
    (h : VSIS3HandleHelper) (g' : Globals) (errors : list ErrorEvent) :
  CPLTestBool
    (VSIGetPathSpecificOption ("/vsis3/" ++ pszURI) "AWS_NO_SIGN_REQUEST" "NO")
  = true ->
  BuildFromURI (Some pszURI) pszFSPrefix bAllowNoObject papszOptions g
  = (Some h, g', errors) ->
  g' = g
  /\ handle_credentials h = mkCredentialStrings "" "" ""
  /\ forall (osVerb : string) (psExistingHeaders : list string)
            (pabyDataContent : string) (g2 : Globals),
       let r := GetCurlHeaders osVerb psExistingHeaders pabyDataContent h g2 in
       snd r = g2 /\ snd (fst r) = h
       /\ existsb (fun line => STARTS_WITH line "Authorization: ") (fst (fst r))
          = false
       /\ existsb (fun line => STARTS_WITH line "X-Amz-Security-Token: ")
            (fst (fst r))
          = false.
Proof.
  intros Hno. unfold BuildFromURI, GetConfiguration. rewrite Hno.
  cbn [cfg_ret cfg_globals cfg_errors cfg_credentials cfg_eCredentialsSource
       negb cs_osSecretAccessKey cs_osAccessKeyId cs_osSessionToken].
  destruct (negb (bk_ret _)); [discriminate|].
  intro E. injection E as Eh Eg _. subst g'. split; [reflexivity|].
  subst h. split; [reflexivity|].
  intros osVerb psExistingHeaders pabyDataContent g2. cbv zeta.
  unfold GetCurlHeaders, RefreshCredentials, new_VSIS3HandleHelper.
  cbn [m_eCredentialsSource m_osSecretAccessKey m_osSessionToken m_osRequestPayer
       string_empty negb fst snd].
  cbv zeta.
  destruct (string_empty (VSIGetPathSpecificOption _ "AWS_REQUEST_PAYER" ""));
    cbn [negb fst snd]; repeat split; reflexivity.
Qed.

End UnsignedRequests.

(** The public object [bucket/key], read without network. *)
Lemma no_sign_request_is_not_signed_witness :
  let built :=
    BuildFromURI (opts := no_sign_options) (files := scenario_files "")
      (xml := scenario_xml) (net := offline_network) (clock := clock_at 0)
      (platform := not_ec2) (tok := no_tokens) (hash := no_hash)
      (Some "bucket/key") "/vsis3/" false [] (cache_until 900) in
  exists h,
    built = (Some h, cache_until 900, [])
    /\ m_osURL h = "https://bucket.s3.amazonaws.com/key"
    /\ snd (GetCurlHeaders (opts := no_sign_options) (files := scenario_files "")
              (xml := scenario_xml) (net := offline_network) (clock := clock_at 0)
              (platform := not_ec2) (tok := no_tokens) (hash := no_hash)
              "GET" [] "" h (cache_until 900))
       = cache_until 900.
Proof.
  intro built.
  eexists. split; [reflexivity|]. split; [reflexivity|].
  eapply (no_sign_request_is_not_signed (opts := no_sign_options)
            (files := scenario_files "") (xml := scenario_xml)
            (net := offline_network) (clock := clock_at 0) (platform := not_ec2)
            (tok := no_tokens) (hash := no_hash)
            "bucket/key" "/vsis3/" false [] (cache_until 900)).
  - reflexivity.
  - reflexivity.
Defined.


(* --------------------------------------------------------------------- *)
(** ** The credentials file                                               *)
(* --------------------------------------------------------------------- *)

Section CredentialsFileProperties.
Context {files : Files}.

Lemma ReadAWSCredentials_loop_in_profile (lines : list string) (hdr : string)
    (st : string * string * string) :
  ReadAWSCredentials_loop lines hdr true st
  = fold_left credentials_entry (parsed_entries (section_body lines)) st.
Proof.
  revert st. induction lines as [|l rest IH]; intro st.
  - reflexivity.
  - cbn [ReadAWSCredentials_loop section_body].
    destruct (Ascii.eqb (cstr_at l 0) "["); [reflexivity|].
    destruct st as [[s a] t]. rewrite IH. cbn [parsed_entries].
    destruct (CPLParseNameValue l) as [[k v]|]; reflexivity.
Qed.

Lemma ReadAWSCredentials_loop_section (lines : list string) (hdr : string)
    (st : string * string * string) :
  ReadAWSCredentials_loop lines hdr false st
  = fold_left credentials_entry
      (parsed_entries (profile_section (fun l => String.eqb l hdr) lines)) st.
Proof.
  induction lines as [|l rest IH].
  - reflexivity.
  - cbn [ReadAWSCredentials_loop profile_section].
    destruct (Ascii.eqb (cstr_at l 0) "[").
    + destruct (String.eqb l hdr).
      * apply ReadAWSCredentials_loop_in_profile.
      * exact IH.
    + exact IH.
Qed.

Lemma section_body_stops (body rest : list string) :
  forallb (fun l => negb (Ascii.eqb (cstr_at l 0) "[")) body = true ->
  match rest with
  | [] => true
  | l :: _ => Ascii.eqb (cstr_at l 0) "["
  end = true ->
  section_body (body ++ rest) = body.
Proof.
  intros Hb Hr. induction body as [|l body IH].
  - destruct rest as [|l r]; [reflexivity|]. cbn [app section_body].
    now rewrite Hr.
  - cbn [forallb] in Hb. apply andb_true_iff in Hb. destruct Hb as [Hl Hb].
    apply negb_true_iff in Hl.
    cbn [app section_body]. now rewrite Hl, (IH Hb).
Qed.

Lemma profile_section_first (pre body rest : list string) (hdr : string) :
  Ascii.eqb (cstr_at hdr 0) "[" = true ->
  forallb (fun l => negb (String.eqb l hdr)) pre = true ->
  forallb (fun l => negb (Ascii.eqb (cstr_at l 0) "[")) body = true ->
  match rest with
  | [] => true
  | l :: _ => Ascii.eqb (cstr_at l 0) "["
  end = true ->
  profile_section (fun l => String.eqb l hdr) (pre ++ hdr :: body ++ rest) = body.
Proof.
  intros Hh Hp Hb Hr. induction pre as [|l pre IH].
  - cbn [app profile_section]. rewrite Hh, String.eqb_refl.
    apply section_body_stops; assumption.
  - cbn [forallb] in Hp. apply andb_true_iff in Hp. destruct Hp as [Hl Hp].
    apply negb_true_iff in Hl.
    cbn [app profile_section]. rewrite Hl, (IH Hp).
    destruct (Ascii.eqb (cstr_at l 0) "["); reflexivity.
Qed.

(** [ReadAWSCredentials] reads the first section headed by the profile and
    nothing else: the lines before its header, and everything from the
    next header on (a second section of the same name included), do not
    count.  The strings are those the entries of that section assign, a
    later entry replacing an earlier one, and the flag tells that both the
    secret key and the access key id were found. *)
Theorem ReadAWSCredentials_first_section
    (pre body rest : list string) (osProfile osCredentials : string) :
  read_lines osCredentials
  = Some (pre ++ ("[" ++ osProfile ++ "]")%string :: body ++ rest)%list ->
  forallb (fun l => negb (String.eqb l ("[" ++ osProfile ++ "]"))) pre = true ->
  forallb (fun l => negb (Ascii.eqb (cstr_at l 0) "[")) body = true ->
  match rest with
  | [] => true
  | l :: _ => Ascii.eqb (cstr_at l 0) "["
  end = true ->
  let st := fold_left credentials_entry (parsed_entries body) ("", "", "") in
  ReadAWSCredentials osProfile osCredentials
  = (negb (string_empty (fst (fst st))) && negb (string_empty (snd (fst st))), st).
Proof.
  intros Hread Hp Hb Hr. cbv zeta. unfold ReadAWSCredentials. rewrite Hread.
  rewrite ReadAWSCredentials_loop_section.
  rewrite (profile_section_first pre body rest ("[" ++ osProfile ++ "]")
             eq_refl Hp Hb Hr).
  destruct (fold_left credentials_entry (parsed_entries body) ("", "", ""))
    as [[s a] t].
  reflexivity.
Qed.

End CredentialsFileProperties.

(** The profile [default] of a file with two profiles and a repeated
    section. *)
Lemma ReadAWSCredentials_first_section_witness :
  ReadAWSCredentials (files := two_profiles_files) "default"
    "/home/u/.aws/credentials"
  = (true, ("SECRET", "AKID", "")).
Proof.
  apply (ReadAWSCredentials_first_section (files := two_profiles_files)
           ["# keys"; "[other]"; "aws_access_key_id = OTHER"]
           ["aws_access_key_id = FIRST"; "aws_secret_access_key = SECRET";
            "aws_access_key_id = AKID"]
           ["[default]"; "aws_access_key_id = LATER"]
           "default" "/home/u/.aws/credentials");
    reflexivity.
Defined.


(* --------------------------------------------------------------------- *)
(** ** Time stamps                                                        *)
(* --------------------------------------------------------------------- *)

Lemma all_below_spec (n : nat) (p : Z -> bool) :
  all_below n p = true -> forall z, 0 <= z < Z.of_nat n -> p z = true.
Proof.
  induction n as [|k IH]; intros H z Hz; [lia|].
  cbn [all_below] in H. apply andb_true_iff in H. destruct H as [Hk Hr].
  destruct (Z.eq_dec z (Z.of_nat k)) as [E|NE].
  - now subst z.
  - apply (IH Hr). lia.
Qed.

Lemma printf_0d_2_length (n : Z) :
  0 <= n < 100 -> String.length (printf_0d 2 n) = 2%nat.
Proof.
  intro H.
  apply Nat.eqb_eq.
  apply (all_below_spec 100
           (fun z => Nat.eqb (String.length (printf_0d 2 z)) 2)); [|exact H].
  vm_compute. reflexivity.
Qed.

Lemma printf_0d_4_length (n : Z) :
  0 <= n < 10000 -> String.length (printf_0d 4 n) = 4%nat.
Proof.
  intro H.
  apply Nat.eqb_eq.
  apply (all_below_spec (Z.to_nat 10000)
           (fun z => Nat.eqb (String.length (printf_0d 4 z)) 4)); [|lia].
  vm_compute. reflexivity.
Qed.

Section TimestampProperties.
Context {clock : TimeLib}.

(** For a broken-down time within the calendar (a year of four digits,
    the other fields of two), the time stamp has the 16 characters of
    [YYYYMMDDTHHMMSSZ], and the date the signature takes from it, its
    first 8 bytes, is the year, the month and the day: nothing is cut and
    nothing is padded. *)
Theorem CPLGetAWS_SIGN4_Timestamp_date (timestamp : Z) :
  let t := CPLUnixTimeToYMDHMS timestamp in
  0 <= tm_year t + 1900 < 10000 ->
  0 <= tm_mon t + 1 < 100 -> 0 <= tm_mday t < 100 ->
  0 <= tm_hour t < 100 -> 0 <= tm_min t < 100 -> 0 <= tm_sec t < 100 ->
  String.length (CPLGetAWS_SIGN4_Timestamp timestamp) = 16%nat
  /\ SIGN4_YYMMDD (CPLGetAWS_SIGN4_Timestamp timestamp)
     = printf_0d 4 (tm_year t + 1900) ++ printf_0d 2 (tm_mon t + 1)
       ++ printf_0d 2 (tm_mday t).
Proof.
  cbv zeta. intros Hy Hm Hd Hh Hmi Hs.
  unfold CPLGetAWS_SIGN4_Timestamp, SIGN4_YYMMDD.
  pose proof (printf_0d_4_length _ Hy) as Ly.
  pose proof (printf_0d_2_length _ Hm) as Lm.
  pose proof (printf_0d_2_length _ Hd) as Ld.
  pose proof (printf_0d_2_length _ Hh) as Lh.
  pose proof (printf_0d_2_length _ Hmi) as Lmi.
  pose proof (printf_0d_2_length _ Hs) as Ls.
  set (Y := printf_0d 4 _) in *. set (M := printf_0d 2 (tm_mon _ + 1)) in *.
  set (D := printf_0d 2 (tm_mday _)) in *. set (H := printf_0d 2 (tm_hour _)) in *.
  set (Mi := printf_0d 2 (tm_min _)) in *. set (S := printf_0d 2 (tm_sec _)) in *.
  split.
  - rewrite !append_length, Ly, Lm, Ld, Lh, Lmi, Ls. reflexivity.
  - replace (Y ++ M ++ D ++ "T" ++ H ++ Mi ++ S ++ "Z")
      with ((Y ++ M ++ D) ++ ("T" ++ H ++ Mi ++ S ++ "Z"))
      by (rewrite !append_assoc; reflexivity).
    replace 8%nat with (String.length (Y ++ M ++ D))
      by (rewrite !append_length, Ly, Lm, Ld; reflexivity).
    apply string_resize_app.
Qed.

End TimestampProperties.

(** The first second of 1970. *)
Lemma CPLGetAWS_SIGN4_Timestamp_date_witness :
  CPLGetAWS_SIGN4_Timestamp (clock := clock_at 0) 0 = "19700101T000000Z"
  /\ SIGN4_YYMMDD (CPLGetAWS_SIGN4_Timestamp (clock := clock_at 0) 0) = "19700101".
Proof.
  split; [reflexivity|].
  apply (CPLGetAWS_SIGN4_Timestamp_date (clock := clock_at 0) 0);
    cbn; lia.
Defined.


(* --------------------------------------------------------------------- *)
(** ** Signed headers                                                     *)
(* --------------------------------------------------------------------- *)

Lemma map_set_keys_not_empty (k v : string) (m : StringMap) :
  string_empty k = false -> keys_not_empty m = true ->
  keys_not_empty (map_set k v m) = true.
Proof.
  intros Hk. unfold keys_not_empty.
  induction m as [|[k0 v0] rest IH]; intro Hm.
  - cbn. now rewrite Hk.
  - cbn [forallb fst] in Hm. apply andb_true_iff in Hm. destruct Hm as [H0 Hr].
    cbn [map_set]. destruct (String.compare k k0); cbn [forallb fst].
    + now rewrite H0, Hr.
    + now rewrite Hk, H0, Hr.
    + now rewrite H0, (IH Hr).
Qed.

Lemma map_set_In_other (k v k0 v0 : string) (m : StringMap) :
  k <> k0 -> In (k0, v0) m -> In (k0, v0) (map_set k v m).
Proof.
  intros Hne. induction m as [|[k1 v1] rest IH]; intro Hin.
  - destruct Hin.
  - cbn [map_set]. destruct (String.compare k k1) eqn:E.
    + apply compare_eq in E. subst k1.
      destruct Hin as [Hin|Hin]; [congruence | now right].
    + now right.
    + destruct Hin as [Hin|Hin]; [now left | right; now apply IH].
Qed.

Lemma map_set_In_new (k v : string) (m : StringMap) : In (k, v) (map_set k v m).
Proof.
  induction m as [|[k1 v1] rest IH].
  - now left.
  - cbn [map_set]. destruct (String.compare k k1) eqn:E.
    + apply compare_eq in E. subst k1. now left.
    + now left.
    + now right.
Qed.

(** The name of a header that is folded in starts with ['x'] or ['c']: it
    is neither empty nor [host]. *)
Lemma header_entry_key (data k v : string) :
  header_entry "x-amz-" data = Some (k, v) ->
  string_empty k = false /\ k <> "host".
Proof.
  unfold header_entry.
  destruct (STARTS_WITH_CI data "x-amz-" || STARTS_WITH_CI data "Content-MD5")
    eqn:Hc; [|discriminate].
  destruct (string_find ":" data) as [n|] eqn:Hf; [|discriminate].
  intro E. injection E as Ek _. subst k.
  destruct data as [|c rest]; [discriminate Hf|].
  destruct n as [|n].
  - cbn [string_find] in Hf.
    destruct (Ascii.eqb_spec c ":") as [Ec|Ec].
    + subst c. discriminate Hc.
    + destruct (string_find ":" rest); discriminate Hf.
  - cbn [string_resize CPLString_tolower string_map string_empty].
    split; [reflexivity|].
    intro E. injection E as Eh _.
    unfold STARTS_WITH_CI, EQUALN, CPLString_tolower in Hc.
    cbn [String.length string_take string_map String.eqb] in Hc.
    rewrite Eh in Hc. discriminate Hc.
Qed.

Lemma folded_headers_keys (l : list string) :
  Forall (fun e => string_empty (fst e) = false /\ fst e <> "host")
    (folded_headers "x-amz-" l).
Proof.
  induction l as [|data l IH]; [constructor|].
  cbn [folded_headers].
  destruct (header_entry "x-amz-" data) as [[k v]|] eqn:E; [|exact IH].
  constructor; [|exact IH]. exact (header_entry_key data k v E).
Qed.

Lemma map_set_all_keeps (entries : list (string * string)) (m : StringMap)
    (k0 v0 : string) :
  Forall (fun e => string_empty (fst e) = false /\ fst e <> k0) entries ->
  keys_not_empty m = true -> In (k0, v0) m ->
  keys_not_empty (map_set_all entries m) = true
  /\ In (k0, v0) (map_set_all entries m).
Proof.
  intro H. revert m. induction H as [|[k v] rest [Hk Hne] _ IH]; intros m Hm Hin.
  - split; assumption.
  - cbn [map_set_all]. cbn [fst] in Hk, Hne. apply IH.
    + now apply map_set_keys_not_empty.
    + now apply map_set_In_other.
Qed.

Lemma concat_cons (k : string) (l : list string) :
  String.concat ";" (k :: l)
  = k ++ String.concat "" (map (fun x => ";" ++ x) l).
Proof.
  revert k. induction l as [|x l IH]; intro k.
  - cbn. now rewrite append_nil_r.
  - change (String.concat ";" (k :: x :: l))
      with (k ++ ";" ++ String.concat ";" (x :: l)).
    rewrite IH. cbn [map].
    destruct l as [|y l].
    + cbn. now rewrite !append_nil_r.
    + change (String.concat "" ((";" ++ x) :: map (fun x => ";" ++ x) (y :: l)))
        with ((";" ++ x) ++ "" ++ String.concat "" (map (fun x => ";" ++ x) (y :: l))).
      cbn [append]. reflexivity.
Qed.

Lemma signed_headers_loop_acc (m : StringMap) (acc : string) :
  string_empty acc = false ->
  signed_headers_loop m acc
  = acc ++ String.concat "" (map (fun x => ";" ++ x) (map fst m)).
Proof.
  revert acc. induction m as [|[k v] rest IH]; intros acc Hacc.
  - cbn. now rewrite append_nil_r.
  - cbn [signed_headers_loop]. cbv zeta. rewrite Hacc. cbn [negb].
    rewrite IH.
    + cbn [map fst]. rewrite !append_assoc. f_equal.
      destruct (map fst rest) as [|y l].
      * cbn. now rewrite !append_nil_r.
      * change (String.concat "" ((";" ++ k) :: map (fun x => ";" ++ x) (y :: l)))
          with ((";" ++ k) ++ "" ++ String.concat "" (map (fun x => ";" ++ x) (y :: l))).
        cbn [append]. reflexivity.
    + destruct acc; [discriminate Hacc | reflexivity].
Qed.

Lemma signed_headers_loop_join (m : StringMap) :
  keys_not_empty m = true ->
  signed_headers_loop m "" = String.concat ";" (map fst m).
Proof.
  destruct m as [|[k v] rest]; intro H; [reflexivity|].
  unfold keys_not_empty in H. cbn [forallb fst] in H.
  apply andb_true_iff in H. destruct H as [Hk _]. apply negb_true_iff in Hk.
  cbn [signed_headers_loop]. cbv zeta. cbn [string_empty negb append].
  rewrite (signed_headers_loop_acc rest k Hk). cbn [map fst].
  symmetry. apply concat_cons.
Qed.

(** The canonical request and the signed headers name the same headers.
    There is a map of header names to values, its names in increasing
    order and none of them empty, that holds [host] with the host given;
    the signed headers are its names joined by [';'], and the canonical
    request is the verb, the URI, the query string, one ["name:value"]
    line per entry of the map, an empty line, the signed headers and the
    hash of the payload.  No existing header can replace the host. *)
Theorem SIGN4_CanonicalRequest_headers
    (osAccessToken osRequestPayer osVerb : string)
    (psExistingHeaders : list string)
    (osHost osCanonicalURI osCanonicalQueryString osXAMZContentSHA256 : string)
    (bAddHeaderAMZContentSHA256 : bool) (osTimestamp : string) :
  let r :=
    SIGN4_CanonicalRequest osAccessToken osRequestPayer osVerb psExistingHeaders
      osHost osCanonicalURI osCanonicalQueryString osXAMZContentSHA256
      bAddHeaderAMZContentSHA256 osTimestamp in
  exists m : StringMap,
    keys_sorted m = true
    /\ keys_not_empty m = true
    /\ In ("host", osHost) m
    /\ snd r = String.concat ";" (map fst m)
    /\ fst r
       = osVerb ++ nl ++ osCanonicalURI ++ nl ++ osCanonicalQueryString ++ nl
         ++ canonical_text m ++ nl ++ snd r ++ nl ++ osXAMZContentSHA256.
Proof.
  cbv zeta. unfold SIGN4_CanonicalRequest, BuildCanonicalizedHeaders.
  cbv zeta. rewrite fold_existing_headers, canonical_lines_text.
  set (m0 := if negb (string_empty osAccessToken) then _ else _).
  assert (H0 : keys_sorted m0 = true /\ keys_not_empty m0 = true
               /\ In ("host", osHost) m0).
  { subst m0.
    repeat match goal with
           | |- context [if ?c then _ else _] => destruct c
           end;
      repeat split;
      repeat first [ apply map_set_sorted
                   | apply map_set_keys_not_empty; [reflexivity|]
                   | apply map_set_In_other; [discriminate|] ];
      try reflexivity; apply map_set_In_new. }
  destruct H0 as [Hs [Hk Hin]].
  destruct (map_set_all_keeps (folded_headers "x-amz-" psExistingHeaders) m0
              "host" osHost (folded_headers_keys psExistingHeaders) Hk Hin)
    as [Hk' Hin'].
  exists (map_set_all (folded_headers "x-amz-" psExistingHeaders) m0).
  cbn [fst snd].
  split; [apply map_set_all_sorted, Hs|].
  split; [exact Hk'|]. split; [exact Hin'|].
  split; [apply signed_headers_loop_join, Hk'|].
  cbn [append]. rewrite !append_assoc. reflexivity.
Qed.


(* --------------------------------------------------------------------- *)
(** ** The entries [ParseSimpleJson] returns                              *)
(* --------------------------------------------------------------------- *)

Lemma SetNameValue_found_entries (l l' : list string) (key : string)
    (value : option string) :
  SetNameValue_found l key value = Some l' ->
  (forall e, In e l' ->
             In e l \/ exists v, value = Some v /\ e = key ++ "=" ++ v)
  /\ (List.length l' <= List.length l)%nat.
Proof.
  revert l'. induction l as [|entry rest IH]; intros l' H.
  - discriminate H.
  - cbn [SetNameValue_found] in H.
    destruct (entry_has_name entry key).
    + injection H as H. subst l'. destruct value as [v|].
      * split; [|cbn; lia].
        intros e [He|He];
          [right; exists v; split; [reflexivity | now symmetry] | left; now right].
      * split; [|cbn; lia]. intros e He. left. now right.
    + destruct (SetNameValue_found rest key value) as [r|]; [|discriminate H].
      injection H as H. subst l'. destruct (IH r eq_refl) as [IH1 IH2].
      split; [|cbn; lia].
      intros e [He|He]; [left; now left|].
      destruct (IH1 e He) as [Hr|Hn]; [left; now right | now right].
Qed.

Lemma SetNameValue_entries (l : list string) (key value : option string) :
  (forall e, In e (SetNameValue l key value) ->
             In e l \/ exists k v, key = Some k /\ value = Some v
                                   /\ e = k ++ "=" ++ v)
  /\ (List.length (SetNameValue l key value)
      <= List.length l + match value with Some _ => 1 | None => 0 end)%nat.
Proof.
  unfold SetNameValue. destruct key as [k|]; [|split; [now left | lia]].
  destruct (SetNameValue_found l k value) as [l'|] eqn:E.
  - destruct (SetNameValue_found_entries l l' k value E) as [H1 H2].
    split; [|lia].
    intros e He. destruct (H1 e He) as [H|[v [Hv Hev]]]; [now left|].
    right. now exists k, v.
  - destruct value as [v|]; [|split; [now left | lia]].
    split; [|rewrite length_app; cbn; lia].
    intros e He. apply in_app_or in He. destruct He as [He|[He|[]]].
    + now left.
    + right. now exists k, v.
Qed.

Lemma ParseSimpleJson_loop_entries (oWords : list string) :
  forall k i st, (List.length oWords - i <= k)%nat -> Nat.even i = true ->
    Forall (paired_entry oWords) (snd st) ->
    (2 * List.length (snd st) <= i)%nat ->
    (2 * List.length (snd st) <= List.length oWords)%nat ->
    Forall (paired_entry oWords) (snd (ParseSimpleJson_loop oWords i st))
    /\ (2 * List.length (snd (ParseSimpleJson_loop oWords i st))
        <= List.length oWords)%nat.
Proof.
  induction k as [|k IH]; intros i st Hk Hev Hst Hi Hn;
    rewrite ParseSimpleJson_loop_step;
    destruct (Nat.ltb_spec i (List.length oWords)) as [Hlt|Hge];
    try (split; assumption); try lia.
  destruct (SetNameValue_entries (snd st) (CPLStringList_at oWords i)
              (CPLStringList_at oWords (i + 1))) as [H1 H2].
  assert (Hv : match CPLStringList_at oWords (i + 1) with
               | Some _ => (i + 2 <= List.length oWords)%nat
               | None => True
               end).
  { unfold CPLStringList_at.
    destruct (nth_error oWords (i + 1)) eqn:E; [|exact I].
    assert (i + 1 < List.length oWords)%nat
      by (apply nth_error_Some; congruence).
    lia. }
  apply IH; cbn [snd].
  - lia.
  - replace (i + 2)%nat with (S (S i)) by lia. exact Hev.
  - apply Forall_forall. intros e He.
    destruct (H1 e He) as [Hold|[name [value [Hname [Hvalue Hentry]]]]].
    + rewrite Forall_forall in Hst. now apply Hst.
    + exists i, name, value. repeat split; assumption.
  - destruct (CPLStringList_at oWords (i + 1)); lia.
  - destruct (CPLStringList_at oWords (i + 1)); lia.
Qed.

Section SimpleJsonProperties.
Context {tok : Tokenizer}.

(** Every entry [ParseSimpleJson] returns is ["name=value"] for two tokens
    of the text that follow each other, the name at an even place: nothing
    is made up.  A last token without a partner adds no entry, so there are
    at most half as many entries as tokens. *)
Theorem ParseSimpleJson_entries_are_pairs (pszJson : string) :
  let oWords := CSLTokenizeString2 pszJson json_delimiters CSLT_HONOURSTRINGS in
  Forall (paired_entry oWords) (ParseSimpleJson pszJson)
  /\ (2 * List.length (ParseSimpleJson pszJson) <= List.length oWords)%nat.
Proof.
  cbv zeta. unfold ParseSimpleJson, ParseSimpleJson_run.
  apply (ParseSimpleJson_loop_entries _ (List.length
           (CSLTokenizeString2 pszJson json_delimiters CSLT_HONOURSTRINGS)));
    cbn [snd List.length]; try lia; [reflexivity | constructor].
Qed.

End SimpleJsonProperties.


(* --------------------------------------------------------------------- *)
(** ** Signed URLs                                                        *)
(* --------------------------------------------------------------------- *)

(** The query parameters of a signed URL, its signature apart, for a handle
    with these credentials and this region. *)
Lemma SignedURL_parameters_map (d e : string) (h : VSIS3HandleHelper) :
  m_oMapQueryParameters (SignedURL_parameters d e h)
  = ([("X-Amz-Algorithm", "AWS4-HMAC-SHA256");
      ("X-Amz-Credential",
       ((((m_osAccessKeyId h ++ "/") ++ string_resize 8 d) ++ "/")
        ++ m_osRegion h ++ "/s3/aws4_request")%string);
      ("X-Amz-Date", d);
      ("X-Amz-Expires", e)]
     ++ (if string_empty (m_osSessionToken h) then []
         else [("X-Amz-Security-Token", m_osSessionToken h)])
     ++ [("X-Amz-SignedHeaders", "host")])%list.
Proof.
  destruct h as [u s a t en rg p b k https vh src m0].
  unfold SignedURL_parameters. cbv zeta.
  cbn [AddQueryParameter ResetQueryParameters RebuildURL set_m_osURL
       set_m_oMapQueryParameters m_osSessionToken m_osAccessKeyId
       m_osRegion m_oMapQueryParameters].
  destruct (string_empty t); reflexivity.
Qed.

Lemma AddQueryParameter_fields (k v : string) (h : VSIS3HandleHelper) :
  let h' := AddQueryParameter k v h in
  m_oMapQueryParameters h' = map_set k v (m_oMapQueryParameters h)
  /\ handle_credentials h' = handle_credentials h
  /\ m_osRegion h' = m_osRegion h
  /\ m_osEndpoint h' = m_osEndpoint h
  /\ m_osRequestPayer h' = m_osRequestPayer h
  /\ m_osBucket h' = m_osBucket h
  /\ m_osObjectKey h' = m_osObjectKey h
  /\ m_bUseVirtualHosting h' = m_bUseVirtualHosting h.
Proof. cbv zeta. repeat split. Qed.

Section SignedURLProperties.
Context {opts : Options} {files : Files} {xml : XMLReader} {net : Network}
        {clock : TimeLib} {platform : Platform} {tok : Tokenizer}
        {hash : HashPrimitives} {reader : StartDateReader}.

(** The signature depends on the handle through its secret key, region,
    request payer, host, URI and query parameters only. *)
Lemma SignedURL_signature_ext (v d : string) (h1 h2 : VSIS3HandleHelper) :
  m_osSecretAccessKey h1 = m_osSecretAccessKey h2 ->
  m_osRegion h1 = m_osRegion h2 ->
  m_osRequestPayer h1 = m_osRequestPayer h2 ->
  m_osBucket h1 = m_osBucket h2 ->
  m_osEndpoint h1 = m_osEndpoint h2 ->
  m_osObjectKey h1 = m_osObjectKey h2 ->
  m_bUseVirtualHosting h1 = m_bUseVirtualHosting h2 ->
  m_oMapQueryParameters h1 = m_oMapQueryParameters h2 ->
  SignedURL_signature v d h1 = SignedURL_signature v d h2.
Proof.
  intros E1 E2 E3 E4 E5 E6 E7 E8.
  unfold SignedURL_signature, signing_host, signing_canonical_URI, GetQueryString.
  now rewrite E1, E2, E3, E4, E5, E6, E7, E8.
Qed.

Lemma SignedURL_finish_outcome (v d e : string) (h1 : VSIS3HandleHelper)
    (g1 : Globals) :
  let r := SignedURL_finish v d e h1 g1 in
  let h' := su_handle r in
  su_errors r = [] /\ su_ret r = m_osURL h' /\ su_globals r = g1
  /\ handle_credentials h' = handle_credentials h1
  /\ exists (osSignature : string) (m : StringMap),
       m = ([("X-Amz-Algorithm", "AWS4-HMAC-SHA256");
             ("X-Amz-Credential",
              ((((m_osAccessKeyId h' ++ "/") ++ string_resize 8 d) ++ "/")
               ++ m_osRegion h' ++ "/s3/aws4_request")%string);
             ("X-Amz-Date", d);
             ("X-Amz-Expires", e)]
            ++ (if string_empty (m_osSessionToken h') then []
                else [("X-Amz-Security-Token", m_osSessionToken h')])
            ++ [("X-Amz-SignedHeaders", "host")])%list
       /\ m_oMapQueryParameters h' = map_set "X-Amz-Signature" osSignature m
       /\ osSignature = SignedURL_signature v d (set_m_oMapQueryParameters m h').
Proof.
  cbv zeta. unfold SignedURL_finish. cbv zeta.
  cbn [su_errors su_ret su_globals su_handle].
  pose proof (SignedURL_parameters_fields d e h1) as F. cbv zeta in F.
  pose proof (SignedURL_parameters_map d e h1) as M.
  revert F M. generalize (SignedURL_parameters d e h1) as h2. intros h2 F M.
  pose proof (AddQueryParameter_fields "X-Amz-Signature"
                (SignedURL_signature v d h2) h2) as A.
  cbv zeta in A. revert A.
  generalize (AddQueryParameter "X-Amz-Signature"
                (SignedURL_signature v d h2) h2) as h3.
  intros h3 A.
  destruct F as [Fb [Fk [_ [_ [Fc [Fr [Fe [Fp Fv]]]]]]]].
  destruct A as [Am [Ac [Ar [Ae [Ap [Ab [Ak Av]]]]]]].
  assert (Hc : handle_credentials h3 = handle_credentials h1) by congruence.
  unfold handle_credentials in Hc, Ac. injection Hc as Hs Ha Ht.
  injection Ac as As _ _.
  split; [reflexivity|]. split; [reflexivity|]. split; [reflexivity|].
  split; [unfold handle_credentials; congruence|].
  exists (SignedURL_signature v d h2), (m_oMapQueryParameters h2).
  split; [rewrite Ha, Ht, Ar, Fr; exact M|].
  split; [exact Am|].
  apply SignedURL_signature_ext; cbn; congruence.
Qed.

(** The outcomes of [GetSignedURL].  Either the start date could not be
    read, for credentials that expire: the result is empty, one error is
    reported, and the handle and the globals are as they were.  Or no
    error is reported and the string returned is the URL of the handle,
    whose query parameters are now those of a signed URL and no other,
    whatever they were before: algorithm, credential (access key id, the
    first 8 bytes of the date, region), date, expiry, the session token if
    there is one, signed headers, and the signature, which is the SigV4
    signature of the request with the other parameters as its query
    string.  For credentials that do not expire the globals and the
    credentials of the handle are untouched. *)
Theorem GetSignedURL_outcome (papszOptions : list string) (h : VSIS3HandleHelper)
    (g : Globals) :
  let r := GetSignedURL papszOptions h g in
  let h' := su_handle r in
  (su_ret r = "" /\ h' = h /\ su_globals r = g
   /\ su_errors r = [CPLError CE_Failure CPLE_AppDefined "Bad format for START_DATE"]
   /\ m_eCredentialsSource h <> REGULAR)
  \/ (su_errors r = [] /\ su_ret r = m_osURL h'
      /\ (m_eCredentialsSource h = REGULAR ->
          su_globals r = g /\ handle_credentials h' = handle_credentials h)
      /\ exists (osXAMZDate osXAMZExpires osSignature : string) (m : StringMap),
           m = ([("X-Amz-Algorithm", "AWS4-HMAC-SHA256");
                 ("X-Amz-Credential",
                  ((((m_osAccessKeyId h' ++ "/") ++ string_resize 8 osXAMZDate)
                    ++ "/") ++ m_osRegion h' ++ "/s3/aws4_request")%string);
                 ("X-Amz-Date", osXAMZDate);
                 ("X-Amz-Expires", osXAMZExpires)]
                ++ (if string_empty (m_osSessionToken h') then []
                    else [("X-Amz-Security-Token", m_osSessionToken h')])
                ++ [("X-Amz-SignedHeaders", "host")])%list
           /\ m_oMapQueryParameters h' = map_set "X-Amz-Signature" osSignature m
           /\ osSignature
              = SignedURL_signature
                  (CSLFetchNameValueDef papszOptions "VERB" "GET") osXAMZDate
                  (set_m_oMapQueryParameters m h')).
Proof.
  cbv zeta.
  match goal with |- ?G =>
    match eval pattern (GetSignedURL papszOptions h g) in G with
    | ?P _ => set (outcome := P);
              change (outcome (GetSignedURL papszOptions h g))
    end
  end.
  unfold GetSignedURL. cbv zeta.
  set (path := (("/vsis3/" ++ m_osBucket h) ++ "/") ++ m_osObjectKey h).
  set (d := if string_empty _ then _ else _).
  set (e := CSLFetchNameValueDef papszOptions "EXPIRATION_DELAY" "3600").
  assert (K : forall h1 g1,
             (m_eCredentialsSource h = REGULAR -> h1 = h /\ g1 = g) ->
             outcome (SignedURL_finish
                        (CSLFetchNameValueDef papszOptions "VERB" "GET") d e h1 g1)).
  { intros h1 g1 Hreg. subst outcome. cbv beta. right.
    pose proof (SignedURL_finish_outcome
                  (CSLFetchNameValueDef papszOptions "VERB" "GET") d e h1 g1) as O.
    cbv zeta in O.
    destruct O as [O1 [O2 [O3 [O4 [sig [m [O5 [O6 O7]]]]]]]].
    split; [exact O1|]. split; [exact O2|]. split.
    - intro E. destruct (Hreg E) as [E1 E2]. rewrite O3, O4, E1, E2.
      split; reflexivity.
    - exists d, e, sig, m. split; [exact O5|]. split; [exact O6 | exact O7]. }
  destruct (m_eCredentialsSource h) eqn:Esrc.
  - apply K. intros _. split; reflexivity.
  - destruct (sscanf_timestamp _) as [[[[[[y mo] dd] hh] mi] ss]|].
    + destruct (_ <=? _).
      * destruct (RefreshCredentials path true h g) as [h1 g1].
        apply K. discriminate.
      * apply K. discriminate.
    + subst outcome. cbv beta. left. cbn. repeat split. discriminate.
  - destruct (sscanf_timestamp _) as [[[[[[y mo] dd] hh] mi] ss]|].
    + destruct (_ <=? _).
      * destruct (RefreshCredentials path true h g) as [h1 g1].
        apply K. discriminate.
      * apply K. discriminate.
    + subst outcome. cbv beta. left. cbn. repeat split. discriminate.
  - destruct (sscanf_timestamp _) as [[[[[[y mo] dd] hh] mi] ss]|].
    + destruct (_ <=? _).
      * destruct (RefreshCredentials path true h g) as [h1 g1].
        apply K. discriminate.
      * apply K. discriminate.
    + subst outcome. cbv beta. left. cbn. repeat split. discriminate.
Qed.

End SignedURLProperties.


(* --------------------------------------------------------------------- *)
(** ** The query string that is signed                                    *)
(* --------------------------------------------------------------------- *)

Lemma GetQueryString_loop_flag (m : StringMap) (first : bool) (acc : string) :
  values_not_empty m = true ->
  GetQueryString_loop true first m acc = GetQueryString_loop false first m acc.
Proof.
  revert first acc. induction m as [|[k v] rest IH]; intros first acc H.
  - reflexivity.
  - unfold values_not_empty in H. cbn [forallb snd] in H.
    apply andb_true_iff in H. destruct H as [Hv Hr].
    cbn [GetQueryString_loop]. cbv zeta. rewrite Hv. cbn [orb].
    apply IH, Hr.
Qed.

(** When no query parameter has an empty value, the query string of the
    URL is the one that is signed: the flag of [GetQueryString] makes no
    difference, and the URL holds ['?'] and the signed query string, or
    nothing when there is no parameter. *)
Theorem signed_query_is_URL_query (h : VSIS3HandleHelper) :
  values_not_empty (m_oMapQueryParameters h) = true ->
  GetQueryString h true = GetQueryString h false
  /\ GetQueryString h false
     = match m_oMapQueryParameters h with
       | [] => ""
       | _ :: _ => "?" ++ signing_query_string h
       end.
Proof.
  intro H.
  assert (E : GetQueryString h true = GetQueryString h false)
    by (unfold GetQueryString; now apply GetQueryString_loop_flag).
  split; [exact E|].
  unfold signing_query_string. cbv zeta. rewrite E.
  unfold GetQueryString.
  destruct (m_oMapQueryParameters h) as [|[k v] rest]; [reflexivity|].
  cbn [GetQueryString_loop]. cbv zeta.
  rewrite GetQueryString_loop_acc.
  destruct (negb (string_empty v) || false); reflexivity.
Qed.

Lemma signed_query_is_URL_query_witness :
  let h :=
    AddQueryParameter "uploadId" "a b"
      (AddQueryParameter "partNumber" "1"
         (new_VSIS3HandleHelper "" "" "" "s3.amazonaws.com" "us-east-1" ""
            "bucket" "key" true true REGULAR)) in
  signing_query_string h = "partNumber=1&uploadId=a%20b"
  /\ GetQueryString h false = "?" ++ signing_query_string h.
Proof.
  intro h. split; [reflexivity|].
  apply (signed_query_is_URL_query h). reflexivity.
Defined.

(* --------------------------------------------------------------------- *)
(** ** The token file                                                     *)
(* --------------------------------------------------------------------- *)

Lemma string_last_LF (s : string) :
  string_empty s = false ->
  Ascii.eqb (cstr_at s (String.length s - 1)) LF = true ->
  s = string_resize (String.length s - 1) s ++ nl.
Proof.
  induction s as [|c s IH]; intros Hne Hl; [discriminate Hne|].
  destruct s as [|c' s'].
  - cbn in Hl. apply Ascii.eqb_eq in Hl. subst c. reflexivity.
  - replace (String.length (String c (String c' s')) - 1)%nat
      with (S (String.length (String c' s') - 1)) in * by (cbn; lia).
    cbn [string_resize append]. f_equal. apply IH; [reflexivity|].
    exact Hl.
Qed.

Lemma c_str_is_no_nul (s : string) : no_nul (c_str s) = true.
Proof.
  unfold no_nul. induction s as [|c s IH]; [reflexivity|].
  cbn [c_str]. destruct (Ascii.eqb c NUL) eqn:E; [reflexivity|].
  cbn [string_forallb]. now rewrite E, IH.
Qed.

Lemma no_nul_resize_prefix (n : nat) (s : string) :
  (n <= String.length s)%nat -> no_nul s = true -> no_nul (string_resize n s) = true.
Proof.
  unfold no_nul. revert s. induction n as [|n IH]; intros s Hn Hs; [reflexivity|].
  destruct s as [|c s]; [cbn in Hn; lia|].
  cbn [string_forallb] in Hs. apply andb_true_iff in Hs. destruct Hs as [Hc Hs].
  cbn [string_resize string_forallb]. rewrite Hc. apply IH; [cbn in Hn; lia | exact Hs].
Qed.

Lemma string_length_app_nl (t : string) :
  (String.length (t ++ nl) - 1)%nat = String.length t.
Proof.
  assert (H : String.length (t ++ nl) = S (String.length t)).
  { induction t as [|c t IH]; [reflexivity|]. cbn [append String.length].
    now rewrite IH. }
  rewrite H. lia.
Qed.

Lemma cstr_at_app_nl (t : string) :
  cstr_at (t ++ nl) (String.length t) = LF.
Proof. induction t as [|c t IH]; [reflexivity | exact IH]. Qed.

Section TokenFileProperties.
Context {files : Files}.

(** What [ReadAWSWebIdentityTokenFile] does to the text of the file (its
    content up to the first NUL). *)
Lemma ReadAWSWebIdentityTokenFile_text (osWebIdentityTokenFile pabyOut : string) :
  VSIIngestFile osWebIdentityTokenFile = Some pabyOut ->
  let text := c_str pabyOut in
  (forall t, text = t ++ nl ->
     ReadAWSWebIdentityTokenFile osWebIdentityTokenFile
     = if string_empty t then None else Some t)
  /\ ((forall t, text <> t ++ nl) ->
      ReadAWSWebIdentityTokenFile osWebIdentityTokenFile
      = if string_empty text then None else Some text).
Proof.
  intros Hf text. unfold ReadAWSWebIdentityTokenFile. rewrite Hf. fold text.
  generalize text as s. clear. intro s. cbv zeta. split.
  - intros t ->.
    assert (He : string_empty (t ++ nl) = false) by (destruct t; reflexivity).
    rewrite He, string_length_app_nl, cstr_at_app_nl, string_resize_app.
    cbn [negb andb]. rewrite Ascii.eqb_refl.
    destruct (string_empty t); reflexivity.
  - intro Hno. destruct (string_empty s) eqn:Ee.
    + cbn [negb andb]. rewrite Ee. reflexivity.
    + cbn [negb andb].
      destruct (Ascii.eqb (cstr_at s (String.length s - 1)) LF) eqn:El.
      * exfalso. exact (Hno _ (string_last_LF s Ee El)).
      * rewrite Ee. reflexivity.
Qed.

(** [ReadAWSWebIdentityTokenFile] fails when the file cannot be read.
    Otherwise, with [text] the content of the file up to its first NUL:
    when [text] ends with a line feed, the token is [text] less this one
    line feed, and the function fails exactly when nothing is left; when
    [text] does not end with a line feed, the token is [text] itself and
    the function fails exactly when [text] is empty.  So a token that is
    given is never empty and holds no NUL byte, and the function fails
    exactly when the file cannot be read or [text] is empty or a single
    line feed. *)
Theorem ReadAWSWebIdentityTokenFile_token (osWebIdentityTokenFile : string) :
  match VSIIngestFile osWebIdentityTokenFile with
  | None => ReadAWSWebIdentityTokenFile osWebIdentityTokenFile = None
  | Some pabyOut =>
      let text := c_str pabyOut in
      (forall t, text = t ++ nl ->
         ReadAWSWebIdentityTokenFile osWebIdentityTokenFile
         = if string_empty t then None else Some t)
      /\ ((forall t, text <> t ++ nl) ->
          ReadAWSWebIdentityTokenFile osWebIdentityTokenFile
          = if string_empty text then None else Some text)
      /\ match ReadAWSWebIdentityTokenFile osWebIdentityTokenFile with
         | Some token =>
             string_empty token = false /\ no_nul token = true
             /\ (text = token \/ text = token ++ nl)
         | None => text = "" \/ text = nl
         end
  end.
Proof.
  destruct (VSIIngestFile osWebIdentityTokenFile) as [pabyOut|] eqn:Hf;
    [| unfold ReadAWSWebIdentityTokenFile; rewrite Hf; reflexivity].
  destruct (ReadAWSWebIdentityTokenFile_text _ _ Hf) as [Hstrip Hkeep].
  cbv zeta. split; [exact Hstrip | split; [exact Hkeep |]].
  unfold ReadAWSWebIdentityTokenFile. rewrite Hf.
  pose proof (c_str_is_no_nul pabyOut) as Hn. revert Hn.
  generalize (c_str pabyOut) as t. intros t Hn. cbv zeta.
  destruct (string_empty t) eqn:Ee.
  - cbn [negb andb]. rewrite Ee. cbn [negb]. left.
    now apply string_empty_true.
  - cbn [negb andb].
    destruct (Ascii.eqb (cstr_at t (String.length t - 1)) LF) eqn:El.
    + pose proof (string_last_LF t Ee El) as Ht.
      destruct (string_empty (string_resize (String.length t - 1) t)) eqn:Er.
      * cbn [negb]. right. apply string_empty_true in Er.
        rewrite Er in Ht. exact Ht.
      * cbn [negb]. split; [exact Er|].
        split; [apply no_nul_resize_prefix; [lia | exact Hn]|].
        right. exact Ht.
    + rewrite Ee. cbn [negb]. split; [exact Ee|]. split; [exact Hn|].
      now left.
Qed.

End TokenFileProperties.

(** The token of a file that holds ["jwt"] and a line feed is ["jwt"]; a
    file that holds a line feed only gives no token. *)
Lemma ReadAWSWebIdentityTokenFile_token_witness :
  ReadAWSWebIdentityTokenFile (files := token_files) "/token" = Some "jwt"
  /\ ReadAWSWebIdentityTokenFile (files := blank_token_files) "/token" = None.
Proof.
  split.
  - pose proof (ReadAWSWebIdentityTokenFile_token (files := token_files) "/token")
      as H.
    cbv zeta in H. cbn [VSIIngestFile token_files String.eqb Ascii.eqb Bool.eqb] in H.
    destruct H as [H _]. exact (H "jwt" eq_refl).
  - pose proof (ReadAWSWebIdentityTokenFile_token (files := blank_token_files)
                  "/token") as H.
    cbv zeta in H.
    cbn [VSIIngestFile blank_token_files String.eqb Ascii.eqb Bool.eqb] in H.
    destruct H as [H _]. exact (H "" eq_refl).
Defined.


(* --------------------------------------------------------------------- *)
(** ** The cache after [ClearCache]                                       *)
(* --------------------------------------------------------------------- *)

Section ClearCacheProperties.
Context {opts : Options} {files : Files} {xml : XMLReader} {net : Network}
        {clock : TimeLib} {platform : Platform} {tok : Tokenizer}
        {hash : HashPrimitives}.

Lemma cache_still_valid_ClearCache (g : Globals) :
  cache_still_valid (ClearCache g) = false.
Proof. reflexivity. Qed.

Lemma handle_credentials_set (cs : CredentialStrings) (h : VSIS3HandleHelper) :
  handle_credentials (set_handle_credentials cs h) = cs.
Proof. destruct cs; reflexivity. Qed.

(** Once the cache is cleared, a refresh of the credentials of a handle,
    forced or not, leaves the cache empty or holding exactly the
    credentials the handle now has: nothing of what the cache held before
    [ClearCache] comes back, and nothing is cached that the handle did not
    get. *)
Theorem ClearCache_then_refresh (osPathForOption : string) (bForceRefresh : bool)
    (h : VSIS3HandleHelper) (g : Globals) :
  let r := RefreshCredentials osPathForOption bForceRefresh h (ClearCache g) in
  cache_emptied (snd r)
  \/ handle_credentials (fst r) = cached_credentials (snd r).
Proof.
  cbv zeta. unfold RefreshCredentials.
  destruct (m_eCredentialsSource h).
  - left. reflexivity.
  - unfold GetConfigurationFromEC2.
    rewrite cache_still_valid_ClearCache, andb_false_r.
    pose proof (EC2_refresh_outcome (c_str osPathForOption)
                  (mkCredentialStrings "" "" "") (ClearCache g)) as H.
    cbv zeta in H.
    destruct (EC2_refresh _ _ _) as [[ok cs'] g']. cbn [fst snd] in H.
    destruct H as [[Hc _]|[H1 H2]].
    + left. destruct ok; exact Hc.
    + subst ok. right. cbn [fst snd].
      now rewrite handle_credentials_set, H2.
  - unfold GetConfigurationFromAssumeRoleWithWebIdentity.
    rewrite cache_still_valid_ClearCache, andb_false_r.
    pose proof (AssumeRoleWithWebIdentity_refresh_outcome
                  (c_str osPathForOption) "" ""
                  (mkCredentialStrings "" "" "") (ClearCache g)) as H.
    cbv zeta in H.
    destruct (AssumeRoleWithWebIdentity_refresh _ _ _ _ _) as [[ok cs'] g'].
    cbn [fst snd] in H. destruct H as [H|[H1 H2]].
    + left. subst g'. destruct ok; reflexivity.
    + subst ok. right. cbn [fst snd].
      now rewrite handle_credentials_set, H2.
  - unfold GetOrRefreshTemporaryCredentialsForRole.
    rewrite cache_still_valid_ClearCache, andb_false_r.
    pose proof (TemporaryCredentialsForRole_refresh_outcome bForceRefresh
                  (mkCredentialStrings "" "" "") "" (ClearCache g)) as H.
    cbv zeta in H.
    destruct (TemporaryCredentialsForRole_refresh _ _ _ _)
      as [[ok [cs' r']] g'].
    cbn [fst snd] in H. destruct ok.
    + right. cbn [fst snd]. now rewrite handle_credentials_set.
    + left. cbn [fst snd]. destruct H as [[Hc _]|H]; [exact Hc | exact H].
Qed.

End ClearCacheProperties.

(* --------------------------------------------------------------------- *)
(** ** A handle is built without failure                                  *)
(* --------------------------------------------------------------------- *)

Section WarningsOnly.
Context {opts : Options} {files : Files}.

Lemma config_entry_warnings (osConfig : string) (st : ConfigVars * list ErrorEvent)
    (pszKey pszValue : string) :
  forallb is_warning (snd st) = true ->
  forallb is_warning (snd (config_entry osConfig st pszKey pszValue)) = true.
Proof.
  destruct st as [c log]. cbn [snd]. intro H. unfold config_entry.
  repeat match goal with
         | |- context [if ?b then _ else _] =>
             lazymatch b with
             | EQUAL _ _ => destruct b
             | String.eqb pszKey _ => destruct b
             end
         end;
    try exact H;
    unfold UpdateAndWarnIfInconsistent;
    repeat match goal with
           | |- context [if ?b then _ else _] => destruct b
           end;
    cbn [snd]; rewrite forallb_app, H; reflexivity.
Qed.

Lemma config_file_loop_warnings (lines : list string) (b bp cfg : string) :
  forall (bInProfile : bool) (st : ConfigVars * list ErrorEvent),
    forallb is_warning (snd st) = true ->
    forallb is_warning (snd (config_file_loop lines b bp cfg bInProfile st)) = true.
Proof.
  induction lines as [|l rest IH]; intros bInProfile st H.
  - exact H.
  - cbn [config_file_loop].
    destruct (Ascii.eqb (cstr_at l 0) "[").
    + destruct bInProfile; [exact H|].
      destruct (String.eqb l b || String.eqb l bp); apply IH, H.
    + destruct bInProfile; [|apply IH, H].
      apply IH. destruct (CPLParseNameValue l) as [[k v]|]; [|exact H].
      apply config_entry_warnings, H.
Qed.

Lemma GetConfigurationFromAWSConfigFiles_warnings (osPathForOption : string)
    (pszProfile : option string) (vars : ConfigVars) :
  forallb is_warning
    (snd (GetConfigurationFromAWSConfigFiles osPathForOption pszProfile vars))
  = true.
Proof.
  unfold GetConfigurationFromAWSConfigFiles. cbv zeta.
  destruct (ReadAWSCredentials _ _) as [ok [[s a] t]].
  destruct (read_lines (config_path osPathForOption)) as [lines|].
  - match goal with
    | |- context [config_file_loop ?l ?b ?bp ?c false ?st] =>
        pose proof (config_file_loop_warnings l b bp c false st eq_refl) as H;
        destruct (config_file_loop l b bp c false st) as [vars' log]
    end.
    exact H.
  - destruct (path_option osPathForOption "AWS_CONFIG_FILE") as [env|];
      [destruct (negb (string_empty env))|]; reflexivity.
Qed.

End WarningsOnly.

Section BuiltHandles.
Context {opts : Options} {files : Files} {xml : XMLReader} {net : Network}
        {clock : TimeLib} {platform : Platform} {tok : Tokenizer}
        {hash : HashPrimitives}.

Lemma assume_configured_role_warnings (osPathForOption : string)
    (vars : ConfigVars) (g : Globals) (log : list ErrorEvent) :
  forallb is_warning log = true ->
  cfg_ret (assume_configured_role osPathForOption vars g log) = true ->
  forallb is_warning (cfg_errors (assume_configured_role osPathForOption vars g log))
  = true.
Proof.
  intro Hlog. unfold assume_configured_role. cbv zeta.
  pose proof (GetConfigurationFromAWSConfigFiles_warnings osPathForOption
                (Some (c_str (cv_osSourceProfile vars)))
                (set_cv_osWebIdentityTokenFile (cv_osWebIdentityTokenFile vars)
                   empty_ConfigVars)) as HSP.
  destruct (GetConfigurationFromAWSConfigFiles _ _ _) as [[okSP varsSP] logSP].
  cbn [snd] in HSP.
  assert (Hboth : forallb is_warning (log ++ logSP) = true)
    by (now rewrite forallb_app, Hlog, HSP).
  destruct (negb (string_empty (cv_osSourceProfile vars)));
    [destruct okSP;
     [destruct (GetConfigurationFromAssumeRoleWithWebIdentity _ _ _ _ _ _)
        as [[[] csW] gW]|]|];
    repeat match goal with
           | |- context [match ?x with _ => _ end] =>
               lazymatch x with
               | context [match _ with _ => _ end] => fail
               | _ => destruct x
               end
           end;
    cbn [cfg_ret cfg_errors]; intro Hret;
    first [discriminate Hret | exact Hlog | exact Hboth].
Qed.

Lemma GetConfiguration_warnings (osPathForOption : string)
    (papszOptions : list string) (cs : CredentialStrings) (g : Globals) :
  cfg_ret (GetConfiguration osPathForOption papszOptions cs g) = true ->
  forallb is_warning
    (cfg_errors (GetConfiguration osPathForOption papszOptions cs g)) = true.
Proof.
  unfold GetConfiguration. cbv zeta.
  destruct (CPLTestBool _); [reflexivity|].
  destruct (negb (string_empty _)).
  - destruct (string_empty _); [discriminate | reflexivity].
  - destruct (negb (string_empty (gosRoleArn g)));
      [destruct (GetOrRefreshTemporaryCredentialsForRole _ _ _ _)
         as [[[] [cs1 r1]] g1]; [reflexivity|]|];
      match goal with
      | |- context [GetConfigurationFromAWSConfigFiles ?p ?o ?v] =>
          pose proof (GetConfigurationFromAWSConfigFiles_warnings p o v) as HF;
          destruct (GetConfigurationFromAWSConfigFiles p o v)
            as [[okFiles vars] log]
      end;
      cbn [snd] in HF;
      (destruct okFiles;
       [destruct (string_empty (cv_osSecretAccessKey vars)
                  && negb (string_empty (cv_osRoleArn vars)));
        [apply assume_configured_role_warnings, HF | intros _; exact HF]|]);
      (destruct (CPLTestBool _);
       [destruct (GetConfigurationFromAssumeRoleWithWebIdentity _ _ _ _ _ _)
          as [[[] csW] gW]; [intros _; exact HF|]|]);
      (destruct (GetConfigurationFromEC2 _ _ _ _) as [[[] csE] gE];
       [intros _; exact HF | discriminate]).
Qed.

(** When [BuildFromURI] returns a handle, nothing but warnings has been
    reported; the URL of the handle is in step with its members, and it
    has no query parameter. *)
Theorem BuildFromURI_handle (pszURI : option string) (pszFSPrefix : string)
    (bAllowNoObject : bool) (papszOptions : list string) (g : Globals)
    (h : VSIS3HandleHelper) (g' : Globals) (errors : list ErrorEvent) :
  BuildFromURI pszURI pszFSPrefix bAllowNoObject papszOptions g
  = (Some h, g', errors) ->
  forallb is_warning errors = true
  /\ URL_in_step h
  /\ m_oMapQueryParameters h = [].
Proof.
  unfold BuildFromURI. cbv zeta.
  set (path := "/vsis3/" ++ match pszURI with Some u => u | None => "" end).
  pose proof (GetConfiguration_warnings path papszOptions
                (mkCredentialStrings "" "" "") g) as HW.
  destruct (GetConfiguration path papszOptions (mkCredentialStrings "" "" "") g)
    as [ret cred region src gc errs].
  cbn [cfg_ret cfg_errors cfg_globals cfg_credentials cfg_osRegion
       cfg_eCredentialsSource] in *.
  destruct ret; [|discriminate]. cbn [negb].
  assert (HP : forall parsed,
             bk_ret parsed = true ->
             bk_errors parsed = [] ->
             (if negb (bk_ret parsed)
              then (None, gc, (errs ++ bk_errors parsed)%list)
              else
                (Some
                   (new_VSIS3HandleHelper (cs_osSecretAccessKey cred)
                      (cs_osAccessKeyId cred) (cs_osSessionToken cred)
                      (VSIGetPathSpecificOption path "AWS_S3_ENDPOINT"
                         "s3.amazonaws.com")
                      (if negb (string_empty
                                  (option_value papszOptions path
                                     "AWS_DEFAULT_REGION" ""))
                       then option_value papszOptions path "AWS_DEFAULT_REGION" ""
                       else region)
                      (VSIGetPathSpecificOption path "AWS_REQUEST_PAYER" "")
                      (bk_osBucket parsed) (bk_osObjectKey parsed)
                      (CPLTestBool
                         (VSIGetPathSpecificOption path "AWS_HTTPS" "YES"))
                      (CPLTestBool
                         (CSLFetchNameValueDef papszOptions "AWS_VIRTUAL_HOSTING"
                            (VSIGetPathSpecificOption path "AWS_VIRTUAL_HOSTING"
                               (if match string_find "." (bk_osBucket parsed) with
                                   | Some _ => false
                                   | None => true
                                   end
                                then "TRUE" else "FALSE"))))
                      src),
                 gc, (errs ++ bk_errors parsed)%list))
             = (Some h, g', errors) ->
             forallb is_warning errors = true /\ URL_in_step h
             /\ m_oMapQueryParameters h = []).
  { intros parsed Hr He. rewrite Hr, He. cbn [negb]. intro E.
    injection E as Eh _ Ee. subst h errors.
    rewrite app_nil_r. split; [apply HW; reflexivity|].
    split; [|reflexivity].
    unfold URL_in_step, new_VSIS3HandleHelper, GetQueryString.
    cbn. now rewrite append_nil_r. }
  destruct pszURI as [u|]; [|apply HP; reflexivity].
  destruct (negb (string_empty u)); [|apply HP; reflexivity].
  unfold GetBucketAndObjectKey.
  destruct (string_empty u); [discriminate|].
  destruct (string_find "/" u) as [n|].
  - apply HP; reflexivity.
  - destruct bAllowNoObject; [apply HP; reflexivity | discriminate].
Qed.

End BuiltHandles.

(** The two files of the conflict scenario disagree on the access key id:
    a handle is built, with the warning. *)
Lemma BuildFromURI_handle_witness :
  exists h g' errors,
    BuildFromURI (opts := scenario_options) (files := conflict_files)
      (xml := scenario_xml) (net := offline_network) (clock := clock_at 0)
      (platform := not_ec2) (tok := no_tokens) (hash := no_hash)
      (Some "bucket/key") "/vsis3/" false [] initial_globals
    = (Some h, g', errors)
    /\ List.length errors = 1%nat
    /\ forallb is_warning errors = true
    /\ URL_in_step h
    /\ m_oMapQueryParameters h = [].
Proof.
  eexists. eexists. eexists.
  split; [vm_compute; reflexivity|]. split; [reflexivity|].
  eapply (BuildFromURI_handle (opts := scenario_options) (files := conflict_files)
            (xml := scenario_xml) (net := offline_network) (clock := clock_at 0)
            (platform := not_ec2) (tok := no_tokens) (hash := no_hash)
            (Some "bucket/key") "/vsis3/" false [] initial_globals).
  vm_compute. reflexivity.
Defined.
